(** * nik-server: a shallow embedding of the upload / integrity / retrieval
    pipeline (server routes, database.js, config.js) and its properties. *)

From Stdlib Require Import ZArith List String Ascii Lia Permutation Sorted.
From stdpp Require Import gmap strings list pretty.

Local Open Scope Z_scope.

(** ** JavaScript strings

    A JS string is modelled as a Rocq [string]; only ASCII letters change
    case, which is all the patterns of the server can see. *)

Module Js.

Definition is_upper (c : ascii) : bool :=
  (65 <=? nat_of_ascii c)%nat && (nat_of_ascii c <=? 90)%nat.

Definition lower_ascii (c : ascii) : ascii :=
  if is_upper c then ascii_of_nat (nat_of_ascii c + 32) else c.

(** [String.prototype.toLowerCase] *)
Fixpoint toLowerCase (s : string) : string :=
  match s with
  | EmptyString => EmptyString
  | String c r => String (lower_ascii c) (toLowerCase r)
  end.

(** [s.endsWith(suf)]: some suffix of [s] is [suf]. *)
Fixpoint endsWith (suf s : string) : bool :=
  if String.eqb s suf then true
  else match s with
       | EmptyString => false
       | String _ r => endsWith suf r
       end.

(** [s.startsWith(p)] *)
Definition startsWith (p s : string) : bool := String.prefix p s.

(** [s.includes(needle)] *)
Fixpoint includes (needle s : string) : bool :=
  String.prefix needle s ||
  match s with
  | EmptyString => false
  | String _ r => includes needle r
  end.

(** Every character of [s] satisfies [P]. *)
Fixpoint every (P : ascii -> bool) (s : string) : bool :=
  match s with
  | EmptyString => true
  | String c r => P c && every P r
  end.

(** The characters of a number printed in decimal. *)
Definition decimal_char (c : ascii) : bool :=
  Ascii.eqb c "-" || ((48 <=? nat_of_ascii c)%nat && (nat_of_ascii c <=? 57)%nat).

(** Truthiness of an optional string ([undefined] and [''] are falsy). *)
Definition truthy (v : option string) : bool :=
  match v with
  | Some s => negb (String.eqb s EmptyString)
  | None => false
  end.

End Js.

(** ** Content Store admission: the multer [fileFilter] *)

(** What multer hands to [fileFilter] and to the storage engine for one
    file part of the multipart body. *)
Module Part.
Record t := {
  fieldname : string;
  originalname : string;
  mimetype : string;
  content : list Byte.byte
}.
End Part.

Definition extensionList : list string :=
  ["jpeg"; "jpg"; "png"; "gif"; "pdf"; "txt"; "doc"; "docx"]%string.

Definition mimetypeList : list string :=
  ["image/jpeg"; "image/jpg"; "image/png"; "image/gif";
   "application/pdf"; "application/msword";
   "application/vnd.openxmlformats-officedocument.wordprocessingml.document";
   "text/plain"]%string.

(** [/\.(jpeg|jpg|png|gif|pdf|txt|doc|docx)$/i.test(s)]: the pattern is
    anchored at the end only; the [i] flag is rendered by comparing the
    subject in lower case. *)
Definition allowedExtensions_test (s : string) : bool :=
  existsb (fun e => Js.endsWith ("." +:+ e) (Js.toLowerCase s)) extensionList.

(** [/^(image\/(jpeg|jpg|png|gif)|application\/(pdf|msword|vnd\.openxml...)|text\/plain)$/.test(s)]:
    anchored at both ends and case sensitive, so a plain comparison. *)
Definition allowedMimetypes_test (s : string) : bool :=
  existsb (String.eqb s) mimetypeList.

Inductive FilterResult :=
| Accept
| RejectFile (message : string).

Definition invalidFileType : string :=
  "Invalid file type. Only JPEG, PNG, GIF, PDF, TXT, DOC, DOCX are allowed.".

Definition fileFilter (file : Part.t) : FilterResult :=
  let extname := allowedExtensions_test (Js.toLowerCase (Part.originalname file)) in
  let mimetype := allowedMimetypes_test (Part.mimetype file) in
  if mimetype && extname then Accept else RejectFile invalidFileType.

(** The pair list as the specification words it: every allowed format
    together with the MIME type of that same format. *)
Definition spec_allowed_pairs : list (string * string) :=
  [("jpeg", "image/jpeg"); ("jpg", "image/jpeg");
   ("jpeg", "image/jpg"); ("jpg", "image/jpg");
   ("png", "image/png"); ("gif", "image/gif");
   ("pdf", "application/pdf"); ("txt", "text/plain");
   ("doc", "application/msword");
   ("docx", "application/vnd.openxmlformats-officedocument.wordprocessingml.document")]%string.

Definition spec_pair_ok (file : Part.t) : bool :=
  existsb (fun p => Js.endsWith ("." +:+ fst p) (Js.toLowerCase (Part.originalname file))
                    && String.eqb (Part.mimetype file) (snd p))
          spec_allowed_pairs.

(** ** More of the JS runtime: numbers, splitting, trimming *)

(** A JS value as far as config.js and database.js handle one.  A number
    is a double; the numbers that occur are the integral ones, NaN and the
    two infinities. *)
Inductive JsVal :=
| JsUndefined
| JsString (s : string)
| JsNumber (z : Z)
| JsNaN
| JsInfinity (negative : bool).

Module JsNum.

Definition digit_of (c : ascii) : option Z :=
  let n := nat_of_ascii c in
  if (48 <=? n)%nat && (n <=? 57)%nat then Some (Z.of_nat (n - 48)) else None.

(** Value of the longest prefix of decimal digits; [acc] is [None] until
    the first digit has been read. *)
Fixpoint leading_digits (s : string) (acc : option Z) : option Z :=
  match s with
  | EmptyString => acc
  | String c r =>
      match digit_of c with
      | Some d => leading_digits r (Some (10 * default 0 acc + d))
      | None => acc
      end
  end.

(** The blanks of JS (WhiteSpace and LineTerminator).  A string holds the
    UTF-8 bytes of the JS string, so the blanks beyond ASCII are byte
    sequences: U+00A0 is C2 A0; U+1680 is E1 9A 80; U+2000 to U+200A,
    U+2028, U+2029 and U+202F are E2 80 followed by 80 to 8A, A8, A9, AF;
    U+205F is E2 81 9F; U+3000 is E3 80 80; U+FEFF is EF BB BF. *)
Definition is_space (c : ascii) : bool :=
  let n := nat_of_ascii c in
  (n =? 32)%nat || ((9 <=? n)%nat && (n <=? 13)%nat).

Definition blank2 (a b : ascii) : bool :=
  (nat_of_ascii a =? 194)%nat && (nat_of_ascii b =? 160)%nat.

Definition blank3 (a b c : ascii) : bool :=
  let x := nat_of_ascii a in
  let y := nat_of_ascii b in
  let z := nat_of_ascii c in
  ((x =? 225) && (y =? 154) && (z =? 128))%nat
  || ((x =? 226) && (y =? 128)
      && (((128 <=? z) && (z <=? 138)) || (z =? 168) || (z =? 169) || (z =? 175)))%nat
  || ((x =? 226) && (y =? 129) && (z =? 159))%nat
  || ((x =? 227) && (y =? 128) && (z =? 128))%nat
  || ((x =? 239) && (y =? 187) && (z =? 191))%nat.

(** Dropping the blanks at the start of [s]; [two] and [three] recognise
    the blanks of two and of three bytes. *)
Fixpoint strip (two : ascii -> ascii -> bool)
    (three : ascii -> ascii -> ascii -> bool) (s : string) : string :=
  match s with
  | EmptyString => EmptyString
  | String a r =>
      if is_space a then strip two three r
      else
        match r with
        | EmptyString => s
        | String b r' =>
            if two a b then strip two three r'
            else
              match r' with
              | EmptyString => s
              | String c r'' =>
                  if three a b c then strip two three r'' else s
              end
        end
  end.

(** [s.trimStart()] *)
Definition trimStart (s : string) : string := strip blank2 blank3 s.

(** [s.trimEnd()]: the same on the reversed string, where the bytes of a
    blank come in reverse. *)
Definition trimEnd (s : string) : string :=
  String.rev (strip (fun a b => blank2 b a) (fun a b c => blank3 c b a)
                    (String.rev s)).

(** [s.trim()] *)
Definition trim (s : string) : string := trimEnd (trimStart s).

(** The double nearest to the integer [n] (ties to even): JS numbers are
    doubles, so this is the number that a digit string denoting [n]
    evaluates to.  Beyond the largest double it is an infinity. *)
Definition to_double (n : Z) : JsVal :=
  let a := Z.abs n in
  if a <? 2 ^ 53 then JsNumber n
  else
    let e := Z.log2 a - 52 in
    let q := a / 2 ^ e in
    let r := a mod 2 ^ e in
    let half := 2 ^ (e - 1) in
    let q' := if (half <? r) || ((r =? half) && Z.odd q) then q + 1 else q in
    let m := q' * 2 ^ e in
    if 2 ^ 1024 <=? m then JsInfinity (n <? 0)
    else JsNumber (Z.sgn n * m).

Definition number_of (digits : option Z) : JsVal :=
  match digits with
  | Some n => to_double n
  | None => JsNaN
  end.

(** [parseInt(s, 10)] *)
Definition parseInt10 (s : string) : JsVal :=
  number_of
    match trimStart s with
    | String "-"%char r => Z.opp <$> leading_digits r None
    | String "+"%char r => leading_digits r None
    | t => leading_digits t None
    end.

Definition hex_digit_of (c : ascii) : option Z :=
  let n := nat_of_ascii c in
  if (48 <=? n)%nat && (n <=? 57)%nat then Some (Z.of_nat (n - 48))
  else if (97 <=? n)%nat && (n <=? 102)%nat then Some (Z.of_nat (n - 87))
  else if (65 <=? n)%nat && (n <=? 70)%nat then Some (Z.of_nat (n - 55))
  else None.

Fixpoint leading_hex_digits (s : string) (acc : option Z) : option Z :=
  match s with
  | EmptyString => acc
  | String c r =>
      match hex_digit_of c with
      | Some d => leading_hex_digits r (Some (16 * default 0 acc + d))
      | None => acc
      end
  end.

(** The digits of [parseInt(s)] once the sign is read: hexadecimal after a
    [0x] or [0X] prefix, decimal otherwise. *)
Definition unsigned_digits (s : string) : option Z :=
  match s with
  | String "0"%char (String "x"%char r)
  | String "0"%char (String "X"%char r) => leading_hex_digits r None
  | _ => leading_digits s None
  end.

(** [parseInt(s)] without a radix. *)
Definition parseInt (s : string) : JsVal :=
  number_of
    match trimStart s with
    | String "-"%char r => Z.opp <$> unsigned_digits r
    | String "+"%char r => unsigned_digits r
    | t => unsigned_digits t
    end.

(** The longest prefix of decimal digits, and what follows it. *)
Fixpoint take_digits (s : string) : string * string :=
  match s with
  | EmptyString => (EmptyString, EmptyString)
  | String c r =>
      match digit_of c with
      | Some _ => let '(d, rest) := take_digits r in (String c d, rest)
      | None => (EmptyString, s)
      end
  end.

(** [s.split(sep)] for a one-character separator. *)
Fixpoint split (sep : ascii) (s : string) : list string :=
  match s with
  | EmptyString => [EmptyString]
  | String c r =>
      if Ascii.eqb c sep then EmptyString :: split sep r
      else match split sep r with
           | h :: t => String c h :: t
           | [] => [String c EmptyString]
           end
  end.

End JsNum.

(** Reading a property of a JS object: an absent key reads [undefined]. *)
Definition js_get (obj : gmap string JsVal) (key : string) : JsVal :=
  default JsUndefined (obj !! key).

(** The outcome of running a piece of JS: a value, or a thrown [Error]
    (a rejected promise) with its message. *)
Inductive Outcome (A : Type) :=
| Returned (a : A)
| Thrown (message : string).
Arguments Returned {A} a.
Arguments Thrown {A} message.

Definition dquote : string := String (ascii_of_nat 34) EmptyString.

(** ** Node's [path] module (POSIX flavour) *)

Module Path.

Fixpoint has_slash (s : string) : bool :=
  match s with
  | EmptyString => false
  | String c r => Ascii.eqb c "/" || has_slash r
  end.

Fixpoint basename (p : string) : string :=
  match p with
  | EmptyString => EmptyString
  | String c r =>
      if has_slash r then basename r
      else if Ascii.eqb c "/" then r else p
  end.

(** The suffix of [s] that starts at its last dot, if it has a dot. *)
Fixpoint from_last_dot (s : string) : option string :=
  match s with
  | EmptyString => None
  | String c r =>
      match from_last_dot r with
      | Some e => Some e
      | None => if Ascii.eqb c "." then Some s else None
      end
  end.

(** [path.extname]: from the last dot of the base name; a dot in first
    position does not start an extension, and [..] has none. *)
Definition extname (p : string) : string :=
  let b := basename p in
  if String.eqb b ".." then EmptyString
  else match b with
       | EmptyString => EmptyString
       | String _ r => default EmptyString (from_last_dot r)
       end.

(** The part of [p] before its last slash, if it has a slash. *)
Fixpoint before_last_slash (p : string) : option string :=
  match p with
  | EmptyString => None
  | String c r =>
      match before_last_slash r with
      | Some d => Some (String c d)
      | None => if Ascii.eqb c "/" then Some EmptyString else None
      end
  end.

Definition dirname_string (p : string) : string :=
  match before_last_slash p with
  | None => "."
  | Some EmptyString => "/"
  | Some d => d
  end.

Definition invalid_path_argument : string :=
  "The " +:+ dquote +:+ "path" +:+ dquote
  +:+ " argument must be of type string. Received undefined".

(** [path.dirname]: Node validates that the argument is a string and
    throws a [TypeError] (ERR_INVALID_ARG_TYPE) otherwise. *)
Definition dirname (p : JsVal) : Outcome string :=
  match p with
  | JsString s => Returned (dirname_string s)
  | _ => Thrown invalid_path_argument
  end.

(** A name that is one proper segment of a path: not empty, without a
    slash, and neither [.] nor [..]. *)
Definition is_segment (name : string) : bool :=
  negb (has_slash name) && negb (String.eqb name "")
  && negb (String.eqb name ".") && negb (String.eqb name "..").

(** One segment of the path met by [normalizeString]; [res] holds the
    segments kept so far, the last one first.  An empty segment and [.]
    are dropped; [..] removes the last segment kept, unless there is none
    or it is [..] itself: then it is kept if the path is relative. *)
Definition normalize_segment (allowAboveRoot : bool) (res : list string)
    (segment : string) : list string :=
  if String.eqb segment "" || String.eqb segment "." then res
  else if String.eqb segment ".." then
    match res with
    | last :: kept =>
        if String.eqb last ".." then (if allowAboveRoot then segment :: res else res)
        else kept
    | [] => if allowAboveRoot then [segment] else []
    end
  else segment :: res.

(** The segments, in order, with a slash between them. *)
Fixpoint with_slashes (segments : list string) : string :=
  match segments with
  | [] => EmptyString
  | [x] => x
  | x :: rest => x +:+ "/" +:+ with_slashes rest
  end.

Definition normalizeString (path : string) (allowAboveRoot : bool) : string :=
  with_slashes
    (rev (fold_left (normalize_segment allowAboveRoot) (JsNum.split "/" path) [])).

(** [path.normalize] *)
Definition normalize (path : string) : string :=
  if String.eqb path "" then "."
  else
    let isAbsolute := Js.startsWith "/" path in
    let trailingSeparator := Js.endsWith "/" path in
    let path := normalizeString path (negb isAbsolute) in
    if String.eqb path "" then
      if isAbsolute then "/" else if trailingSeparator then "./" else "."
    else
      let path := if trailingSeparator then path +:+ "/" else path in
      if isAbsolute then "/" +:+ path else path.

(** [path.join(...paths)]: the non-empty arguments joined by slashes, then
    normalised. *)
Definition join_all (paths : list string) : string :=
  match filter (fun p => negb (String.eqb p EmptyString)) paths with
  | [] => "."
  | joined => normalize (with_slashes joined)
  end.

(** [path.join(dir, name)] *)
Definition join (dir name : string) : string := join_all [dir; name].

End Path.

(** ** Hex encoding of a digest: [hash.digest('hex')] *)

Module Hex.

Definition hex_char (n : N) : ascii :=
  match n with
  | 0 => "0" | 1 => "1" | 2 => "2" | 3 => "3" | 4 => "4" | 5 => "5"
  | 6 => "6" | 7 => "7" | 8 => "8" | 9 => "9" | 10 => "a" | 11 => "b"
  | 12 => "c" | 13 => "d" | 14 => "e" | _ => "f"
  end%N%char.

Definition encode_byte (b : Byte.byte) (rest : string) : string :=
  let n := Byte.to_N b in
  String (hex_char (n / 16)) (String (hex_char (n mod 16)) rest).

Definition encode (bs : list Byte.byte) : string :=
  fold_right encode_byte EmptyString bs.





End Hex.

(** ** Timestamps

    Two textual forms occur.  [new Date().toISOString()] prints the clock
    to the millisecond ([IsoMillis]); SQLite's [CURRENT_TIMESTAMP] prints
    it as 'YYYY-MM-DD HH:MM:SS', whole seconds ([SqlSeconds]).  A text is
    represented by the instant it prints; comparing two [SqlSeconds] texts
    as SQLite compares TEXT agrees with comparing their seconds. *)
Inductive TimeText :=
| IsoMillis (ms : Z)
| SqlSeconds (s : Z).

Definition toISOString (now : Z) : TimeText := IsoMillis now.
Definition CURRENT_TIMESTAMP (now : Z) : TimeText := SqlSeconds (now / 1000).

Definition instant_ms (t : TimeText) : Z :=
  match t with
  | IsoMillis ms => ms
  | SqlSeconds s => s * 1000
  end.

(** The sort key of [ORDER BY uploaded_at]. *)
Definition time_key (t : TimeText) : Z := instant_ms t.

(** ** JSON bodies and HTTP responses *)

#[local] Set Warnings "-register-all".
Inductive Json :=
| JNull
| JNum (z : Z)
| JStr (s : string)
| JTime (t : TimeText)
| JArr (items : list Json)
| JObj (fields : list (string * Json)).

(** A value of the JSON body of a request, as [express.json()] parses
    it (numbers: the integers). *)
Inductive JsonValue :=
| JsonNull
| JsonBool (b : bool)
| JsonNumber (z : Z)
| JsonString (s : string)
| JsonArray (items : list JsonValue)
| JsonObject (fields : list (string * JsonValue)).

(** Truthiness of a field of the body; an absent field reads [undefined]. *)
Definition json_truthy (v : option JsonValue) : bool :=
  match v with
  | None | Some JsonNull => false
  | Some (JsonBool b) => b
  | Some (JsonNumber z) => negb (z =? 0)
  | Some (JsonString s) => negb (String.eqb s EmptyString)
  | Some (JsonArray _) | Some (JsonObject _) => true
  end.

Inductive Body :=
| JsonBody (j : Json)
| StreamBody (bytes : list Byte.byte).

(** A reply as the client reads it: the status, the body and, for a
    streamed reply, the headers that the route has set with
    [res.setHeader].  The headers of a JSON reply are left out. *)
Record Response := {
  status : Z;
  headers : list (string * string);
  body : Body
}.

(** [res.status(code).json(j)] *)
Definition json_response (code : Z) (j : Json) : Response :=
  {| status := code; headers := []; body := JsonBody j |}.

(** [res.status(code).json({ error: message })] *)
Definition error_response (code : Z) (message : string) : Response :=
  json_response code (JObj [("error"%string, JStr message)]).

(** ** Rows of the two tables *)

(** A value bound to, or stored in, a column of INTEGER affinity: NULL,
    an integer, an infinite REAL, or a text.  A finite REAL that is no
    integer is kept as the text it was bound from: like a text, it equals
    no integer. *)
Inductive SqlVal :=
| SqlNull
| SqlInt (n : Z)
| SqlText (s : string)
| SqlInfinity (negative : bool).

#[global] Instance SqlVal_eq_dec : EqDecision SqlVal.
Proof. solve_decision. Defined.

(** A plain integer literal: an optional sign and decimal digits, with a
    value that fits a 64-bit signed integer. *)
Definition integer_literal (s : string) : option Z :=
  let '(negative, digits) :=
    match s with
    | String "-"%char r => (true, r)
    | String "+"%char r => (false, r)
    | _ => (false, s)
    end in
  match JsNum.take_digits digits with
  | (String _ _, EmptyString) =>
      let m := default 0 (JsNum.leading_digits digits None) in
      let n := if negative then - m else m in
      if (- 2 ^ 63 <=? n) && (n <? 2 ^ 63) then Some n else None
  | _ => None
  end.

(** The comparison [a = b] of a WHERE clause; NULL equals nothing. *)
Definition SqlVal_eqb (a b : SqlVal) : bool :=
  match a, b with
  | SqlInt x, SqlInt y => Z.eqb x y
  | SqlText x, SqlText y => String.eqb x y
  | _, _ => false
  end.

Module UserRow.
Record t := {
  id : Z;
  username : string;
  email : string;
  password_hash : string;
  created_at : TimeText;
  updated_at : TimeText
}.
End UserRow.

Module FileRow.
Record t := {
  id : Z;
  user_id : SqlVal;
  original_name : string;
  filename : string;
  file_path : string;
  file_size : Z;
  mime_type : string;
  file_hash : string;
  uploaded_at : TimeText
}.
End FileRow.

(** The SQLite database: both tables in rowid order, and the
    [sqlite_sequence] entries kept for AUTOINCREMENT. *)
Record Database := {
  users : list UserRow.t;
  files : list FileRow.t;
  users_seq : Z;
  files_seq : Z
}.

(** AUTOINCREMENT: one more than the largest rowid ever used. *)
Definition next_rowid (seq : Z) (ids : list Z) : Z :=
  fold_right Z.max seq ids + 1.

(** ** The world a request runs in

    The environment is explicit.  [script] is consumed one [Step] per
    SQLite statement: a step may make the statement fail with the engine's
    error (disk full, database locked, ...) and says how long the statement
    takes before its callback runs.  [random] is consumed one entry per
    [Math.round(Math.random() * 1E9)]. *)

Record Step := {
  elapsed : nat;
  fault : option string
}.

Record World := {
  db : Database;
  disk : gmap string (list Byte.byte);
  dirs : gset string;
  now : Z;
  script : list Step;
  random : list Z
}.

Definition set_db (d : Database) (w : World) : World :=
  {| db := d; disk := disk w; dirs := dirs w; now := now w;
     script := script w; random := random w |}.

Definition set_disk (f : gmap string (list Byte.byte)) (w : World) : World :=
  {| db := db w; disk := f; dirs := dirs w; now := now w;
     script := script w; random := random w |}.

Definition set_dirs (ds : gset string) (w : World) : World :=
  {| db := db w; disk := disk w; dirs := ds; now := now w;
     script := script w; random := random w |}.

Definition set_random (r : list Z) (w : World) : World :=
  {| db := db w; disk := disk w; dirs := dirs w; now := now w;
     script := script w; random := r |}.

(** The statement's callback runs: its step is consumed, time has passed. *)
Definition after_step (s : Step) (rest : list Step) (w : World) : World :=
  {| db := db w; disk := disk w; dirs := dirs w;
     now := now w + Z.of_nat (elapsed s); script := rest; random := random w |}.

Definition quiet_step : Step := {| elapsed := 0; fault := None |}.

Definition next_step (w : World) : Step * list Step :=
  match script w with
  | [] => (quiet_step, [])
  | s :: rest => (s, rest)
  end.

(** The world once the next statement's callback has run. *)
Definition step_done (w : World) : World :=
  after_step (fst (next_step w)) (snd (next_step w)) w.

(** The clock once the next [n] statements have run their callbacks: the
    time their steps take has passed. *)
Definition clock_after (n : nat) (w : World) : Z :=
  now w + Z.of_nat (sum_list (elapsed <$> take n (script w))).

(** The engine serves the next statement without a fault of its own. *)
Definition statement_ok (w : World) : Prop :=
  fault (fst (next_step w)) = None.

(** ** A monad for handlers: state passing with exceptions *)

Definition M (A : Type) : Type := World -> Outcome A * World.

Definition ret {A} (a : A) : M A := fun w => (Returned a, w).

Definition throw {A} (message : string) : M A := fun w => (Thrown message, w).

Definition bind {A B} (c : M A) (k : A -> M B) : M B := fun w =>
  match c w with
  | (Returned a, w') => k a w'
  | (Thrown message, w') => (Thrown message, w')
  end.

(** [try { c } catch (error) { handler(error.message) }] *)
Definition try_catch {A} (c : M A) (handler : string -> A) : World -> A * World :=
  fun w =>
    match c w with
    | (Returned a, w') => (a, w')
    | (Thrown message, w') => (handler message, w')
    end.

Declare Scope js_scope.
Delimit Scope js_scope with js.
Notation "x <~ c ;; k" := (bind c (fun x => k))
  (at level 100, c at next level, right associativity) : js_scope.
Notation "c ;;; k" := (bind c (fun _ => k))
  (at level 100, right associativity) : js_scope.
Local Open Scope js_scope.

(** ** Filesystem and clock primitives *)

Definition existsSync (path : string) (w : World) : bool :=
  bool_decide (is_Some (disk w !! path)) || bool_decide (path ∈ dirs w).

Definition ENOENT : string := "ENOENT: no such file or directory".
Definition EISDIR : string := "EISDIR: illegal operation on a directory".

Definition readFileSync (path : string) : M (list Byte.byte) := fun w =>
  match disk w !! path with
  | Some bytes => (Returned bytes, w)
  | None => if bool_decide (path ∈ dirs w) then (Thrown EISDIR, w)
            else (Thrown ENOENT, w)
  end.

(** [fs.mkdirSync(dir, { recursive: true })] *)
Definition mkdirSync (dir : string) : M unit := fun w =>
  (Returned tt, set_dirs ({[dir]} ∪ dirs w) w).

(** Writing a whole file into an existing directory. *)
Definition writeFile (dir name : string) (bytes : list Byte.byte) : M unit := fun w =>
  if bool_decide (dir ∈ dirs w)
  then (Returned tt, set_disk (<[Path.join dir name := bytes]> (disk w)) w)
  else (Thrown ENOENT, w).

(** [fs.unlink], errors ignored. *)
Definition unlink (path : string) : M unit := fun w =>
  (Returned tt, set_disk (delete path (disk w)) w).

(** [Date.now()] *)
Definition Date_now : M Z := fun w => (Returned (now w), w).

(** [Math.round(Math.random() * 1E9)] *)
Definition Math_random_1E9 : M Z := fun w =>
  match random w with
  | [] => (Returned 0, w)
  | r :: rest => (Returned r, set_random rest w)
  end.

(** ** SQLite statements (database.js) *)

(** Running one statement through the sqlite3 driver. *)
Definition sqlite {A} (stmt : Z -> Database -> Outcome (A * Database)) : M A :=
  fun w =>
    let '(s, rest) := next_step w in
    match fault s with
    | Some message => (Thrown message, after_step s rest w)
    | None =>
        match stmt (now w) (db w) with
        | Thrown message => (Thrown message, after_step s rest w)
        | Returned (a, d) => (Returned a, after_step s rest (set_db d w))
        end
    end.

Definition unique_username_failed : string :=
  "SQLITE_CONSTRAINT: UNIQUE constraint failed: users.username".
Definition unique_email_failed : string :=
  "SQLITE_CONSTRAINT: UNIQUE constraint failed: users.email".
Definition user_id_null_failed : string :=
  "SQLITE_CONSTRAINT: NOT NULL constraint failed: files.user_id".

(** [INSERT INTO users (username, email, password_hash) VALUES (?, ?, ?)]
    against [username TEXT UNIQUE NOT NULL, email TEXT UNIQUE NOT NULL];
    yields [this.lastID].  The engine checks the index made last first, so
    when both columns are taken the error names [users.email]. *)
Definition INSERT_INTO_users (username email password_hash : string)
    (now : Z) (d : Database) : Outcome (Z * Database) :=
  if existsb (fun u => String.eqb (UserRow.email u) email) (users d)
  then Thrown unique_email_failed
  else if existsb (fun u => String.eqb (UserRow.username u) username) (users d)
  then Thrown unique_username_failed
  else
    let id := next_rowid (users_seq d) (map UserRow.id (users d)) in
    let row := {| UserRow.id := id; UserRow.username := username;
                  UserRow.email := email; UserRow.password_hash := password_hash;
                  UserRow.created_at := CURRENT_TIMESTAMP now;
                  UserRow.updated_at := CURRENT_TIMESTAMP now |} in
    Returned (id, {| users := users d ++ [row]; files := files d;
                     users_seq := id; files_seq := files_seq d |}).

(** The first row whose username is the text [username]; a NULL equals
    no username. *)
Definition user_named (username : option string) (rows : list UserRow.t)
    : option UserRow.t :=
  match username with
  | Some name => find (fun u => String.eqb (UserRow.username u) name) rows
  | None => None
  end.

(** [SELECT * FROM users WHERE username = ?] through [db.get] *)
Definition SELECT_users_WHERE_username (username : option string)
    (now : Z) (d : Database) : Outcome (option UserRow.t * Database) :=
  Returned (user_named username (users d), d).

(** [SELECT * FROM users WHERE id = ?] through [db.get] *)
Definition SELECT_users_WHERE_id (id : SqlVal)
    (now : Z) (d : Database) : Outcome (option UserRow.t * Database) :=
  Returned (find (fun u => SqlVal_eqb (SqlInt (UserRow.id u)) id) (users d), d).

(** [INSERT INTO files (user_id, original_name, filename, file_path,
    file_size, mime_type, file_hash) VALUES (?, ?, ?, ?, ?, ?, ?)];
    [uploaded_at] takes its default.  The connection never turns foreign
    keys on, so [user_id] is not checked against [users]. *)
Definition INSERT_INTO_files (user_id : SqlVal)
    (original_name filename file_path : string) (file_size : Z)
    (mime_type file_hash : string)
    (now : Z) (d : Database) : Outcome (Z * Database) :=
  match user_id with
  | SqlNull => Thrown user_id_null_failed
  | _ =>
      let id := next_rowid (files_seq d) (map FileRow.id (files d)) in
      let row := {| FileRow.id := id; FileRow.user_id := user_id;
                    FileRow.original_name := original_name;
                    FileRow.filename := filename;
                    FileRow.file_path := file_path;
                    FileRow.file_size := file_size;
                    FileRow.mime_type := mime_type;
                    FileRow.file_hash := file_hash;
                    FileRow.uploaded_at := CURRENT_TIMESTAMP now |} in
      Returned (id, {| users := users d; files := files d ++ [row];
                       users_seq := users_seq d; files_seq := id |})
  end.

(** [ORDER BY uploaded_at DESC]: a stable sort, rows with equal text stay
    in rowid order. *)
Fixpoint insert_desc (r : FileRow.t) (sorted : list FileRow.t) : list FileRow.t :=
  match sorted with
  | [] => [r]
  | x :: xs =>
      if time_key (FileRow.uploaded_at x) <=? time_key (FileRow.uploaded_at r)
      then r :: sorted
      else x :: insert_desc r xs
  end.

Definition ORDER_BY_uploaded_at_DESC (rows : list FileRow.t) : list FileRow.t :=
  fold_right insert_desc [] rows.

Definition owned_by (user_id : SqlVal) (r : FileRow.t) : bool :=
  SqlVal_eqb (FileRow.user_id r) user_id.

(** [SELECT * FROM files WHERE user_id = ? ORDER BY uploaded_at DESC]
    through [db.all] *)
Definition SELECT_files_WHERE_user_id (user_id : SqlVal)
    (now : Z) (d : Database) : Outcome (list FileRow.t * Database) :=
  Returned (ORDER_BY_uploaded_at_DESC (filter (owned_by user_id) (files d)), d).

(** [SELECT * FROM files WHERE id = ?] through [db.get] *)
Definition SELECT_files_WHERE_id (id : SqlVal)
    (now : Z) (d : Database) : Outcome (option FileRow.t * Database) :=
  Returned (find (fun r => SqlVal_eqb (SqlInt (FileRow.id r)) id) (files d), d).

(** [SELECT * FROM files WHERE filename = ?] through [db.get] *)
Definition SELECT_files_WHERE_filename (filename : string)
    (now : Z) (d : Database) : Outcome (option FileRow.t * Database) :=
  Returned (find (fun r => String.eqb (FileRow.filename r) filename) (files d), d).

(** What [createUser] resolves with. *)
Module NewUser.
Record t := { id : Z; username : string; email : string }.
End NewUser.

(** What [createFile] resolves with: the insert's arguments and
    [this.lastID]; it carries no timestamp. *)
Module DbFile.
Record t := {
  id : Z;
  userId : JsVal;
  originalName : string;
  filename : string;
  filePath : string;
  fileSize : Z;
  mimeType : string;
  fileHash : string
}.
End DbFile.

(** Rows in the order of their [uploaded_at], most recent first. *)
Definition newest_first (rows : list FileRow.t) : Prop :=
  StronglySorted
    (fun a b => time_key (FileRow.uploaded_at b) <= time_key (FileRow.uploaded_at a))
    rows.

(** From [w] to [w'] the rows [rows] were appended to the files table and
    nothing else of the database or of the disk changed. *)
Definition files_added (w w' : World) (rows : list FileRow.t) : Prop :=
  files (db w') = files (db w) ++ rows /\
  users (db w') = users (db w) /\
  disk w' = disk w /\
  now w <= now w'.


(** ** Records of the server *)

(** The values the server reads from the config module. *)
Record Config := {
  uploadPath : string;
  maxFileSize : nat;
  maxFiles : nat;
  env : string
}.

(** An element of [req.files] as multer's disk storage fills it in. *)
Module File.
Record t := {
  fieldname : string;
  originalname : string;
  mimetype : string;
  destination : string;
  filename : string;
  path : string;
  size : Z
}.
End File.

(** One entry of the upload response. *)
Module Descriptor.
Record t := {
  id : Z;
  originalName : string;
  filename : string;
  size : Z;
  mimetype : string;
  hash : string;
  uploadedAt : TimeText
}.

Definition json (d : t) : Json :=
  JObj [("id", JNum (id d)); ("originalName", JStr (originalName d));
        ("filename", JStr (filename d)); ("size", JNum (size d));
        ("mimetype", JStr (mimetype d)); ("hash", JStr (hash d));
        ("uploadedAt", JTime (uploadedAt d))]%string.
End Descriptor.

(** The JSON body of a registration with string fields. *)
Record RegisterBody := {
  reg_username : option string;
  reg_email : option string;
  reg_password : option string
}.

(** The JSON body of a login: each field, if present, is any JSON value. *)
Record LoginBody := {
  login_username : option JsonValue;
  login_password : option JsonValue
}.

(** A multipart upload request: the [userId] field of the body, if sent,
    and the file parts (the parts that carry a file name) in the order
    they arrive. *)
Record UploadRequest := {
  userId : option string;
  parts : list Part.t
}.

Section Server.

(** ** The parameters of the server

    Module-level constants of the program, and the two conversions of the
    database engine and its driver that the program relies on without
    fixing them. *)

(** [__dirname] of config.js. *)
Variable __dirname : string.

(** The engine's reading of a text as a number (its text-to-REAL
    conversion), for a text that is not a plain integer literal:
    [real_literal s] is [Some n] when the engine reads [s] as a number whose
    REAL value is the integer [n] ('1.0', '1e0', ' 1', a text that rounds
    to [n] in a double), and [None] when it reads it as a number that is
    no integer, or as no number at all.  The rounding is the platform's. *)
Variable real_literal : string -> option Z.

(** What the engine compares with a TEXT column when the driver binds a
    JSON value that is not a string (a number is rendered as text; an
    array or an object is bound as the driver pleases); [None] when the
    value is bound as NULL. *)
Variable bound_text : JsonValue -> option string.

(** The loaded configuration and the two digests of Node's [crypto] (raw
    digest bytes). *)
Variable config : Config.
Variable md5 : list Byte.byte -> list Byte.byte.
Variable sha256 : list Byte.byte -> list Byte.byte.

(** ** Binding values to statements *)

(** NUMERIC affinity applied to a bound text: a plain integer literal
    becomes that integer, and so does a text that the engine reads as a
    REAL with an integer value; any other text is kept as it is. *)
Definition numeric_affinity (s : string) : SqlVal :=
  match integer_literal s with
  | Some n => SqlInt n
  | None =>
      match real_literal s with
      | Some n => SqlInt n
      | None => SqlText s
      end
  end.

(** What the sqlite3 driver binds for a JS argument, as the engine uses
    it against a column of INTEGER affinity. *)
Definition sql_bind (v : JsVal) : SqlVal :=
  match v with
  | JsString s => numeric_affinity s
  | JsNumber z => SqlInt z
  | JsInfinity negative => SqlInfinity negative
  | JsUndefined | JsNaN => SqlNull
  end.

(** The text that [username = ?] compares the column with. *)
Definition username_text (v : JsonValue) : option string :=
  match v with
  | JsonString s => Some s
  | _ => bound_text v
  end.

(** ** The methods of class [Database] *)

Definition createUser (username email passwordHash : string) : M NewUser.t :=
  lastID <~ sqlite (INSERT_INTO_users username email passwordHash) ;;
  ret {| NewUser.id := lastID; NewUser.username := username;
         NewUser.email := email |}.

Definition getUserByUsername (username : JsonValue) : M (option UserRow.t) :=
  sqlite (SELECT_users_WHERE_username (username_text username)).

Definition getUserById (id : JsVal) : M (option UserRow.t) :=
  sqlite (SELECT_users_WHERE_id (sql_bind id)).

Definition createFile (userId : JsVal) (originalName filename filePath : string)
    (fileSize : Z) (mimeType fileHash : string) : M DbFile.t :=
  lastID <~ sqlite (INSERT_INTO_files (sql_bind userId) originalName filename
                      filePath fileSize mimeType fileHash) ;;
  ret {| DbFile.id := lastID; DbFile.userId := userId;
         DbFile.originalName := originalName; DbFile.filename := filename;
         DbFile.filePath := filePath; DbFile.fileSize := fileSize;
         DbFile.mimeType := mimeType; DbFile.fileHash := fileHash |}.

Definition getFilesByUserId (userId : JsVal) : M (list FileRow.t) :=
  sqlite (SELECT_files_WHERE_user_id (sql_bind userId)).

Definition getFileById (fileId : JsVal) : M (option FileRow.t) :=
  sqlite (SELECT_files_WHERE_id (sql_bind fileId)).

Definition getFileByFilename (filename : string) : M (option FileRow.t) :=
  sqlite (SELECT_files_WHERE_filename filename).

(** ** config.js *)

Definition newline : ascii := "010"%char.

Definition nonempty (s : string) : bool := negb (String.eqb s EmptyString).

(** The body of the [forEach] over the lines of the properties file. *)
Definition load_line (properties : gmap string string) (line : string)
    : gmap string string :=
  let line := JsNum.trim line in
  if nonempty line && negb (Js.startsWith "#" line) then
    match JsNum.split "=" line with
    | key :: value :: _ =>
        if nonempty key && nonempty value
        then <[JsNum.trim key := JsNum.trim value]> properties
        else properties
    | _ => properties
    end
  else properties.

Definition propertiesFile (env : string) : string :=
  Path.join_all [__dirname; "properties";
                 "application-" +:+ env +:+ ".properties"]%string.

Definition loadProperties (env : string) : M (gmap string string) := fun w =>
  if existsSync (propertiesFile env) w then
    (content <~ readFileSync (propertiesFile env) ;;
     ret (fold_left load_line
            (JsNum.split newline (string_of_list_byte content)) ∅)) w
  else (Thrown ("Properties file not found: " +:+ propertiesFile env), w).

(** [parseInt(config[key], 10)] *)
Definition parseInt_property (config : gmap string string) (key : string) : JsVal :=
  match config !! key with
  | Some v => JsNum.parseInt10 v
  | None => JsNaN
  end.

(** The object assigned to [module.exports]. *)
Definition module_exports (env : string) (config : gmap string string)
    : gmap string JsVal :=
  <["uploadPath" := from_option JsString JsUndefined (config !! "upload.path")]>
  (<["maxFileSize" := parseInt_property config "upload.maxFileSize"]>
  (<["maxFiles" := parseInt_property config "upload.maxFiles"]>
  (<["env" := JsString env]> ∅))).

(** Loading config.js under [process.env.NODE_ENV]. *)
Definition require_config (NODE_ENV : option string) : M (gmap string JsVal) :=
  let env := if Js.truthy NODE_ENV then default EmptyString NODE_ENV
             else "local" in
  config <~ loadProperties env ;;
  ret (module_exports env config).

(** ** [Database.init]

    The tables are created with IF NOT EXISTS, so opening the connection
    leaves an existing [Database] as it is. *)
Definition Database_init (config : gmap string JsVal) : M unit :=
  fun w =>
    match Path.dirname (js_get config "databasePath") with
    | Thrown message => (Thrown message, w)
    | Returned dbDir =>
        ((if existsSync dbDir w then ret tt else mkdirSync dbDir) ;;;
         ret tt) w
    end.

(** Loading database.js: [module.exports = new Database()] runs [init]. *)
Definition require_database (config : gmap string JsVal) : M unit :=
  Database_init config.

(** ** The server *)

(** [crypto.createHash('sha256').update(password).digest('hex')] *)
Definition sha256_hex (password : string) : string :=
  Hex.encode (sha256 (list_byte_of_string password)).

(** [crypto.createHash('md5').update(bytes).digest('hex')] *)
Definition md5_hex (bytes : list Byte.byte) : string :=
  Hex.encode (md5 bytes).

(** Start-up: the upload directory is created if absent. *)
Definition bootstrap_upload_directory : M unit := fun w =>
  if existsSync (uploadPath config) w then (Returned tt, w)
  else mkdirSync (uploadPath config) w.

(** *** multer *)

(** [storage.filename] *)
Definition storage_filename (file : Part.t) : M string :=
  t <~ Date_now ;;
  r <~ Math_random_1E9 ;;
  let uniqueSuffix := pretty t +:+ "-" +:+ pretty r in
  ret (Part.fieldname file +:+ "-" +:+ uniqueSuffix
         +:+ Path.extname (Part.originalname file)).

(** Disk storage of one admitted part. *)
Definition handleFile (file : Part.t) : M File.t :=
  name <~ storage_filename file ;;
  writeFile (uploadPath config) name (Part.content file) ;;;
  ret {| File.fieldname := Part.fieldname file;
         File.originalname := Part.originalname file;
         File.mimetype := Part.mimetype file;
         File.destination := uploadPath config;
         File.filename := name;
         File.path := Path.join (uploadPath config) name;
         File.size := Z.of_nat (length (Part.content file)) |}.

(** multer gives up on the request: the files stored so far are removed
    and the error goes to Express. *)
Fixpoint abortWithError {A} (message : string) (uploaded : list File.t) : M A :=
  match uploaded with
  | [] => throw message
  | f :: rest => unlink (File.path f) ;;; abortWithError message rest
  end.

(** The [fileSize] limit as the multipart parser applies it: the part is
    cut, and the request refused, as soon as the bytes read reach the
    limit, so a part passes when it is shorter than the limit (or empty:
    then no byte is read). *)
Definition within_fileSize (p : Part.t) : bool :=
  (length (Part.content p) <? maxFileSize config)%nat
  || (length (Part.content p) =? 0)%nat.

(** [upload.array('files', config.maxFiles)] with the [limits] and the
    [fileFilter] of the server, over the file parts of the request. *)
Fixpoint upload_array (incoming : list Part.t) (uploaded : list File.t)
    : M (list File.t) :=
  match incoming with
  | [] => ret uploaded
  | p :: rest =>
      if (maxFiles config <=? length uploaded)%nat
      then abortWithError "Too many files" uploaded
      else if negb (String.eqb (Part.fieldname p) "files")
      then abortWithError "Unexpected field" uploaded
      else match fileFilter p with
           | RejectFile message => abortWithError message uploaded
           | Accept =>
               if within_fileSize p
               then
                 fun w =>
                   match handleFile p w with
                   | (Returned f, w') => upload_array rest (uploaded ++ [f]) w'
                   | (Thrown message, w') => abortWithError message uploaded w'
                   end
               else abortWithError "File too large" uploaded
           end
  end.

(** The final error-handling middleware of the app. *)
Definition internal_server_error : Response :=
  error_response 500 "Internal server error".

(** *** POST /api/register *)

Definition register_try (b : RegisterBody) : M Response :=
  if negb (Js.truthy (reg_username b)) || negb (Js.truthy (reg_email b))
     || negb (Js.truthy (reg_password b))
  then ret (error_response 400 "Username, email, and password are required")
  else
    let username := default EmptyString (reg_username b) in
    let email := default EmptyString (reg_email b) in
    let password := default EmptyString (reg_password b) in
    let passwordHash := sha256_hex password in
    user <~ createUser username email passwordHash ;;
    ret (json_response 201
           (JObj [("id", JNum (NewUser.id user));
                  ("username", JStr (NewUser.username user));
                  ("email", JStr (NewUser.email user))]%string)).

Definition register_catch (message : string) : Response :=
  if Js.includes "UNIQUE constraint failed" message
  then error_response 400 "Username or email already exists"
  else error_response 500 "Registration failed".

Definition post_api_register (b : RegisterBody) : World -> Response * World :=
  try_catch (register_try b) register_catch.

(** *** POST /api/login *)

(** [crypto.createHash('sha256').update(data).digest('hex')] on a value
    of the body: [update] takes a string and throws a [TypeError]
    (ERR_INVALID_ARG_TYPE) on any other JSON value. *)
Definition received (data : JsonValue) : string :=
  match data with
  | JsonNull => "null"
  | JsonBool true => "type boolean (true)"
  | JsonBool false => "type boolean (false)"
  | JsonNumber z => "type number (" +:+ pretty z +:+ ")"
  | JsonString s => "type string"
  | JsonArray _ => "an instance of Array"
  | JsonObject _ => "an instance of Object"
  end.

Definition invalid_data_argument (data : JsonValue) : string :=
  "The " +:+ dquote +:+ "data" +:+ dquote
  +:+ " argument must be of type string or an instance of Buffer, TypedArray, or DataView. Received "
  +:+ received data.

Definition sha256_hex_of (data : JsonValue) : M string :=
  match data with
  | JsonString s => ret (sha256_hex s)
  | _ => throw (invalid_data_argument data)
  end.

Definition login_try (b : LoginBody) : M Response :=
  if negb (json_truthy (login_username b)) || negb (json_truthy (login_password b))
  then ret (error_response 400 "Username and password are required")
  else
    let username := default JsonNull (login_username b) in
    let password := default JsonNull (login_password b) in
    user <~ getUserByUsername username ;;
    match user with
    | None => ret (error_response 401 "Invalid credentials")
    | Some user =>
        passwordHash <~ sha256_hex_of password ;;
        if negb (String.eqb (UserRow.password_hash user) passwordHash)
        then ret (error_response 401 "Invalid credentials")
        else ret (json_response 200
                    (JObj [("id", JNum (UserRow.id user));
                           ("username", JStr (UserRow.username user));
                           ("email", JStr (UserRow.email user))]%string))
    end.

Definition post_api_login (b : LoginBody) : World -> Response * World :=
  try_catch (login_try b) (fun _ => error_response 500 "Login failed").

(** *** POST /api/upload *)

(** One turn of the [for (const file of req.files)] loop. *)
Definition upload_one (userId : string) (file : File.t) : M Descriptor.t :=
  bytes <~ readFileSync (File.path file) ;;
  let fileHash := md5_hex bytes in
  dbFile <~ createFile (JsString userId) (File.originalname file)
              (File.filename file) (File.path file) (File.size file)
              (File.mimetype file) fileHash ;;
  uploadedAt <~ Date_now ;;
  ret {| Descriptor.id := DbFile.id dbFile;
         Descriptor.originalName := File.originalname file;
         Descriptor.filename := File.filename file;
         Descriptor.size := File.size file;
         Descriptor.mimetype := File.mimetype file;
         Descriptor.hash := fileHash;
         Descriptor.uploadedAt := toISOString uploadedAt |}.

(** The whole loop, pushing onto [uploadedFiles]. *)
Fixpoint upload_each (userId : string) (files : list File.t)
    (uploadedFiles : list Descriptor.t) : M (list Descriptor.t) :=
  match files with
  | [] => ret uploadedFiles
  | file :: rest =>
      d <~ upload_one userId file ;;
      upload_each userId rest (uploadedFiles ++ [d])
  end.

Definition files_uploaded (uploadedFiles : list Descriptor.t) : Response :=
  json_response 201
    (JObj [("message", JStr "Files uploaded successfully");
           ("files", JArr (map Descriptor.json uploadedFiles))]%string).

Definition upload_try (userId : option string) (files : list File.t) : M Response :=
  if negb (Js.truthy userId)
  then ret (error_response 400 "User ID is required")
  else
    let userId := default EmptyString userId in
    user <~ getUserById (JsString userId) ;;
    match user with
    | None => ret (error_response 401 "Invalid user")
    | Some _ =>
        match files with
        | [] => ret (error_response 400 "No files provided")
        | _ =>
            uploadedFiles <~ upload_each userId files [] ;;
            ret (files_uploaded uploadedFiles)
        end
    end.

(** The route handler, entered once multer has filled [req.body] and
    [req.files]. *)
Definition upload_handler (userId : option string) (files : list File.t)
    : World -> Response * World :=
  try_catch (upload_try userId files)
            (fun _ => error_response 500 "File upload failed").

(** The route with its middleware. *)
Definition post_api_upload (req : UploadRequest) : World -> Response * World :=
  fun w =>
    match upload_array (parts req) [] w with
    | (Returned files, w') => upload_handler (userId req) files w'
    | (Thrown _, w') => (internal_server_error, w')
    end.

(** *** GET /api/users/:id/files *)

Definition file_entry (file : FileRow.t) : Json :=
  JObj [("id", JNum (FileRow.id file));
        ("originalName", JStr (FileRow.original_name file));
        ("filename", JStr (FileRow.filename file));
        ("size", JNum (FileRow.file_size file));
        ("mimeType", JStr (FileRow.mime_type file));
        ("hash", JStr (FileRow.file_hash file));
        ("uploadedAt", JTime (FileRow.uploaded_at file))]%string.

Definition list_files_try (id : string) : M Response :=
  let userId := JsNum.parseInt id in
  user <~ getUserById userId ;;
  match user with
  | None => ret (error_response 404 "User not found")
  | Some _ =>
      files <~ getFilesByUserId userId ;;
      ret (json_response 200
             (JObj [("files"%string, JArr (map file_entry files))]))
  end.

Definition get_api_users_files (id : string) : World -> Response * World :=
  try_catch (list_files_try id)
            (fun _ => error_response 500 "Failed to retrieve files").

(** *** GET /api/download/:filename *)

(** The characters Node lets into a header value: the tab, the printable
    ASCII ones, and those from U+0080 to U+00FF, which in UTF-8 are a byte
    C2 or C3 followed by one continuation byte. *)
Fixpoint valid_header_value (s : string) : bool :=
  match s with
  | EmptyString => true
  | String a r =>
      let x := nat_of_ascii a in
      if ((x =? 9) || ((32 <=? x) && (x <=? 126)))%nat then valid_header_value r
      else if ((x =? 194) || (x =? 195))%nat then
        match r with
        | String b r' =>
            let y := nat_of_ascii b in
            ((128 <=? y) && (y <=? 191))%nat && valid_header_value r'
        | EmptyString => false
        end
      else false
  end.


Definition download_headers (file : FileRow.t) : list (string * string) :=
  [("Content-Disposition",
    "attachment; filename=" +:+ dquote +:+ FileRow.original_name file +:+ dquote);
   ("Content-Type", FileRow.mime_type file);
   ("Content-Length", pretty (FileRow.file_size file))]%string.

(** [res.setHeader(name, value)] for each header in turn: Node throws a
    [TypeError] (ERR_INVALID_CHAR) at the first value that holds a
    character it does not let into a header. *)
Definition invalid_header_char (name : string) : string :=
  "Invalid character in header content [" +:+ dquote +:+ name +:+ dquote +:+ "]".

Fixpoint setHeaders (headers : list (string * string)) : M unit :=
  match headers with
  | [] => ret tt
  | (name, value) :: rest =>
      if valid_header_value value then setHeaders rest
      else throw (invalid_header_char name)
  end.

Definition download_try (filename : string) : M Response :=
  file <~ getFileByFilename filename ;;
  match file with
  | None => ret (error_response 404 "File not found")
  | Some file =>
      let filePath := FileRow.file_path file in
      fun w =>
        if negb (existsSync filePath w)
        then (Returned (error_response 404 "Physical file not found on server"), w)
        else
          match setHeaders (download_headers file) w with
          | (Thrown message, w') => (Thrown message, w')
          | (Returned _, w) =>
              match disk w !! filePath with
              | Some bytes =>
                  (Returned {| status := 200; headers := download_headers file;
                               body := StreamBody bytes |}, w)
              | None =>
                  (* the read stream emits an error before any header is sent *)
                  (Returned (error_response 500 "File download failed"), w)
              end
          end
  end.

Definition get_api_download (filename : string) : World -> Response * World :=
  try_catch (download_try filename)
            (fun _ => error_response 500 "Download failed").

(** *** Vocabulary of the statements about uploads *)

(** The part [p] went to disk storage as the file [f] of [req.files]. *)
Definition stored_as (p : Part.t) (f : File.t) : Prop :=
  File.path f = Path.join (uploadPath config) (File.filename f) /\
  File.size f = Z.of_nat (length (Part.content p)) /\
  File.originalname f = Part.originalname p /\
  File.mimetype f = Part.mimetype p.

(** The file [file] of [req.files] was hashed from the disk [on_disk] and
    recorded for [userId] as the table row [row] and the reply entry [d];
    the insert ran at [t_insert] and the entry was built at [t_reply],
    both between [t0] and [t1]. *)
Definition recorded (on_disk : gmap string (list Byte.byte)) (userId : string)
    (t0 t1 : Z) (file : File.t) (d : Descriptor.t) (row : FileRow.t) : Prop :=
  (exists bytes, on_disk !! File.path file = Some bytes /\
                 Descriptor.hash d = md5_hex bytes) /\
  (exists t_insert t_reply,
     t0 <= t_insert /\ t_insert <= t_reply /\ t_reply <= t1 /\
     FileRow.uploaded_at row = CURRENT_TIMESTAMP t_insert /\
     Descriptor.uploadedAt d = toISOString t_reply) /\
  Descriptor.id d = FileRow.id row /\
  Descriptor.filename d = File.filename file /\
  Descriptor.size d = File.size file /\
  Descriptor.originalName d = File.originalname file /\
  Descriptor.mimetype d = File.mimetype file /\
  FileRow.user_id row = numeric_affinity userId /\
  FileRow.filename row = File.filename file /\
  FileRow.file_path row = File.path file /\
  FileRow.file_size row = File.size file /\
  FileRow.original_name row = File.originalname file /\
  FileRow.mime_type row = File.mimetype file /\
  FileRow.file_hash row = Descriptor.hash d.

End Server.

(** ** Sample data *)

(** Stand-ins for the parameters, for running the model on concrete
    inputs: a digest, the directory of config.js, an engine that reads
    '1.0' and [long_decimal] as the integer 1, and a driver that renders
    numbers in decimal. *)
Definition sample_digest (bytes : list Byte.byte) : list Byte.byte := bytes.

Definition sample_dirname : string := "/srv/nik-server".

(** A text that is the integer 1 once the engine has rounded it to a
    REAL. *)
Definition long_decimal : string := "1.0000000000000000000000001".

Definition sample_literal (s : string) : option Z :=
  if String.eqb s "1.0" || String.eqb s long_decimal then Some 1 else None.

Definition sample_text (v : JsonValue) : option string :=
  match v with
  | JsonNull => None
  | JsonBool b => Some (if b then "1" else "0")
  | JsonNumber z => Some (pretty z)
  | JsonString s => Some s
  | JsonArray _ | JsonObject _ => Some "[object Object]"
  end%string.

Definition sample_config : Config :=
  {| uploadPath := "uploads"; maxFileSize := 100; maxFiles := 3; env := "local" |}.

Definition alice : UserRow.t :=
  {| UserRow.id := 1; UserRow.username := "alice"; UserRow.email := "alice@x.com";
     UserRow.password_hash := "00"; UserRow.created_at := SqlSeconds 1699999000;
     UserRow.updated_at := SqlSeconds 1699999000 |}.

Definition sample_database : Database :=
  {| users := [alice]; files := []; users_seq := 1; files_seq := 0 |}.

(** User 1 exists, the upload directory exists and is empty. *)
Definition sample_world : World :=
  {| db := sample_database; disk := ∅; dirs := {["uploads"%string]};
     now := 1700000000900; script := []; random := [42; 43] |}.

Definition hello_txt : Part.t :=
  {| Part.fieldname := "files"; Part.originalname := "hello.txt";
     Part.mimetype := "text/plain"; Part.content := list_byte_of_string "hello" |}.

Definition logo_png : Part.t :=
  {| Part.fieldname := "files"; Part.originalname := "logo.png";
     Part.mimetype := "image/png"; Part.content := list_byte_of_string "PNG" |}.

(** An element of [req.files] for hello.txt, and a world that has its
    bytes on disk and an engine that takes 250 ms for its second
    statement. *)
Definition sample_file : File.t :=
  {| File.fieldname := "files"; File.originalname := "hello.txt";
     File.mimetype := "text/plain"; File.destination := "uploads";
     File.filename := "files-1700000000900-42.txt";
     File.path := "uploads/files-1700000000900-42.txt"; File.size := 5 |}.

Definition sample_world_with_file : World :=
  {| db := sample_database;
     disk := {["uploads/files-1700000000900-42.txt"%string :=
                 list_byte_of_string "hello"]};
     dirs := {["uploads"%string]};
     now := 1700000000900;
     script := [quiet_step; {| elapsed := 250; fault := None |}];
     random := [] |}.


Definition photo_png_as_pdf : Part.t :=
  {| Part.fieldname := "files"; Part.originalname := "photo.png";
     Part.mimetype := "application/pdf"; Part.content := [] |}.

(** The second element of [req.files] when hello.txt and logo.png are
    uploaded together into [sample_world]. *)
Definition logo_file : File.t :=
  {| File.fieldname := "files"; File.originalname := "logo.png";
     File.mimetype := "image/png"; File.destination := "uploads";
     File.filename := "files-1700000000900-43.png";
     File.path := "uploads/files-1700000000900-43.png"; File.size := 3 |}.

Definition sample_upload : UploadRequest :=
  {| userId := Some "1"%string; parts := [hello_txt; logo_png] |}.


Definition disk_full : string := "SQLITE_FULL: database or disk is full".

(** As [sample_world], but the engine fails the third statement. *)
Definition sample_world_disk_full : World :=
  {| db := sample_database; disk := ∅; dirs := {["uploads"%string]};
     now := 1700000000900;
     script := [quiet_step; quiet_step; {| elapsed := 0; fault := Some disk_full |}];
     random := [42; 43] |}.

Definition hello_descriptor : Descriptor.t :=
  {| Descriptor.id := 1; Descriptor.originalName := "hello.txt";
     Descriptor.filename := "files-1700000000900-42.txt";
     Descriptor.size := 5; Descriptor.mimetype := "text/plain";
     Descriptor.hash := "68656c6c6f";
     Descriptor.uploadedAt := IsoMillis 1700000001150 |}.

Definition hello_record : FileRow.t :=
  {| FileRow.id := 1; FileRow.user_id := SqlInt 1;
     FileRow.original_name := "hello.txt";
     FileRow.filename := "files-1700000000900-42.txt";
     FileRow.file_path := "uploads/files-1700000000900-42.txt";
     FileRow.file_size := 5; FileRow.mime_type := "text/plain";
     FileRow.file_hash := "68656c6c6f";
     FileRow.uploaded_at := SqlSeconds 1700000000 |}.

(** A record whose bytes are gone from the disk. *)
Definition sample_world_orphan : World :=
  {| db := {| users := [alice]; files := [hello_record];
              users_seq := 1; files_seq := 1 |};
     disk := ∅; dirs := {["uploads"%string]};
     now := 1700000005000; script := []; random := [] |}.

Definition bob_registration : RegisterBody :=
  {| reg_username := Some "bob"%string; reg_email := Some "bob@x.com"%string;
     reg_password := Some "pw2"%string |}.

Definition bob_again : RegisterBody :=
  {| reg_username := Some "bob"%string; reg_email := Some "robert@x.com"%string;
     reg_password := Some "pw3"%string |}.

Definition bob_login : LoginBody :=
  {| login_username := Some (JsonString "bob"); login_password := Some (JsonString "pw2") |}.

Definition alice_wrong_login : LoginBody :=
  {| login_username := Some (JsonString "alice");
     login_password := Some (JsonString "wrong") |}.

Definition sample_properties : string :=
  "# local" +:+ String newline "upload.path=./uploads"
  +:+ String newline "upload.maxFileSize=10485760"
  +:+ String newline "upload.maxFiles=5" +:+ String newline "".

Definition sample_world_with_properties : World :=
  {| db := sample_database;
     disk := {["/srv/nik-server/properties/application-local.properties"%string :=
                 list_byte_of_string sample_properties]};
     dirs := ∅; now := 1700000000000; script := []; random := [] |}.

(** *** Sample runs *)

(** The handler on hello.txt and a file that is not on disk. *)
Definition after_lookup : World :=
  snd (getUserById sample_literal (JsString "1") sample_world_with_file).

Definition after_first_file : World :=
  snd (upload_each sample_literal sample_digest "1" [sample_file] [] after_lookup).

Definition after_failure : World :=
  snd (upload_one sample_literal sample_digest "1" logo_file after_first_file).


(** Bob registers in [sample_world]. *)
Definition bob_created : Response :=
  fst (post_api_register sample_digest bob_registration sample_world).

Definition world_with_bob : World :=
  snd (post_api_register sample_digest bob_registration sample_world).

(** Two uploads for user 1, the second one two seconds after the first. *)
Definition after_upload_1 : World :=
  snd (createFile sample_literal (JsString "1") "hello.txt" "files-1700000000900-42.txt"
         "uploads/files-1700000000900-42.txt" 5 "text/plain" "68656c6c6f"
         sample_world).

Definition two_seconds_later (w : World) : World :=
  {| db := db w; disk := disk w; dirs := dirs w; now := now w + 2000;
     script := script w; random := random w |}.

Definition after_upload_2 : World :=
  snd (createFile sample_literal (JsString "1") "logo.png" "files-1700000002900-43.png"
         "uploads/files-1700000002900-43.png" 3 "image/png" "504e47"
         (two_seconds_later after_upload_1)).

(** The configuration module loaded from [sample_properties]. *)
Definition sample_exports : gmap string JsVal :=
  match fst (require_config sample_dirname None sample_world_with_properties) with
  | Returned exports => exports
  | Thrown _ => ∅
  end.

(** ** Vocabulary of the further properties *)


(** A line that [loadProperties] skips: blank, or a comment. *)
Definition skipped_line (line : string) : Prop :=
  JsNum.trim line = EmptyString \/ Js.startsWith "#" (JsNum.trim line) = true.

(** A properties file without a final newline whose value holds an equals
    sign. *)
Definition sample_world_odd_properties : World :=
  {| db := sample_database;
     disk := {["/srv/nik-server/properties/application-dev.properties"%string :=
                 list_byte_of_string
                   ("upload.path=./old" +:+ String newline
                    " upload.path = ./data=2 " +:+ String newline "# end")]};
     dirs := ∅; now := 1700000000000; script := []; random := [] |}.

(** A properties file of comments and blank lines only. *)
Definition sample_world_blank_properties : World :=
  {| db := sample_database;
     disk := {["/srv/nik-server/properties/application-local.properties"%string :=
                 list_byte_of_string
                   ("# nothing here" +:+ String newline
                    "   " +:+ String newline "")]};
     dirs := ∅; now := 1700000000000; script := []; random := [] |}.

(** What makes multer refuse a request: more file parts than
    [config.maxFiles], or a part under another field name than files, or
    one that [fileFilter] rejects, or one larger than
    [config.maxFileSize]. *)
Definition refused_part (config : Config) (p : Part.t) : Prop :=
  Part.fieldname p <> "files"%string \/
  fileFilter p <> Accept \/
  (maxFileSize config < length (Part.content p))%nat.

Definition refused_by_multer (config : Config) (incoming : list Part.t) : Prop :=
  (maxFiles config < length incoming)%nat \/ Exists (refused_part config) incoming.

(** The response headers of a download of the part [p]. *)
Definition part_headers (p : Part.t) : list (string * string) :=
  [("Content-Disposition",
    "attachment; filename=" +:+ dquote +:+ Part.originalname p +:+ dquote);
   ("Content-Type", Part.mimetype p);
   ("Content-Length", pretty (Z.of_nat (length (Part.content p))))]%string.

(** A request with an executable among its parts. *)
Definition run_exe : Part.t :=
  {| Part.fieldname := "files"; Part.originalname := "run.exe";
     Part.mimetype := "text/plain"; Part.content := list_byte_of_string "MZ" |}.

Definition mixed_upload : UploadRequest :=
  {| userId := Some "1"%string; parts := [hello_txt; run_exe] |}.

(** The world after the sample upload of hello.txt and logo.png. *)
Definition after_sample_upload : World :=
  snd (post_api_upload sample_literal sample_config sample_digest sample_upload sample_world).

(** Bob's row, created directly through [createUser] in [sample_world]. *)
Definition bob_user : NewUser.t :=
  {| NewUser.id := 2; NewUser.username := "bob"; NewUser.email := "bob@x.com" |}.

Definition world_with_bob_row : World :=
  snd (createUser "bob" "bob@x.com" "707732" sample_world).

Definition hello_dbfile : DbFile.t :=
  {| DbFile.id := 1; DbFile.userId := JsString "1";
     DbFile.originalName := "hello.txt";
     DbFile.filename := "files-1700000000900-42.txt";
     DbFile.filePath := "uploads/files-1700000000900-42.txt";
     DbFile.fileSize := 5; DbFile.mimeType := "text/plain";
     DbFile.fileHash := "68656c6c6f" |}.

Definition bob_right_login : LoginBody :=
  {| login_username := Some (JsonString "bob"); login_password := Some (JsonString "pw2") |}.

Definition empty_upload : UploadRequest :=
  {| userId := Some "1"%string; parts := [] |}.

(** [sample_world] with another next random draw. *)
Definition sample_world_other_draw : World :=
  {| db := sample_database; disk := ∅; dirs := {["uploads"%string]};
     now := 1700000000900; script := []; random := [43] |}.






(** Logins whose password is the JSON number 12345: for a user that
    exists, and for one that does not. *)
Definition alice_numeric_login : LoginBody :=
  {| login_username := Some (JsonString "alice");
     login_password := Some (JsonNumber 12345) |}.

Definition mallory_numeric_login : LoginBody :=
  {| login_username := Some (JsonString "mallory");
     login_password := Some (JsonNumber 12345) |}.




(** As [sample_world], with an engine that takes its time: 10 ms for the
    first statement, 250 ms for the second, 400 ms for the third. *)
Definition sample_world_disk_slow : World :=
  {| db := sample_database; disk := ∅; dirs := {["uploads"%string]};
     now := 1700000000900;
     script := [{| elapsed := 10; fault := None |};
                {| elapsed := 250; fault := None |};
                {| elapsed := 400; fault := None |}];
     random := [42; 43] |}.

(** Uploads under a user id that is no integer literal. *)
Definition long_decimal_upload : UploadRequest :=
  {| userId := Some long_decimal; parts := [hello_txt] |}.

Definition long_decimal_empty_upload : UploadRequest :=
  {| userId := Some long_decimal; parts := [] |}.

(** U+00A0 and U+FEFF in UTF-8. *)
Definition nbsp : string := String "194" (String "160" EmptyString).
Definition bom : string := String "239" (String "187" (String "191" EmptyString)).

(** A properties file that starts with a byte order mark. *)
Definition sample_world_bom_properties : World :=
  {| db := sample_database;
     disk := {[ "/srv/nik-server/properties/application-local.properties"%string
                := list_byte_of_string (bom +:+ "upload.path=./uploads") ]};
     dirs := ∅; now := 1700000000000; script := []; random := [] |}.

(** A part named with U+20AC, a character that Node lets into no header
    value, and the request that uploads it. *)
Definition euro_txt : Part.t :=
  {| Part.fieldname := "files";
     Part.originalname := String "226" (String "130" (String "172" ".txt"));
     Part.mimetype := "text/plain"; Part.content := list_byte_of_string "euro" |}.

Definition euro_upload : UploadRequest :=
  {| userId := Some "1"%string; parts := [euro_txt] |}.

Definition after_euro_upload : World :=
  snd (post_api_upload sample_literal sample_config sample_digest euro_upload
         sample_world).

(** A part of exactly [maxFileSize sample_config] bytes. *)
Definition full_txt : Part.t :=
  {| Part.fieldname := "files"; Part.originalname := "full.txt";
     Part.mimetype := "text/plain";
     Part.content := repeat Byte.x78 (maxFileSize sample_config) |}.

Definition full_upload : UploadRequest :=
  {| userId := Some "1"%string; parts := [full_txt] |}.

(** The configuration with the upload directory written [./uploads]. *)
Definition dot_config : Config :=
  {| uploadPath := "./uploads"; maxFileSize := 100; maxFiles := 3;
     env := "local" |}.

Definition sample_world_dot : World :=
  snd (bootstrap_upload_directory dot_config sample_world).
(** * Properties *)

Section ServerProperties.

#[local] Set Default Proof Using "Type".

(** [tauto] and [set_solver] take the parameters of the section for
    hypotheses; these variants first drop the variables that the goal
    does not depend on. *)
Local Ltac without_parameters :=
  repeat match goal with
         | x : ?T |- _ =>
             lazymatch type of T with
             | Prop => fail
             | _ => clear x
             end
         end.
Local Ltac propositional := without_parameters; tauto.
Local Ltac sets := without_parameters; set_solver.

Variable __dirname : string.
Variable real_literal : string -> option Z.
Variable bound_text : JsonValue -> option string.
Variable config : Config.
Variable md5 : list Byte.byte -> list Byte.byte.
Variable sha256 : list Byte.byte -> list Byte.byte.

Local Abbreviation numeric_affinity := (numeric_affinity real_literal).
Local Abbreviation sql_bind := (sql_bind real_literal).
Local Abbreviation username_text := (username_text bound_text).
Local Abbreviation getUserByUsername := (getUserByUsername bound_text).
Local Abbreviation getUserById := (getUserById real_literal).
Local Abbreviation createFile := (createFile real_literal).
Local Abbreviation getFilesByUserId := (getFilesByUserId real_literal).
Local Abbreviation getFileById := (getFileById real_literal).
Local Abbreviation propertiesFile := (propertiesFile __dirname).
Local Abbreviation loadProperties := (loadProperties __dirname).
Local Abbreviation require_config := (require_config __dirname).
Local Abbreviation sha256_hex := (sha256_hex sha256).
Local Abbreviation sha256_hex_of := (sha256_hex_of sha256).
Local Abbreviation md5_hex := (md5_hex md5).
Local Abbreviation within_fileSize := (within_fileSize config).
Local Abbreviation handleFile := (handleFile config).
Local Abbreviation upload_array := (upload_array config).
Local Abbreviation register_try := (register_try sha256).
Local Abbreviation post_api_register := (post_api_register sha256).
Local Abbreviation login_try := (login_try bound_text sha256).
Local Abbreviation post_api_login := (post_api_login bound_text sha256).
Local Abbreviation upload_one := (upload_one real_literal md5).
Local Abbreviation upload_each := (upload_each real_literal md5).
Local Abbreviation upload_try := (upload_try real_literal md5).
Local Abbreviation upload_handler := (upload_handler real_literal md5).
Local Abbreviation post_api_upload := (post_api_upload real_literal config md5).
Local Abbreviation list_files_try := (list_files_try real_literal).
Local Abbreviation get_api_users_files := (get_api_users_files real_literal).
Local Abbreviation stored_as := (stored_as config).
Local Abbreviation recorded := (recorded real_literal md5).

(** ** Facts about the string helpers *)

Lemma toLowerCase_idem s : Js.toLowerCase (Js.toLowerCase s) = Js.toLowerCase s.
Proof.
  induction s as [|c r IH]; simpl; [reflexivity|].
  rewrite IH. f_equal.
  unfold Js.lower_ascii at 1.
  destruct (Js.is_upper (Js.lower_ascii c)) eqn:Hu; [|reflexivity].
  exfalso. revert Hu. unfold Js.lower_ascii.
  destruct c as [[] [] [] [] [] [] [] []]; vm_compute; congruence.
Qed.

Lemma endsWith_spec suf s :
  Js.endsWith suf s = true <-> exists stem, s = stem +:+ suf.
Proof.
  induction s as [|c r IH]; cbn [Js.endsWith].
  - destruct (String.eqb_spec EmptyString suf) as [<-|Hne].
    + split; [exists EmptyString; reflexivity | reflexivity].
    + split; [discriminate|]. intros [stem Hs].
      destruct stem; [change (EmptyString +:+ suf) with suf in Hs; congruence | discriminate].
  - destruct (String.eqb_spec (String c r) suf) as [<-|Hne].
    + split; [exists EmptyString; reflexivity | reflexivity].
    + rewrite IH. split.
      * intros [stem ->]. exists (String c stem). reflexivity.
      * intros [stem Hs]. destruct stem as [|c' stem].
        -- change (EmptyString +:+ suf) with suf in Hs. congruence.
        -- injection Hs as _ Hr. exists stem. exact Hr.
Qed.

Lemma allowedExtensions_test_spec s :
  allowedExtensions_test s = true <->
  exists stem e, In e extensionList /\ Js.toLowerCase s = stem +:+ "." +:+ e.
Proof.
  unfold allowedExtensions_test. rewrite existsb_exists. split.
  - intros (e & He & Hw). apply endsWith_spec in Hw as [stem Hs]. eauto.
  - intros (stem & e & He & Hs). exists e. split; [exact He|].
    apply endsWith_spec. eauto.
Qed.

Lemma allowedMimetypes_test_spec s :
  allowedMimetypes_test s = true <-> In s mimetypeList.
Proof.
  unfold allowedMimetypes_test. rewrite existsb_exists. split.
  - intros (m & Hm & He). apply String.eqb_eq in He. subst. exact Hm.
  - intros Hm. exists s. split; [exact Hm | apply String.eqb_refl].
Qed.

(** ** Facts about paths *)

Lemma append_cons c s t : String c s +:+ t = String c (s +:+ t).
Proof. reflexivity. Qed.

Lemma string_app_assoc (a b c : string) : (a +:+ b) +:+ c = a +:+ (b +:+ c).
Proof.
  induction a as [|x a IH]; [reflexivity|].
  rewrite !append_cons, IH. reflexivity.
Qed.
Lemma split_segment s : Path.has_slash s = false -> JsNum.split "/" s = [s].
Proof.
  induction s as [|c r IH]; [reflexivity|]. simpl.
  intros H. apply orb_false_iff in H as [Hc Hr]. rewrite Hc, (IH Hr). reflexivity.
Qed.

Lemma split_nonempty sep s : JsNum.split sep s <> [].
Proof.
  destruct s as [|c r]; [discriminate|]. simpl.
  destruct (Ascii.eqb c sep); [discriminate|].
  destruct (JsNum.split sep r); discriminate.
Qed.

Lemma split_app a b :
  JsNum.split "/" (a +:+ String "/" b) = JsNum.split "/" a ++ JsNum.split "/" b.
Proof.
  induction a as [|c a IH].
  - change (EmptyString +:+ String "/" b) with (String "/"%char b). reflexivity.
  - change (String c a +:+ String "/" b) with (String c (a +:+ String "/" b)).
    cbn [JsNum.split]. rewrite IH.
    destruct (Ascii.eqb c "/"); [reflexivity|].
    destruct (JsNum.split "/" a) as [|h t] eqn:Hs; [|reflexivity].
    destruct (split_nonempty _ _ Hs).
Qed.

Lemma with_slashes_snoc l x :
  Path.with_slashes (l ++ [x]) =
  match l with
  | [] => x
  | _ => Path.with_slashes l +:+ "/" +:+ x
  end.
Proof.
  induction l as [|a l IH]; [reflexivity|].
  destruct l as [|b l]; [reflexivity|].
  change ((a :: b :: l) ++ [x]) with (a :: ((b :: l) ++ [x])).
  assert (E : forall y k, Path.with_slashes (a :: y :: k)
                          = a +:+ "/" +:+ Path.with_slashes (y :: k))
    by reflexivity.
  change ((b :: l) ++ [x]) with (b :: (l ++ [x])) at 1.
  rewrite E. change (b :: (l ++ [x])) with ((b :: l) ++ [x]).
  rewrite IH, E. 
  rewrite !string_app_assoc. reflexivity.
Qed.

Lemma endsWith_slash_app a n :
  n <> EmptyString -> Js.endsWith "/" (a +:+ n) = Js.endsWith "/" n.
Proof.
  intros Hn. induction a as [|c a IH]; [reflexivity|].
  change (String c a +:+ n) with (String c (a +:+ n)). cbn [Js.endsWith].
  destruct (String.eqb_spec (String c (a +:+ n)) "/") as [E|_]; [|exact IH].
  injection E as _ E. destruct a; [|discriminate].
  change (EmptyString +:+ n) with n in E. contradiction.
Qed.

Lemma endsWith_slash_segment n :
  Path.has_slash n = false -> Js.endsWith "/" n = false.
Proof.
  induction n as [|c n IH]; [reflexivity|]. simpl Path.has_slash.
  intros H. apply orb_false_iff in H as [Hc Hn]. cbn [Js.endsWith].
  destruct (String.eqb_spec (String c n) "/") as [E|_]; [|exact (IH Hn)].
  injection E as -> _. discriminate.
Qed.

Lemma is_segment_spec name :
  Path.is_segment name = true ->
  Path.has_slash name = false /\ name <> EmptyString /\
  name <> "."%string /\ name <> ".."%string.
Proof.
  unfold Path.is_segment. rewrite !andb_true_iff, !negb_true_iff.
  intros [[[H1 H2] H3] H4]. repeat split; [exact H1| | |];
    apply String.eqb_neq; assumption.
Qed.

Lemma normalize_segment_kept above res name :
  name <> EmptyString -> name <> "."%string -> name <> ".."%string ->
  Path.normalize_segment above res name = name :: res.
Proof.
  intros H1 H2 H3. unfold Path.normalize_segment.
  apply String.eqb_neq in H1, H2, H3. rewrite H1, H2, H3. reflexivity.
Qed.

(** Joining a directory and a proper segment puts the segment, as it is,
    after a text that depends on the directory alone. *)
Lemma join_segment dir :
  exists front, forall name,
    Path.is_segment name = true -> Path.join dir name = front +:+ name.
Proof.
  destruct (String.eqb_spec dir EmptyString) as [->|Hdir].
  - exists EmptyString. intros name Hseg.
    apply is_segment_spec in Hseg as (Hslash & Hne & Hdot & Hdots).
    unfold Path.join, Path.join_all.
    rewrite filter_cons_False by (simpl; propositional).
    rewrite filter_cons_True
      by (apply String.eqb_neq in Hne; rewrite Hne; exact I).
    rewrite filter_nil. cbn [Path.with_slashes]. unfold Path.normalize.
    rewrite (proj2 (String.eqb_neq _ _) Hne).
    unfold Path.normalizeString. rewrite (split_segment _ Hslash).
    cbn [fold_left]. rewrite normalize_segment_kept by assumption.
    cbn [rev app Path.with_slashes].
    apply String.eqb_neq in Hne. rewrite Hne, (endsWith_slash_segment _ Hslash).
    destruct name as [|c name]; [discriminate|].
    simpl in Hslash. apply orb_false_iff in Hslash as [Hc _].
    unfold Js.startsWith. cbn [String.prefix].
    destruct (ascii_dec "/" c) as [<-|_]; [discriminate|]. reflexivity.
  - set (abs := Js.startsWith "/" dir).
    set (kept := rev (fold_left (Path.normalize_segment (negb abs))
                                (JsNum.split "/" dir) [])).
    exists ((if abs then "/" else "") +:+
            match kept with
            | [] => EmptyString
            | _ => Path.with_slashes kept +:+ "/"
            end)%string.
    intros name Hseg.
    apply is_segment_spec in Hseg as (Hslash & Hne & Hdot & Hdots).
    unfold Path.join, Path.join_all.
    rewrite filter_cons_True
      by (apply String.eqb_neq in Hdir; rewrite Hdir; exact I).
    rewrite filter_cons_True
      by (apply String.eqb_neq in Hne; rewrite Hne; exact I).
    rewrite filter_nil.
    change (Path.with_slashes [dir; name]) with (dir +:+ "/" +:+ name).
    unfold Path.normalize.
    assert (Hwhole : (dir +:+ "/" +:+ name)%string <> EmptyString)
      by (destruct dir; [contradiction | discriminate]).
    apply String.eqb_neq in Hwhole. rewrite Hwhole.
    assert (Habs : Js.startsWith "/" (dir +:+ "/" +:+ name) = abs).
    { unfold abs. destruct dir as [|c dir]; [contradiction|].
      rewrite append_cons. unfold Js.startsWith. cbn [String.prefix].
      destruct (ascii_dec "/" c); [|reflexivity].
      destruct dir; reflexivity. }
    rewrite Habs.
    assert (Htrail : Js.endsWith "/" (dir +:+ "/" +:+ name) = false).
    { rewrite <- string_app_assoc.
      rewrite endsWith_slash_app by exact Hne.
      apply endsWith_slash_segment, Hslash. }
    rewrite Htrail.
    unfold Path.normalizeString.
    change (dir +:+ "/" +:+ name) with (dir +:+ String "/" name).
    rewrite split_app, (split_segment _ Hslash), fold_left_app.
    cbn [fold_left]. rewrite normalize_segment_kept by assumption.
    cbn [rev]. fold kept. rewrite with_slashes_snoc.
    apply String.eqb_neq in Hne.
    destruct kept as [|k kept'].
    + rewrite Hne. destruct abs; reflexivity.
    + assert (Hres : (Path.with_slashes (k :: kept') +:+ "/" +:+ name =? "")%string
                     = false).
      { apply String.eqb_neq. destruct (Path.with_slashes (k :: kept')); discriminate. }
      rewrite Hres. destruct abs; rewrite ?string_app_assoc; reflexivity.
Qed.

Lemma join_inj_segment dir a b :
  Path.is_segment a = true -> Path.is_segment b = true ->
  Path.join dir a = Path.join dir b -> a = b.
Proof.
  intros Ha Hb. destruct (join_segment dir) as [front Hfront].
  rewrite (Hfront a Ha), (Hfront b Hb).
  apply (inj (String.append front)).
Qed.

(** ** Characters of generated names *)

Lemma every_app P a b : Js.every P (a +:+ b) = Js.every P a && Js.every P b.
Proof.
  induction a as [|c a IH]; [reflexivity|].
  rewrite append_cons. simpl. rewrite IH. apply andb_assoc.
Qed.

Lemma every_impl (P Q : ascii -> bool) s :
  (forall c, P c = true -> Q c = true) -> Js.every P s = true -> Js.every Q s = true.
Proof.
  intros Himpl. induction s as [|c s IH]; [reflexivity|]. simpl.
  rewrite !andb_true_iff. intros [Hc Hs]. split; [apply Himpl, Hc | apply IH, Hs].
Qed.

Lemma pretty_N_go_decimal x s :
  Js.every Js.decimal_char (pretty_N_go x s) = Js.every Js.decimal_char s.
Proof.
  revert s. induction (N.lt_wf_0 x) as [x _ IH]. intros s.
  destruct (decide (0 < x)%N) as [Hpos|Hzero].
  - rewrite pretty_N_go_step by exact Hpos.
    rewrite IH by (apply N.div_lt; [exact Hpos | reflexivity]).
    simpl. replace (Js.decimal_char (pretty_N_char (x `mod` 10))) with true;
      [reflexivity|].
    unfold pretty_N_char. repeat case_match; reflexivity.
  - replace x with 0%N by lia. rewrite pretty_N_go_0. reflexivity.
Qed.

Lemma pretty_Z_decimal (z : Z) : Js.every Js.decimal_char (pretty z) = true.
Proof.
  unfold pretty, pretty_Z. destruct z as [|x|x]; [reflexivity| |].
  - unfold pretty, pretty_positive, pretty, pretty_N.
    destruct (decide (N.pos x = 0%N)); [reflexivity|].
    apply pretty_N_go_decimal.
  - rewrite every_app. unfold pretty, pretty_positive, pretty, pretty_N.
    destruct (decide (N.pos x = 0%N)); [reflexivity|].
    simpl. apply pretty_N_go_decimal.
Qed.

Lemma has_slash_every s :
  Path.has_slash s = negb (Js.every (fun c => negb (Ascii.eqb c "/")) s).
Proof.
  induction s as [|c s IH]; [reflexivity|]. simpl. rewrite IH.
  destruct (Ascii.eqb c "/"); reflexivity.
Qed.

Lemma has_slash_app a b :
  Path.has_slash (a +:+ b) = Path.has_slash a || Path.has_slash b.
Proof.
  rewrite !has_slash_every, every_app.
  destruct (Js.every _ a), (Js.every _ b); reflexivity.
Qed.

Lemma has_slash_pretty (z : Z) : Path.has_slash (pretty z) = false.
Proof.
  rewrite has_slash_every.
  assert (Hchar : forall c, Js.decimal_char c = true ->
                            negb (Ascii.eqb c "/") = true).
  { intros c. destruct (Ascii.eqb_spec c "/") as [->|_];
      [intros H; discriminate H | reflexivity]. }
  rewrite (every_impl _ _ _ Hchar (pretty_Z_decimal z)). reflexivity.
Qed.

Lemma has_slash_basename p : Path.has_slash (Path.basename p) = false.
Proof.
  induction p as [|c r IH]; [reflexivity|]. cbn [Path.basename].
  destruct (Path.has_slash r) eqn:Hr; [exact IH|].
  destruct (Ascii.eqb c "/") eqn:Hc; [exact Hr|].
  simpl. rewrite Hc, Hr. reflexivity.
Qed.

Lemma has_slash_from_last_dot s e :
  Path.from_last_dot s = Some e -> Path.has_slash s = false ->
  Path.has_slash e = false.
Proof.
  revert e. induction s as [|c r IH]; [discriminate|]. simpl. intros e.
  intros He Hs. apply orb_false_iff in Hs as [Hc Hr].
  destruct (Path.from_last_dot r) as [e'|].
  - injection He as <-. apply IH; [reflexivity | exact Hr].
  - destruct (Ascii.eqb c "."); [|discriminate].
    injection He as <-. simpl. rewrite Hc, Hr. reflexivity.
Qed.

Lemma has_slash_extname p : Path.has_slash (Path.extname p) = false.
Proof.
  unfold Path.extname. pose proof (has_slash_basename p) as Hb.
  destruct (String.eqb (Path.basename p) ".."); [reflexivity|].
  destruct (Path.basename p) as [|c r]; [reflexivity|].
  simpl in Hb. apply orb_false_iff in Hb as [_ Hr].
  destruct (Path.from_last_dot r) as [e|] eqn:He; [|reflexivity].
  simpl. exact (has_slash_from_last_dot _ _ He Hr).
Qed.

(** The storage name of a part under the field name [files] is one proper
    segment. *)
Lemma storage_name_segment (t r : Z) (originalname : string) :
  Path.is_segment ("files" +:+ "-" +:+ (pretty t +:+ "-" +:+ pretty r)
                   +:+ Path.extname originalname) = true.
Proof.
  unfold Path.is_segment. rewrite !has_slash_app, !has_slash_pretty,
    has_slash_extname. reflexivity.
Qed.

(** ** C4: admission by extension and MIME type *)

(** C4, as amended: a file part is accepted exactly when its lower-cased
    name ends in a dot followed by one of the eight allowed extensions and
    its declared MIME type is one of the eight allowed MIME types; the two
    tests are independent of each other, and any other part is rejected
    with the descriptive 'Invalid file type' error. *)
Theorem fileFilter_independent_checks (file : Part.t) :
  (fileFilter file = Accept <->
     (exists stem e, In e extensionList /\
        Js.toLowerCase (Part.originalname file) = stem +:+ "." +:+ e) /\
     In (Part.mimetype file) mimetypeList) /\
  (fileFilter file <> Accept -> fileFilter file = RejectFile invalidFileType).
Proof.
  unfold fileFilter.
  pose proof (allowedExtensions_test_spec (Js.toLowerCase (Part.originalname file))) as He.
  rewrite toLowerCase_idem in He.
  pose proof (allowedMimetypes_test_spec (Part.mimetype file)) as Hm.
  destruct (allowedMimetypes_test (Part.mimetype file));
    destruct (allowedExtensions_test (Js.toLowerCase (Part.originalname file))); simpl.
  - split; [|congruence]. split; [intros _|reflexivity].
    split; [apply He | apply Hm]; reflexivity.
  - split; [|reflexivity]. split; [discriminate|].
    intros [H _]. apply He in H. discriminate.
  - split; [|reflexivity]. split; [discriminate|].
    intros [_ H]. apply Hm in H. discriminate.
  - split; [|reflexivity]. split; [discriminate|].
    intros [_ H]. apply Hm in H. discriminate.
Qed.


(** ** Facts about the database layer *)

Lemma sqlite_run {A} (stmt : Z -> Database -> Outcome (A * Database)) w :
  sqlite stmt w =
  match fault (fst (next_step w)) with
  | Some message => (Thrown message, step_done w)
  | None =>
      match stmt (now w) (db w) with
      | Thrown message => (Thrown message, step_done w)
      | Returned (a, d) => (Returned a, step_done (set_db d w))
      end
  end.
Proof.
  unfold sqlite, step_done. destruct (next_step w) as [s rest] eqn:Hn.
  assert (Hn' : forall d, next_step (set_db d w) = (s, rest)) by (intros; exact Hn).
  simpl. destruct (fault s); [reflexivity|].
  destruct (stmt (now w) (db w)) as [[a d]|m]; [|reflexivity].
  rewrite Hn'. reflexivity.
Qed.

Lemma db_step_done w : db (step_done w) = db w.
Proof. reflexivity. Qed.


Lemma dirs_step_done w : dirs (step_done w) = dirs w.
Proof. reflexivity. Qed.

Lemma now_step_done w : now w <= now (step_done w).
Proof. unfold step_done, after_step. simpl. lia. Qed.

Lemma existsSync_step_done p w : existsSync p (step_done w) = existsSync p w.
Proof. reflexivity. Qed.

Lemma getUserByUsername_ok w username :
  statement_ok w ->
  getUserByUsername username w =
  (Returned (user_named (username_text username) (users (db w))), step_done w).
Proof.
  intros Hok. unfold getUserByUsername. rewrite sqlite_run, Hok. simpl.
  destruct w as [[] ? ? ? ? ?]; reflexivity.
Qed.

Lemma getUserByUsername_db w username o w' :
  getUserByUsername username w = (o, w') -> db w' = db w /\ disk w' = disk w.
Proof.
  unfold getUserByUsername. rewrite sqlite_run.
  destruct (fault (fst (next_step w))); simpl; intros [= <- <-]; split;
    try reflexivity; destruct w as [[] ? ? ? ? ?]; reflexivity.
Qed.

Lemma getUserById_ok w id :
  statement_ok w ->
  getUserById id w =
  (Returned (find (fun u => SqlVal_eqb (SqlInt (UserRow.id u)) (sql_bind id))
                  (users (db w))),
   step_done w).
Proof.
  intros Hok. unfold getUserById. rewrite sqlite_run, Hok. simpl.
  destruct w as [[] ? ? ? ? ?]; reflexivity.
Qed.

Lemma getUserById_db w id o w' :
  getUserById id w = (o, w') -> db w' = db w /\ disk w' = disk w.
Proof.
  unfold getUserById. rewrite sqlite_run.
  destruct (fault (fst (next_step w))); simpl; intros [= <- <-]; split;
    try reflexivity; destruct w as [[] ? ? ? ? ?]; reflexivity.
Qed.

Lemma getFileByFilename_ok w filename :
  statement_ok w ->
  getFileByFilename filename w =
  (Returned (find (fun r => String.eqb (FileRow.filename r) filename) (files (db w))),
   step_done w).
Proof.
  intros Hok. unfold getFileByFilename. rewrite sqlite_run, Hok. simpl.
  destruct w as [[] ? ? ? ? ?]; reflexivity.
Qed.

Lemma getFilesByUserId_ok w userId :
  statement_ok w ->
  getFilesByUserId userId w =
  (Returned (ORDER_BY_uploaded_at_DESC
               (filter (owned_by (sql_bind userId)) (files (db w)))),
   step_done w).
Proof.
  intros Hok. unfold getFilesByUserId. rewrite sqlite_run, Hok. simpl.
  destruct w as [[] ? ? ? ? ?]; reflexivity.
Qed.

(** ** C6: login failures *)

Lemma login_run b w uname pass :
  login_username b = Some uname -> login_password b = Some pass ->
  json_truthy (Some uname) = true -> json_truthy (Some pass) = true ->
  statement_ok w ->
  post_api_login b w =
  match user_named (username_text uname) (users (db w)) with
  | None => (error_response 401 "Invalid credentials", step_done w)
  | Some user =>
      match pass with
      | JsonString s =>
          if negb (String.eqb (UserRow.password_hash user) (sha256_hex s))
          then (error_response 401 "Invalid credentials", step_done w)
          else (json_response 200
                  (JObj [("id", JNum (UserRow.id user));
                         ("username", JStr (UserRow.username user));
                         ("email", JStr (UserRow.email user))]%string),
                step_done w)
      | _ => (error_response 500 "Login failed", step_done w)
      end
  end.
Proof.
  intros Hn Hp Hnt Hpt Hok.
  unfold post_api_login, try_catch, login_try. rewrite Hn, Hp, Hnt, Hpt.
  cbn [negb orb default]. unfold bind at 1.
  rewrite getUserByUsername_ok by exact Hok.
  destruct (user_named _ _) as [user|]; [|reflexivity].
  destruct pass; try reflexivity.
  unfold bind, sha256_hex_of, ret. simpl.
  destruct (negb _); reflexivity.
Qed.

(** X21: when the password of the request is a string, a login with an
    unknown username and a login with a known username and a wrong
    password get the same response, 401 with the error 'Invalid
    credentials'.  When the password is any other JSON value that is not
    falsy, the hash of the password cannot be computed: a known username
    is answered 500 'Login failed', an unknown one still 401, and the two
    responses differ.  The database is left as it was in every case. *)
Theorem login_failures_indistinguishable
    (w w' : World) (b b' : LoginBody) (uname uname' pass pass' : JsonValue)
    (u : UserRow.t) :
  login_username b = Some uname -> login_password b = Some pass ->
  login_username b' = Some uname' -> login_password b' = Some pass' ->
  json_truthy (Some uname) = true -> json_truthy (Some pass) = true ->
  json_truthy (Some uname') = true -> json_truthy (Some pass') = true ->
  statement_ok w -> statement_ok w' ->
  (* unknown username in [w] *)
  user_named (username_text uname) (users (db w)) = None ->
  (* known username in [w'] *)
  user_named (username_text uname') (users (db w')) = Some u ->
  fst (post_api_login b w) = error_response 401 "Invalid credentials" /\
  (forall s, pass' = JsonString s -> UserRow.password_hash u <> sha256_hex s ->
     fst (post_api_login b' w') = fst (post_api_login b w)) /\
  ((forall s, pass' <> JsonString s) ->
     fst (post_api_login b' w') = error_response 500 "Login failed" /\
     fst (post_api_login b' w') <> fst (post_api_login b w)) /\
  db (snd (post_api_login b w)) = db w /\
  db (snd (post_api_login b' w')) = db w'.
Proof.
  intros Hn Hp Hn' Hp' Hnt Hpt Hnt' Hpt' Hok Hok' Hunknown Hknown.
  rewrite (login_run b w uname pass Hn Hp Hnt Hpt Hok), Hunknown.
  rewrite (login_run b' w' uname' pass' Hn' Hp' Hnt' Hpt' Hok'), Hknown.
  split; [reflexivity|]. split; [|split].
  - intros s -> Hwrong. apply String.eqb_neq in Hwrong. rewrite Hwrong.
    reflexivity.
  - intros Hother.
    destruct pass' as [|flag|z|s|items|fields];
      try (split; [reflexivity | discriminate]).
    destruct (Hother s eq_refl).
  - split; [reflexivity|].
    destruct pass' as [|flag|z|s|items|fields]; try reflexivity.
    destruct (negb _); reflexivity.
Qed.

(** ** C7: the two not-found results of a download *)

(** C7: a storage name without a metadata record is answered 404
    'File not found'; a storage name whose record exists while nothing is
    on disk at its path is answered 404 'Physical file not found on
    server'; the two answers differ. *)
Theorem download_not_found_cases (w : World) (filename : string) :
  statement_ok w ->
  (find (fun r => String.eqb (FileRow.filename r) filename) (files (db w)) = None ->
   fst (get_api_download filename w) = error_response 404 "File not found") /\
  (forall file,
     find (fun r => String.eqb (FileRow.filename r) filename) (files (db w)) = Some file ->
     existsSync (FileRow.file_path file) w = false ->
     fst (get_api_download filename w) =
     error_response 404 "Physical file not found on server") /\
  error_response 404 "File not found" <>
  error_response 404 "Physical file not found on server".
Proof.
  intros Hok. split; [|split].
  - intros Hnone. unfold get_api_download, try_catch, download_try, bind.
    rewrite getFileByFilename_ok by exact Hok. rewrite Hnone. reflexivity.
  - intros file Hsome Hmissing.
    unfold get_api_download, try_catch, download_try, bind.
    rewrite getFileByFilename_ok by exact Hok. rewrite Hsome.
    rewrite existsSync_step_done, Hmissing. reflexivity.
  - discriminate.
Qed.

(** ** C5: usernames and emails are unique *)













(** ** C8: listing a user's files *)

Lemma insert_desc_Permutation r l : Permutation (insert_desc r l) (r :: l).
Proof.
  induction l as [|x l IH]; simpl; [reflexivity|].
  destruct (time_key (FileRow.uploaded_at x) <=? time_key (FileRow.uploaded_at r)).
  - reflexivity.
  - rewrite IH. apply perm_swap.
Qed.

Lemma ORDER_BY_Permutation rows : Permutation (ORDER_BY_uploaded_at_DESC rows) rows.
Proof.
  induction rows as [|r rows IH]; simpl; [reflexivity|].
  rewrite insert_desc_Permutation. apply perm_skip, IH.
Qed.

Lemma insert_desc_newest_first r l :
  newest_first l -> newest_first (insert_desc r l).
Proof.
  unfold newest_first. induction l as [|x l IH]; simpl; intros Hs.
  - repeat constructor.
  - destruct (Z.leb_spec (time_key (FileRow.uploaded_at x))
                         (time_key (FileRow.uploaded_at r))) as [Hle|Hgt].
    + constructor; [exact Hs|].
      apply StronglySorted_inv in Hs as [_ Hall].
      constructor; [exact Hle|].
      eapply Forall_impl; [exact Hall|]. simpl. intros y Hy. lia.
    + apply StronglySorted_inv in Hs as [Hs Hall].
      constructor; [apply IH, Hs|].
      apply Forall_forall. intros y Hy.
      apply list_elem_of_In in Hy.
      apply (Permutation_in _ (insert_desc_Permutation r l)) in Hy.
      destruct Hy as [<-|Hy]; [lia|].
      rewrite Forall_forall in Hall. apply Hall, list_elem_of_In, Hy.
Qed.

Lemma ORDER_BY_newest_first rows : newest_first (ORDER_BY_uploaded_at_DESC rows).
Proof.
  induction rows as [|r rows IH]; simpl.
  - constructor.
  - apply insert_desc_newest_first, IH.
Qed.

Lemma createFile_returned userId originalName filename filePath fileSize
    mimeType fileHash w f w' :
  createFile userId originalName filename filePath fileSize mimeType fileHash w
    = (Returned f, w') ->
  exists row,
    files (db w') = files (db w) ++ [row] /\
    users (db w') = users (db w) /\ disk w' = disk w /\
    now w <= now w' /\
    DbFile.id f = FileRow.id row /\
    FileRow.user_id row = sql_bind userId /\
    FileRow.original_name row = originalName /\
    FileRow.filename row = filename /\
    FileRow.file_path row = filePath /\
    FileRow.file_size row = fileSize /\
    FileRow.mime_type row = mimeType /\
    FileRow.file_hash row = fileHash /\
    FileRow.uploaded_at row = CURRENT_TIMESTAMP (now w).
Proof.
  unfold createFile, bind. rewrite sqlite_run.
  destruct (fault (fst (next_step w))); [discriminate|].
  unfold INSERT_INTO_files.
  destruct (sql_bind userId) eqn:Hbind; try discriminate;
    intros H; inversion H; subst; clear H; eexists; simpl;
    (split; [reflexivity|]); rewrite ?Hbind;
    repeat (split; [try reflexivity; lia|]); reflexivity.
Qed.

Lemma createFile_thrown userId originalName filename filePath fileSize
    mimeType fileHash w message w' :
  createFile userId originalName filename filePath fileSize mimeType fileHash w
    = (Thrown message, w') ->
  db w' = db w /\ disk w' = disk w.
Proof.
  unfold createFile, bind. rewrite sqlite_run.
  destruct (fault (fst (next_step w))).
  { intros [= <- <-]. split; reflexivity. }
  destruct (INSERT_INTO_files _ _ _ _ _ _ _ (now w) (db w)) as [[id d]|m].
  - discriminate.
  - intros [= <- <-]. split; reflexivity.
Qed.

Lemma owned_by_spec n (r : FileRow.t) :
  owned_by (SqlInt n) r = true <-> FileRow.user_id r = SqlInt n.
Proof.
  unfold owned_by. destruct (FileRow.user_id r) as [|m|s|neg]; simpl;
    try (split; discriminate).
  rewrite Z.eqb_eq. split; congruence.
Qed.

Lemma filter_owned n (rows : list FileRow.t) :
  filter (owned_by (SqlInt n)) rows
  = filter (fun r => FileRow.user_id r = SqlInt n) rows.
Proof.
  apply list_filter_iff. intros r. rewrite <- owned_by_spec.
  destruct (owned_by (SqlInt n) r); simpl; split; congruence || propositional.
Qed.

(** The sort is stable: rows with the same [uploaded_at] stay in the order
    of the table. *)
Lemma insert_desc_stable k r l :
  filter (fun x => time_key (FileRow.uploaded_at x) = k) (insert_desc r l)
  = filter (fun x => time_key (FileRow.uploaded_at x) = k) (r :: l).
Proof.
  induction l as [|x l IH]; [reflexivity|]. cbn [insert_desc].
  destruct (Z.leb_spec (time_key (FileRow.uploaded_at x))
                       (time_key (FileRow.uploaded_at r))) as [Hle|Hgt];
    [reflexivity|].
  rewrite (filter_cons _ x), IH, !(filter_cons _ r), (filter_cons _ x).
  destruct (decide (time_key (FileRow.uploaded_at r) = k)) as [Hr|Hr];
    [|reflexivity].
  destruct (decide (time_key (FileRow.uploaded_at x) = k)) as [Hx|Hx];
    [lia | reflexivity].
Qed.

Lemma ORDER_BY_stable k rows :
  filter (fun x => time_key (FileRow.uploaded_at x) = k)
         (ORDER_BY_uploaded_at_DESC rows)
  = filter (fun x => time_key (FileRow.uploaded_at x) = k) rows.
Proof.
  induction rows as [|r rows IH]; [reflexivity|].
  cbn [ORDER_BY_uploaded_at_DESC fold_right].
  rewrite insert_desc_stable, !(filter_cons _ r).
  fold (ORDER_BY_uploaded_at_DESC rows). rewrite IH. reflexivity.
Qed.




(** ** The upload loop *)

Lemma recorded_widen on_disk userId t0 t1 t0' t1' file d row :
  t0' <= t0 -> t1 <= t1' ->
  recorded on_disk userId t0 t1 file d row ->
  recorded on_disk userId t0' t1' file d row.
Proof.
  intros H0 H1 (Hb & (ti & tr & Ha & Hb' & Hc & Hi & Hr) & Hrest).
  split; [exact Hb|]. split; [|exact Hrest].
  exists ti, tr. repeat split; try assumption; lia.
Qed.

Lemma upload_one_returned userId file w d w' :
  upload_one userId file w = (Returned d, w') ->
  exists row,
    files (db w') = files (db w) ++ [row] /\
    users (db w') = users (db w) /\ disk w' = disk w /\ now w <= now w' /\
    recorded (disk w) userId (now w) (now w') file d row.
Proof.
  unfold upload_one, bind, readFileSync.
  destruct (disk w !! File.path file) as [bytes|] eqn:Hread;
    [|destruct (bool_decide _); discriminate].
  destruct (createFile _ _ _ _ _ _ _ w) as [[f|m] w1] eqn:Hc; [|discriminate].
  unfold Date_now, ret. intros H. inversion H; subst; clear H.
  apply createFile_returned in Hc
    as (row & Hf & Hu & Hd & Hn & Hid & Huid & Hon & Hfn & Hfp & Hfs & Hmt & Hfh & Hat).
  exists row. repeat (split; [assumption|]).
  unfold recorded. simpl.
  split; [exists bytes; split; [exact Hread | reflexivity]|].
  split; [exists (now w), (now w'); repeat split; try assumption; try lia|].
  repeat (split; [first [assumption | reflexivity]|]). exact Hfh.
Qed.

Lemma upload_one_thrown userId file w message w' :
  upload_one userId file w = (Thrown message, w') ->
  db w' = db w /\ disk w' = disk w.
Proof.
  unfold upload_one, bind, readFileSync.
  destruct (disk w !! File.path file) as [bytes|] eqn:Hread.
  - destruct (createFile _ _ _ _ _ _ _ w) as [[f|m] w1] eqn:Hc.
    + discriminate.
    + intros [= <- <-]. exact (createFile_thrown _ _ _ _ _ _ _ _ _ _ Hc).
  - destruct (bool_decide _); intros [= <- <-]; split; reflexivity.
Qed.

Lemma upload_each_app userId done rest acc w :
  upload_each userId (done ++ rest) acc w =
  match upload_each userId done acc w with
  | (Returned ds, w1) => upload_each userId rest ds w1
  | (Thrown message, w1) => (Thrown message, w1)
  end.
Proof.
  revert acc w. induction done as [|f done IH]; intros acc w; [reflexivity|].
  simpl. unfold bind.
  destruct (upload_one userId f w) as [[d|m] w1]; [apply IH | reflexivity].
Qed.

Lemma files_added_refl w : files_added w w [].
Proof. unfold files_added. rewrite app_nil_r. repeat split; lia. Qed.

Lemma upload_each_returned userId files acc w ds w' :
  upload_each userId files acc w = (Returned ds, w') ->
  exists ds' rows,
    ds = acc ++ ds' /\ files_added w w' rows /\
    Forall3 (recorded (disk w) userId (now w) (now w')) files ds' rows.
Proof.
  revert acc w. induction files as [|f files IH]; intros acc w; simpl.
  - intros [= <- <-]. exists [], []. rewrite app_nil_r.
    split; [reflexivity|]. split; [apply files_added_refl | constructor].
  - unfold bind at 1.
    destruct (upload_one userId f w) as [[d|m] w1] eqn:Hone; [|discriminate].
    intros Hrest.
    apply upload_one_returned in Hone as (row & Hf & Hu & Hd & Hn & Hrec).
    apply IH in Hrest as (ds'' & rows' & -> & (Hf' & Hu' & Hd' & Hn') & Hall).
    exists (d :: ds''), (row :: rows'). rewrite <- app_assoc.
    split; [reflexivity|]. split.
    + unfold files_added. rewrite Hf', Hf, <- app_assoc, Hu', Hu, Hd', Hd.
      repeat split; lia.
    + constructor.
      * eapply recorded_widen; [| |exact Hrec]; lia.
      * rewrite Hd in Hall. eapply Forall3_impl; [exact Hall|].
        intros x y z. apply recorded_widen; lia.
Qed.

Lemma upload_each_thrown userId files acc w message w' :
  upload_each userId files acc w = (Thrown message, w') ->
  exists done failing rest ds w1,
    files = done ++ failing :: rest /\
    upload_each userId done acc w = (Returned ds, w1) /\
    upload_one userId failing w1 = (Thrown message, w').
Proof.
  revert acc w. induction files as [|f files IH]; intros acc w; simpl.
  - discriminate.
  - unfold bind at 1.
    destruct (upload_one userId f w) as [[d|m] w1] eqn:Hone.
    + intros Hrest.
      apply IH in Hrest as (done & failing & rest & ds & w2 & -> & Hdone & Hfail).
      exists (f :: done), failing, rest, ds, w2.
      split; [reflexivity|]. split; [|exact Hfail].
      simpl. unfold bind at 1. rewrite Hone. exact Hdone.
    + intros [= <- <-]. exists [], f, files, acc, w.
      split; [reflexivity|]. split; [reflexivity | exact Hone].
Qed.

(** What a 201 from the upload handler means. *)
Lemma upload_handler_created uid files w r w' :
  upload_handler uid files w = (r, w') -> status r = 201 ->
  exists userId user ds rows,
    uid = Some userId /\ r = files_uploaded ds /\
    find (fun u => SqlVal_eqb (SqlInt (UserRow.id u)) (numeric_affinity userId))
         (users (db w)) = Some user /\
    files <> [] /\ files_added w w' rows /\
    Forall3 (recorded (disk w) userId (now w) (now w')) files ds rows.
Proof.
  unfold upload_handler, try_catch, upload_try.
  destruct (negb (Js.truthy uid)) eqn:Htruthy.
  { intros [= <- <-]. simpl. lia. }
  destruct uid as [userId|]; [|discriminate]. simpl.
  unfold bind at 1. unfold getUserById. rewrite sqlite_run.
  destruct (fault (fst (next_step w))).
  { intros [= <- <-]. simpl. lia. }
  unfold SELECT_users_WHERE_id. simpl.
  destruct (find _ (users (db w))) as [user|] eqn:Hfind.
  2:{ intros [= <- <-]. simpl. lia. }
  destruct files as [|f files].
  { intros [= <- <-]. simpl. lia. }
  unfold bind.
  destruct (upload_each userId (f :: files) [] _) as [[ds|m] w1] eqn:Heach.
  2:{ intros [= <- <-]. simpl. lia. }
  intros [= <- <-] _.
  apply upload_each_returned in Heach as (ds' & rows & -> & (Hf & Hu & Hd & Hn) & Hall).
  exists userId, user, ds', rows. simpl in *.
  split; [reflexivity|]. split; [reflexivity|]. split; [exact Hfind|].
  split; [discriminate|]. split.
  - unfold files_added. rewrite Hf, Hu, Hd.
    destruct w as [[] ? ? ? ? ?]. simpl in *. repeat split; lia.
  - destruct w as [[] ? ? ? ? ?]. simpl in *.
    eapply Forall3_impl; [exact Hall|].
    intros x y z. apply recorded_widen; lia.
Qed.

(** ** The multer middleware *)

Lemma abortWithError_thrown {A} message uploaded w :
  exists w', @abortWithError A message uploaded w = (Thrown message, w') /\
             db w' = db w /\ now w' = now w /\ script w' = script w.
Proof.
  revert w. induction uploaded as [|f uploaded IH]; intros w; simpl.
  - exists w. repeat split.
  - unfold bind, unlink.
    destruct (IH (set_disk (delete (File.path f) (disk w)) w))
      as (w' & -> & Hd & Hn & Hs).
    exists w'. repeat split; assumption.
Qed.

Lemma handleFile_returned p w f w' :
  handleFile p w = (Returned f, w') ->
  stored_as p f /\ db w' = db w /\ now w' = now w /\ script w' = script w /\
  dirs w' = dirs w /\
  disk w' = <[File.path f := Part.content p]> (disk w).
Proof.
  unfold handleFile, storage_filename, bind, Date_now, Math_random_1E9,
    writeFile, ret.
  destruct (random w) as [|r rest]; simpl;
    destruct (bool_decide (uploadPath config ∈ dirs w)); try discriminate;
    intros H; inversion H; subst; clear H; simpl;
    repeat split; reflexivity.
Qed.

Lemma handleFile_thrown p w message w' :
  handleFile p w = (Thrown message, w') ->
  db w' = db w /\ now w' = now w /\ script w' = script w.
Proof.
  unfold handleFile, storage_filename, bind, Date_now, Math_random_1E9,
    writeFile, ret.
  destruct (random w) as [|r rest]; simpl;
    destruct (bool_decide (uploadPath config ∈ dirs w)); try discriminate;
    intros H; inversion H; subst; clear H; simpl;
    repeat split; reflexivity.
Qed.

(** multer never touches the database, the clock or the script. *)
Lemma upload_array_db incoming uploaded w o w' :
  upload_array incoming uploaded w = (o, w') ->
  db w' = db w /\ now w' = now w /\ script w' = script w.
Proof.
  revert uploaded w. induction incoming as [|p rest IH]; intros uploaded w; simpl.
  - intros [= <- <-]. repeat split.
  - assert (Habort : forall message,
              @abortWithError (list File.t) message uploaded w = (o, w') ->
              db w' = db w /\ now w' = now w /\ script w' = script w).
    { intros message. destruct (abortWithError_thrown (A:=list File.t) message uploaded w)
        as (w1 & -> & H). intros [= <- <-]. exact H. }
    destruct (maxFiles config <=? length uploaded)%nat; [apply Habort|].
    destruct (negb (Part.fieldname p =? "files")%string); [apply Habort|].
    destruct (fileFilter p); [|apply Habort].
    destruct (within_fileSize p); [|apply Habort].
    destruct (handleFile p w) as [[f|m] w1] eqn:Hh.
    + apply handleFile_returned in Hh as (_ & Hd & Hn & Hs & _).
      intros Hrest. apply IH in Hrest as (Hd' & Hn' & Hs').
      repeat split; congruence.
    + apply handleFile_thrown in Hh as (Hd & Hn & Hs).
      destruct (abortWithError_thrown (A:=list File.t) m uploaded w1)
        as (w2 & -> & Hd' & Hn' & Hs').
      intros [= <- <-]. repeat split; congruence.
Qed.

(** What [req.files] and the disk look like once multer lets the request
    through. *)
Lemma upload_array_returned incoming uploaded w fs w1 :
  upload_array incoming uploaded w = (Returned fs, w1) ->
  exists fs',
    fs = uploaded ++ fs' /\
    Forall2 (fun p f =>
               stored_as p f /\
               (NoDup (map File.path fs') ->
                disk w1 !! File.path f = Some (Part.content p)))
            incoming fs' /\
    Forall (fun f => is_Some (disk w1 !! File.path f)) fs' /\
    (forall q, ~ In q (map File.path fs') -> disk w1 !! q = disk w !! q).
Proof.
  revert uploaded w. induction incoming as [|p rest IH]; intros uploaded w; simpl.
  - intros [= <- <-]. exists []. rewrite app_nil_r.
    repeat split; try constructor.
  - assert (Habort : forall message,
              @abortWithError (list File.t) message uploaded w <> (Returned fs, w1)).
    { intros message. destruct (abortWithError_thrown (A:=list File.t) message uploaded w)
        as (w2 & -> & _). discriminate. }
    destruct (maxFiles config <=? length uploaded)%nat;
      [intros H; destruct (Habort _ H)|].
    destruct (negb (Part.fieldname p =? "files")%string);
      [intros H; destruct (Habort _ H)|].
    destruct (fileFilter p); [|intros H; destruct (Habort _ H)].
    destruct (within_fileSize p); [|intros H; destruct (Habort _ H)].
    destruct (handleFile p w) as [[f|m] w'] eqn:Hh.
    2:{ destruct (abortWithError_thrown (A:=list File.t) m uploaded w')
          as (w2 & -> & _). discriminate. }
    apply handleFile_returned in Hh as (Hst & _ & _ & _ & _ & Hdisk).
    intros Hrest. apply IH in Hrest as (fs'' & -> & Hall & Hsome & Hother).
    exists (f :: fs''). rewrite <- app_assoc. split; [reflexivity|].
    assert (Hhead : ~ In (File.path f) (map File.path fs'') ->
                    disk w1 !! File.path f = Some (Part.content p)).
    { intros Hnot. rewrite (Hother _ Hnot), Hdisk. apply lookup_insert_eq. }
    split; [|split].
    + constructor.
      * split; [exact Hst|]. simpl. intros Hnd.
        apply Hhead. apply NoDup_cons in Hnd as [Hnot _].
        intros Hin. apply Hnot, list_elem_of_In, Hin.
      * eapply Forall2_impl; [exact Hall|]. simpl.
        intros p' f' [Hst' Hnd']. split; [exact Hst'|].
        intros Hnd. apply Hnd'. apply NoDup_cons in Hnd as [_ Hnd]. exact Hnd.
    + constructor; [|exact Hsome].
      destruct (in_dec string_dec (File.path f) (map File.path fs'')) as [Hin|Hnot].
      * apply in_map_iff in Hin as (f' & Hp & Hin). rewrite <- Hp.
        rewrite Forall_forall in Hsome. apply Hsome, list_elem_of_In, Hin.
      * rewrite (Hhead Hnot). eauto.
    + intros q Hq. simpl in Hq.
      rewrite Hother by propositional. rewrite Hdisk.
      apply lookup_insert_ne. propositional.
Qed.

(** The storage names that multer lets through are proper segments. *)
Lemma handleFile_segment p w f w' :
  handleFile p w = (Returned f, w') ->
  Part.fieldname p = "files"%string ->
  Path.is_segment (File.filename f) = true.
Proof.
  unfold handleFile, storage_filename, bind, Date_now, Math_random_1E9,
    writeFile, ret.
  intros H Hfield. rewrite Hfield in H.
  destruct (random w) as [|r rest]; simpl in H;
    destruct (bool_decide (uploadPath config ∈ dirs w)); try discriminate;
    inversion H; subst; clear H; simpl; apply storage_name_segment.
Qed.

Lemma upload_array_segments incoming uploaded w fs w1 :
  upload_array incoming uploaded w = (Returned fs, w1) ->
  Forall (fun f => Path.is_segment (File.filename f) = true) uploaded ->
  Forall (fun f => Path.is_segment (File.filename f) = true) fs.
Proof.
  revert uploaded w. induction incoming as [|p rest IH]; intros uploaded w; simpl.
  - intros [= <- <-] H. exact H.
  - assert (Habort : forall message,
              @abortWithError (list File.t) message uploaded w <> (Returned fs, w1)).
    { intros message. destruct (abortWithError_thrown (A:=list File.t) message uploaded w)
        as (w2 & -> & _). discriminate. }
    destruct (maxFiles config <=? length uploaded)%nat;
      [intros H; destruct (Habort _ H)|].
    destruct (String.eqb_spec (Part.fieldname p) "files") as [Hfield|_];
      [|intros H; destruct (Habort _ H)]. cbn [negb].
    destruct (fileFilter p); [|intros H; destruct (Habort _ H)].
    destruct (within_fileSize p); [|intros H; destruct (Habort _ H)].
    destruct (handleFile p w) as [[f|m] w'] eqn:Hh.
    2:{ destruct (abortWithError_thrown (A:=list File.t) m uploaded w')
          as (w2 & -> & _). discriminate. }
    intros Hrest Hup. apply (IH _ _ Hrest).
    apply Forall_app. split; [exact Hup|].
    constructor; [|constructor]. exact (handleFile_segment _ _ _ _ Hh Hfield).
Qed.

Lemma joined_distinct dir (names : list string) :
  Forall (fun name => Path.is_segment name = true) names ->
  NoDup names -> NoDup (map (Path.join dir) names).
Proof.
  intros Hseg Hnd. apply NoDup_fmap_2_strong; [|exact Hnd].
  rewrite Forall_forall in Hseg.
  intros a b Ha Hb. apply join_inj_segment; apply Hseg; assumption.
Qed.

(** ** Lower-case hex *)





(** ** The upload handler *)

(** Past the user check the handler is the loop and its catch. *)
Lemma upload_handler_loop userId user files w w0 :
  userId <> EmptyString -> files <> [] ->
  getUserById (JsString userId) w = (Returned (Some user), w0) ->
  upload_handler (Some userId) files w =
  match upload_each userId files [] w0 with
  | (Returned ds, w') => (files_uploaded ds, w')
  | (Thrown _, w') => (error_response 500 "File upload failed", w')
  end.
Proof.
  intros Hne Hfiles Hget. unfold upload_handler, try_catch, upload_try. simpl.
  apply String.eqb_neq in Hne. rewrite Hne. simpl.
  unfold bind at 1. rewrite Hget.
  destruct files as [|f files]; [congruence|].
  unfold bind, ret.
  destruct (upload_each userId (f :: files) [] w0) as [[ds|m] w']; reflexivity.
Qed.

(** ** C1: a batch that fails part-way *)

(** C1, as amended: when a file of the batch fails its per-file step
    (reading it back for the hash, or the metadata insert), the request as
    a whole is answered 500 'File upload failed', and no record is created
    for the failing file or for any file after it; the records already
    created for the files processed before it stay in the files table. *)
Theorem failed_batch_keeps_earlier_records
    (userId : string) (user : UserRow.t)
    (done rest : list File.t) (failing : File.t)
    (w w0 w1 w2 : World) (ds : list Descriptor.t) (message : string) :
  userId <> EmptyString ->
  getUserById (JsString userId) w = (Returned (Some user), w0) ->
  upload_each userId done [] w0 = (Returned ds, w1) ->
  upload_one userId failing w1 = (Thrown message, w2) ->
  upload_handler (Some userId) (done ++ failing :: rest) w =
    (error_response 500 "File upload failed", w2) /\
  exists rows,
    files (db w2) = files (db w) ++ rows /\
    users (db w2) = users (db w) /\
    disk w2 = disk w /\
    Forall3 (recorded (disk w) userId (now w) (now w1)) done ds rows.
Proof.
  intros Hne Hget Hdone Hfail. split.
  - rewrite (upload_handler_loop userId user _ w w0 Hne) by
      (try exact Hget; destruct done; discriminate).
    rewrite upload_each_app, Hdone. simpl. unfold bind. rewrite Hfail.
    reflexivity.
  - apply upload_each_returned in Hdone
      as (ds' & rows & -> & (Hf & Hu & Hd & Hn) & Hall).
    apply upload_one_thrown in Hfail as [Hdb Hdisk].
    pose proof (getUserById_db _ _ _ _ Hget) as [Hdb0 Hdisk0].
    assert (Hnow : now w <= now w0).
    { unfold getUserById in Hget. rewrite sqlite_run in Hget.
      destruct (fault (fst (next_step w))); [discriminate|]. simpl in Hget.
      injection Hget as _ <-. apply (now_step_done (set_db (db w) w)). }
    exists rows. rewrite Hdb, Hf, Hu, Hdisk, Hd, Hdb0, Hdisk0.
    repeat (split; [reflexivity|]).
    rewrite Hdisk0 in Hall. simpl.
    eapply Forall3_impl; [exact Hall|].
    intros x y z. apply recorded_widen; lia.
Qed.

(** ** C2: a request without a valid user *)


(** ** C3: the size and the hash that are recorded *)

Lemma Forall2_Forall3 {A B C D} (P : A -> B -> Prop) (Q : B -> C -> D -> Prop)
    (R : A -> C -> D -> Prop) ps fs ds rows :
  Forall2 P ps fs -> Forall3 Q fs ds rows ->
  (forall p f d r, P p f -> Q f d r -> R p d r) ->
  Forall3 R ps ds rows.
Proof.
  intros HP HQ Himpl. revert ps HP.
  induction HQ as [|f d r fs ds rows Hq _ IH]; intros ps HP.
  - inversion HP; subst. constructor.
  - inversion HP; subst. constructor; [eapply Himpl; eassumption | apply IH; assumption].
Qed.

Lemma Forall3_drop_l {A B C} (Q : A -> B -> C -> Prop) fs ds rows :
  Forall3 Q fs ds rows -> Forall2 (fun d r => exists f, Q f d r) ds rows.
Proof. induction 1; constructor; eauto. Qed.

Lemma recorded_filenames on_disk userId t0 t1 files ds rows :
  Forall3 (recorded on_disk userId t0 t1) files ds rows ->
  map Descriptor.filename ds = map File.filename files.
Proof.
  induction 1 as [|f d r fs ds rows Hrec _ IH]; [reflexivity|].
  simpl. rewrite IH. f_equal. apply Hrec.
Qed.

Lemma stored_paths {P : Part.t -> File.t -> Prop} ps fs :
  Forall2 (fun p f => stored_as p f /\ P p f) ps fs ->
  map File.path fs = map (Path.join (uploadPath config)) (map File.filename fs).
Proof.
  induction 1 as [|p f ps fs [Hst _] _ IH]; [reflexivity|].
  simpl. rewrite IH. f_equal. apply Hst.
Qed.


(** ** C10: the timestamp of the upload reply *)

Lemma clock_after_0 w : clock_after 0 w = now w.
Proof. unfold clock_after. rewrite take_0. simpl. lia. Qed.

Lemma clock_after_S n w : clock_after (S n) w = clock_after n (step_done w).
Proof.
  unfold clock_after, step_done, after_step, next_step.
  destruct (script w) as [|s rest]; simpl; [rewrite take_nil; simpl; lia|].
  unfold fmap. lia.
Qed.

Lemma clock_after_eq n w v :
  now w = now v -> script w = script v -> clock_after n w = clock_after n v.
Proof. unfold clock_after. intros -> ->. reflexivity. Qed.

Lemma clock_after_mono n w : clock_after n w <= clock_after (S n) w.
Proof.
  revert w. induction n as [|n IH]; intros w.
  - rewrite clock_after_S, !clock_after_0. apply now_step_done.
  - rewrite (clock_after_S (S n)), (clock_after_S n). apply IH.
Qed.

Lemma sqlite_clock {A} (stmt : Z -> Database -> Outcome (A * Database)) w o w' :
  sqlite stmt w = (o, w') ->
  now w' = now (step_done w) /\ script w' = script (step_done w).
Proof.
  rewrite sqlite_run. destruct (fault (fst (next_step w))).
  { intros [= <- <-]. split; reflexivity. }
  destruct (stmt (now w) (db w)) as [[a d]|m]; intros [= <- <-];
    split; reflexivity.
Qed.

(** One turn of the loop: the record is stamped by the engine when the
    insert runs, the reply entry by the clock once the insert is done. *)
Lemma upload_one_times userId file w d w' :
  upload_one userId file w = (Returned d, w') ->
  now w' = now (step_done w) /\ script w' = script (step_done w) /\
  Descriptor.uploadedAt d = IsoMillis (now (step_done w)) /\
  exists row,
    files (db w') = files (db w) ++ [row] /\
    Descriptor.id d = FileRow.id row /\
    FileRow.uploaded_at row = SqlSeconds (now w / 1000).
Proof.
  intros H. pose proof (upload_one_returned _ _ _ _ _ H)
    as (row & Hf & _ & _ & _ & Hrec).
  unfold upload_one, bind, readFileSync in H.
  destruct (disk w !! File.path file) as [bytes|];
    [|destruct (bool_decide _); discriminate].
  destruct (createFile _ _ _ _ _ _ _ w) as [[f|m] w1] eqn:Hc; [|discriminate].
  unfold Date_now, ret in H. inversion H; subst; clear H.
  pose proof Hc as Hc'. unfold createFile, bind in Hc'.
  destruct (sqlite _ w) as [[lastID|m] w2] eqn:Hrun; [|discriminate].
  unfold ret in Hc'. injection Hc' as _ ->.
  apply sqlite_clock in Hrun as [Hnow Hscript].
  split; [exact Hnow|]. split; [exact Hscript|].
  split; [simpl; unfold toISOString; rewrite Hnow; reflexivity|].
  apply createFile_returned in Hc
    as (row' & Hf' & _ & _ & _ & Hid & _ & _ & _ & _ & _ & _ & _ & Hat).
  exists row'. split; [exact Hf'|]. split; [exact Hid | exact Hat].
Qed.

Lemma upload_each_times userId batch acc w ds w' :
  upload_each userId batch acc w = (Returned ds, w') ->
  exists ds' rows,
    ds = acc ++ ds' /\ files (db w') = files (db w) ++ rows /\
    length ds' = length batch /\ length rows = length batch /\
    forall i d row,
      ds' !! i = Some d -> rows !! i = Some row ->
      Descriptor.id d = FileRow.id row /\
      FileRow.uploaded_at row = SqlSeconds (clock_after i w / 1000) /\
      Descriptor.uploadedAt d = IsoMillis (clock_after (S i) w).
Proof.
  revert acc w. induction batch as [|f batch IH]; intros acc w; simpl.
  - intros [= <- <-]. exists [], []. rewrite !app_nil_r.
    repeat (split; [reflexivity|]). intros i d row Hd. discriminate Hd.
  - unfold bind at 1.
    destruct (upload_one userId f w) as [[d|m] w1] eqn:Hone; [|discriminate].
    intros Hrest.
    apply upload_one_times in Hone
      as (Hnow & Hscript & Hup & row & Hf & Hid & Hat).
    apply IH in Hrest as (ds'' & rows' & -> & Hf' & Hl1 & Hl2 & Hall).
    exists (d :: ds''), (row :: rows'). rewrite <- app_assoc.
    split; [reflexivity|].
    split; [rewrite Hf', Hf, <- app_assoc; reflexivity|].
    split; [simpl; congruence|]. split; [simpl; congruence|].
    intros [|i] d' row'; simpl.
    + intros [= <-] [= <-]. rewrite clock_after_S, !clock_after_0. auto.
    + intros Hd Hrow. rewrite !(clock_after_S _ w).
      rewrite <- !(clock_after_eq _ w1 (step_done w) Hnow Hscript).
      exact (Hall i d' row' Hd Hrow).
Qed.

Lemma upload_handler_201_clock uid batch w r w' :
  upload_handler uid batch w = (r, w') -> status r = 201 ->
  exists userId w0 ds,
    r = files_uploaded ds /\ db w0 = db w /\
    now w0 = now (step_done w) /\ script w0 = script (step_done w) /\
    upload_each userId batch [] w0 = (Returned ds, w').
Proof.
  unfold upload_handler, try_catch, upload_try.
  destruct (negb (Js.truthy uid)).
  { intros [= <- <-]. simpl. lia. }
  unfold bind at 1.
  destruct (getUserById _ w) as [[[user|]|m] w0] eqn:Hget;
    try (intros [= <- <-]; simpl; lia).
  pose proof (getUserById_db _ _ _ _ Hget) as [Hdb _].
  apply sqlite_clock in Hget as [Hnow Hscript].
  destruct batch as [|f batch].
  { intros [= <- <-]. simpl. lia. }
  unfold bind, ret.
  destruct (upload_each _ (f :: batch) [] w0) as [[ds|m] w1] eqn:Heach.
  2:{ intros [= <- <-]. simpl. lia. }
  intros [= <- <-] _. eauto 8.
Qed.

(** C10: in a successful upload the record of the file number [i] is
    stamped [uploaded_at] by the engine, in whole seconds, when its insert
    runs (the statement number [i + 1] of the request, after the user
    lookup), and the [uploadedAt] of its reply entry is the clock read, to
    the millisecond, once that insert has completed.  The reply never
    copies the stored value: the instant it gives is the later one, and the
    two are the same instant only if the insert took no time and ran on a
    whole second.  There are runs in which the listing later shows, for
    the same file, a different instant than the upload reply did. *)
Theorem upload_timestamp_is_fresh (req : UploadRequest) (w : World) :
  (status (fst (post_api_upload req w)) = 201 ->
   exists ds rows,
     fst (post_api_upload req w) = files_uploaded ds /\
     files (db (snd (post_api_upload req w))) = files (db w) ++ rows /\
     length ds = length (parts req) /\ length rows = length (parts req) /\
     forall i d row,
       ds !! i = Some d -> rows !! i = Some row ->
       Descriptor.id d = FileRow.id row /\
       FileRow.uploaded_at row = SqlSeconds (clock_after (S i) w / 1000) /\
       Descriptor.uploadedAt d = IsoMillis (clock_after (S (S i)) w) /\
       clock_after (S i) w <= clock_after (S (S i)) w /\
       instant_ms (FileRow.uploaded_at row)
         <= instant_ms (Descriptor.uploadedAt d) /\
       (instant_ms (FileRow.uploaded_at row)
          = instant_ms (Descriptor.uploadedAt d) <->
        clock_after (S (S i)) w = clock_after (S i) w /\
        clock_after (S i) w mod 1000 = 0)) /\
  (exists (w0 w1 : World) (file : File.t) (d : Descriptor.t) (row : FileRow.t),
     upload_handler (Some "1"%string) [file] w0 = (files_uploaded [d], w1) /\
     fst (get_api_users_files "1" w1) =
       json_response 200 (JObj [("files"%string, JArr [file_entry row])]) /\
     FileRow.id row = Descriptor.id d /\
     instant_ms (FileRow.uploaded_at row) <> instant_ms (Descriptor.uploadedAt d)).
Proof.
  split.
  - unfold post_api_upload.
    destruct (upload_array (parts req) [] w) as [[accepted|m] w1] eqn:Hmulter;
      [|simpl; lia].
    destruct (upload_handler (userId req) accepted w1) as [r w2] eqn:Hrun.
    simpl. intros H201.
    pose proof (upload_array_db _ _ _ _ _ Hmulter) as (Hdb & Hnow & Hscript).
    apply upload_array_returned in Hmulter as (fs' & Hfs & Hall & _ & _).
    simpl in Hfs. subst fs'. apply Forall2_length in Hall.
    destruct (upload_handler_201_clock _ _ _ _ _ Hrun H201)
      as (uid & w0 & ds & -> & Hdb0 & Hnow0 & Hscript0 & Heach).
    apply upload_each_times in Heach
      as (ds' & rows & Hds & Hrows & Hl1 & Hl2 & Htimes).
    simpl in Hds. subst ds'.
    exists ds, rows. split; [reflexivity|].
    split; [congruence|]. split; [congruence|]. split; [congruence|].
    intros i d row Hd Hrow.
    destruct (Htimes i d row Hd Hrow) as (Hid & Hat & Hup).
    assert (Hclock : forall n, clock_after n w0 = clock_after (S n) w).
    { intros n. rewrite clock_after_S.
      rewrite (clock_after_eq n w0 (step_done w1) Hnow0 Hscript0).
      apply clock_after_eq; unfold step_done, after_step, next_step;
        rewrite ?Hnow, ?Hscript; reflexivity. }
    rewrite !Hclock in Hat, Hup.
    pose proof (clock_after_mono (S i) w) as Hmono.
    split; [exact Hid|]. split; [exact Hat|]. split; [exact Hup|].
    split; [exact Hmono|]. rewrite Hat, Hup. simpl.
    pose proof (Z.mod_pos_bound (clock_after (S i) w) 1000 ltac:(lia)) as Hmod.
    pose proof (Z.div_mod (clock_after (S i) w) 1000 ltac:(lia)) as Hdiv.
    split; [lia|]. split; [intros E; split; lia | intros [E1 E2]; lia].
  - exists sample_world_with_file, (snd (upload_handler (Some "1"%string)
                                       [sample_file] sample_world_with_file)).
    exists sample_file,
      {| Descriptor.id := 1; Descriptor.originalName := "hello.txt";
         Descriptor.filename := "files-1700000000900-42.txt";
         Descriptor.size := 5; Descriptor.mimetype := "text/plain";
         Descriptor.hash := md5_hex (list_byte_of_string "hello");
         Descriptor.uploadedAt := toISOString 1700000001150 |},
      {| FileRow.id := 1; FileRow.user_id := SqlInt 1;
         FileRow.original_name := "hello.txt";
         FileRow.filename := "files-1700000000900-42.txt";
         FileRow.file_path := "uploads/files-1700000000900-42.txt";
         FileRow.file_size := 5; FileRow.mime_type := "text/plain";
         FileRow.file_hash := md5_hex (list_byte_of_string "hello");
         FileRow.uploaded_at := CURRENT_TIMESTAMP 1700000000900 |}.
    split; [vm_compute; reflexivity|].
    split; [vm_compute; reflexivity|].
    split; [reflexivity|]. vm_compute. discriminate.
Qed.

(** ** C9: the configuration has no database path *)

(** C9: whatever the environment and its properties file hold, the object
    exported by the configuration module has exactly the keys uploadPath,
    maxFileSize, maxFiles and env; [config.databasePath] therefore reads
    undefined, and [Database.init] hands that undefined value to
    [path.dirname] for its directory bootstrap, which throws. *)
Theorem databasePath_is_undefined
    (NODE_ENV : option string) (w w' : World) (exports : gmap string JsVal) :
  require_config NODE_ENV w = (Returned exports, w') ->
  dom exports = ({["uploadPath"; "maxFileSize"; "maxFiles"; "env"]} : gset string) /\
  exports !! "databasePath" = None /\
  js_get exports "databasePath" = JsUndefined /\
  forall w0, Database_init exports w0 = (Thrown Path.invalid_path_argument, w0).
Proof.
  unfold require_config, bind, ret. 
  destruct (loadProperties _ w) as [[properties|m] w1]; [|discriminate].
  intros [= <- <-].
  assert (Hnone : module_exports
                    (if Js.truthy NODE_ENV then default EmptyString NODE_ENV
                     else "local") properties !! "databasePath" = None).
  { unfold module_exports. rewrite !lookup_insert_ne by discriminate.
    apply lookup_empty. }
  split; [|split; [exact Hnone|split]].
  - unfold module_exports. rewrite !dom_insert_L, dom_empty_L. sets.
  - unfold js_get. rewrite Hnone. reflexivity.
  - intros w0. unfold Database_init, js_get. rewrite Hnone. reflexivity.
Qed.


(** * Further properties *)

(** ** config.js *)


Lemma append_empty_l t : EmptyString +:+ t = t.
Proof. reflexivity. Qed.



Lemma load_line_skipped properties line :
  skipped_line line -> load_line properties line = properties.
Proof.
  unfold skipped_line, load_line. intros [H|H]; rewrite H; [reflexivity|].
  rewrite andb_false_r. reflexivity.
Qed.

Lemma load_lines_skipped properties lines :
  Forall skipped_line lines -> fold_left load_line lines properties = properties.
Proof.
  intros H. revert properties. induction H as [|l lines Hl _ IH]; intros properties.
  - reflexivity.
  - simpl. rewrite (load_line_skipped _ _ Hl). apply IH.
Qed.


Lemma existsSync_file path w bytes :
  disk w !! path = Some bytes -> existsSync path w = true.
Proof.
  intros H. unfold existsSync. rewrite H.
  rewrite bool_decide_true by eauto. reflexivity.
Qed.

Lemma loadProperties_file env w bytes :
  disk w !! propertiesFile env = Some bytes ->
  loadProperties env w =
  (Returned (fold_left load_line
               (JsNum.split newline (string_of_list_byte bytes)) ∅), w).
Proof.
  intros H. unfold loadProperties. rewrite (existsSync_file _ _ _ H).
  unfold bind, readFileSync, ret. rewrite H. reflexivity.
Qed.

(** X1: when the properties file of the environment does not exist, loading
    the configuration throws 'Properties file not found' naming that file
    by its path under the directory of config.js, and changes nothing;
    without NODE_ENV, or with an empty one, the file looked for is the one
    of the environment local. *)
Theorem config_without_properties_file (NODE_ENV : option string) (w : World) :
  existsSync (propertiesFile (if Js.truthy NODE_ENV
                              then default EmptyString NODE_ENV else "local")) w
    = false ->
  require_config NODE_ENV w =
    (Thrown ("Properties file not found: " +:+
             propertiesFile (if Js.truthy NODE_ENV
                             then default EmptyString NODE_ENV else "local")), w) /\
  (NODE_ENV = None \/ NODE_ENV = Some EmptyString ->
   require_config NODE_ENV w =
     (Thrown ("Properties file not found: " +:+
              Path.join_all [__dirname; "properties";
                             "application-local.properties"]%string), w)).
Proof.
  intros Hmissing.
  assert (E : require_config NODE_ENV w =
    (Thrown ("Properties file not found: " +:+
             propertiesFile (if Js.truthy NODE_ENV
                             then default EmptyString NODE_ENV else "local")), w)).
  { unfold require_config, bind, loadProperties. rewrite Hmissing. reflexivity. }
  split; [exact E|].
  intros [->| ->]; exact E.
Qed.


(** X3: a properties file that holds only blank lines and comments loads
    without error, and the exported configuration then has an undefined
    uploadPath and NaN for maxFileSize and maxFiles. *)
Theorem blank_properties_file_exports
    (NODE_ENV : option string) (w : World) (bytes : list Byte.byte) :
  disk w !! propertiesFile (if Js.truthy NODE_ENV
                            then default EmptyString NODE_ENV else "local")
    = Some bytes ->
  Forall skipped_line (JsNum.split newline (string_of_list_byte bytes)) ->
  exists exports,
    require_config NODE_ENV w = (Returned exports, w) /\
    js_get exports "uploadPath" = JsUndefined /\
    js_get exports "maxFileSize" = JsNaN /\
    js_get exports "maxFiles" = JsNaN /\
    js_get exports "env" =
      JsString (if Js.truthy NODE_ENV then default EmptyString NODE_ENV else "local").
Proof.
  intros Hfile Hblank.
  eexists. split.
  { unfold require_config, bind, ret.
    rewrite (loadProperties_file _ _ _ Hfile), (load_lines_skipped _ _ Hblank).
    reflexivity. }
  unfold js_get, module_exports, parseInt_property.
  rewrite !lookup_empty.
  repeat split;
    repeat first [rewrite lookup_insert_eq | rewrite lookup_insert_ne by discriminate];
    reflexivity.
Qed.

(** ** database.js *)

Lemma next_rowid_fresh seq ids :
  seq < next_rowid seq ids /\ Forall (fun i => i < next_rowid seq ids) ids.
Proof.
  unfold next_rowid. induction ids as [|i ids [IHs IHf]]; simpl.
  - split; [lia | constructor].
  - split; [lia|]. constructor; [lia|].
    eapply Forall_impl; [exact IHf|]. simpl. intros x Hx. lia.
Qed.

Lemma find_snoc_fresh {A} (P : A -> bool) (l : list A) (x : A) :
  Forall (fun y => P y = false) l -> P x = true -> find P (l ++ [x]) = Some x.
Proof.
  induction 1 as [|y l Hy _ IH]; simpl; intros Hx.
  - rewrite Hx. reflexivity.
  - rewrite Hy. apply IH, Hx.
Qed.


Lemma existsb_false_Forall {A} (P : A -> bool) (l : list A) :
  existsb P l = false -> Forall (fun y => P y = false) l.
Proof.
  induction l as [|y l IH]; simpl; intros H; [constructor|].
  apply orb_false_iff in H as [Hy Hl]. constructor; [exact Hy | apply IH, Hl].
Qed.

Lemma createUser_returned name mail hash w user w1 :
  createUser name mail hash w = (Returned user, w1) ->
  exists row,
    users (db w1) = users (db w) ++ [row] /\
    files (db w1) = files (db w) /\ disk w1 = disk w /\
    users_seq (db w1) = UserRow.id row /\
    NewUser.id user = UserRow.id row /\
    NewUser.username user = name /\ NewUser.email user = mail /\
    UserRow.username row = name /\ UserRow.email row = mail /\
    UserRow.password_hash row = hash /\
    UserRow.id row = next_rowid (users_seq (db w)) (map UserRow.id (users (db w))) /\
    Forall (fun u => String.eqb (UserRow.username u) name = false) (users (db w)) /\
    Forall (fun u => String.eqb (UserRow.email u) mail = false) (users (db w)).
Proof.
  unfold createUser, bind. rewrite sqlite_run.
  destruct (fault (fst (next_step w))); [discriminate|].
  unfold INSERT_INTO_users.
  destruct (existsb (fun u => String.eqb (UserRow.email u) mail) (users (db w)))
    eqn:He; [discriminate|].
  destruct (existsb (fun u => String.eqb (UserRow.username u) name) (users (db w)))
    eqn:Hu; [discriminate|].
  intros H. inversion H; subst; clear H. eexists. simpl.
  repeat (split; [reflexivity|]).
  split; apply existsb_false_Forall; assumption.
Qed.

(** X4: a successful [createUser] appends one row that carries the given
    username, email and password hash under an id larger than every id in
    the table; the row is then what [getUserByUsername] and [getUserById]
    resolve with; and as long as the row stays in the table every further
    successful [createUser] gets a strictly larger id. *)
Theorem createUser_then_lookup
    (name mail hash : string) (w w1 : World) (user : NewUser.t) :
  createUser name mail hash w = (Returned user, w1) ->
  exists row,
    users (db w1) = users (db w) ++ [row] /\
    UserRow.id row = NewUser.id user /\
    UserRow.username row = name /\ UserRow.email row = mail /\
    UserRow.password_hash row = hash /\
    Forall (fun u => UserRow.id u < NewUser.id user) (users (db w)) /\
    (statement_ok w1 ->
     fst (getUserByUsername (JsonString name) w1) = Returned (Some row) /\
     fst (getUserById (JsNumber (NewUser.id user)) w1) = Returned (Some row)) /\
    (forall name2 mail2 hash2 w2 user2 w3,
       In row (users (db w2)) ->
       createUser name2 mail2 hash2 w2 = (Returned user2, w3) ->
       NewUser.id user < NewUser.id user2).
Proof.
  intros Hc.
  apply createUser_returned in Hc
    as (row & Hrows & _ & _ & _ & Hid & _ & _ & Hn & Hm & Hh & Hnext & Hfu & _).
  exists row. split; [exact Hrows|]. split; [congruence|].
  do 3 (split; [assumption|]).
  assert (Hfresh : Forall (fun u => UserRow.id u < NewUser.id user) (users (db w))).
  { rewrite Hid, Hnext.
    destruct (next_rowid_fresh (users_seq (db w)) (map UserRow.id (users (db w))))
      as [_ Hall].
    apply Forall_fmap in Hall. exact Hall. }
  split; [exact Hfresh|]. split.
  - intros Hok. split.
    + rewrite getUserByUsername_ok by exact Hok. simpl. rewrite Hrows. f_equal.
      apply find_snoc_fresh; [exact Hfu|]. rewrite Hn. apply String.eqb_refl.
    + rewrite getUserById_ok by exact Hok. simpl. rewrite Hrows. f_equal.
      apply find_snoc_fresh.
      * eapply Forall_impl; [exact Hfresh|]. simpl. intros u Hu.
        apply Z.eqb_neq. lia.
      * simpl. rewrite Hid. apply Z.eqb_refl.
  - intros name2 mail2 hash2 w2 user2 w3 Hin Hc2.
    apply createUser_returned in Hc2
      as (row2 & _ & _ & _ & _ & Hid2 & _ & _ & _ & _ & _ & Hnext2 & _ & _).
    rewrite Hid2, Hnext2, Hid.
    destruct (next_rowid_fresh (users_seq (db w2)) (map UserRow.id (users (db w2))))
      as [_ Hall].
    rewrite Forall_forall in Hall. apply Hall.
    apply list_elem_of_In, in_map, Hin.
Qed.

(** X5: a successful [createFile] appends one row with the given values
    under an id larger than every id in the table; [getFileById] then
    resolves with that row, and so does [getFileByFilename] when no earlier
    row has the same storage name. *)
Theorem createFile_then_lookup
    (userId : JsVal) (originalName filename filePath : string) (fileSize : Z)
    (mimeType fileHash : string) (w w1 : World) (f : DbFile.t) :
  createFile userId originalName filename filePath fileSize mimeType fileHash w
    = (Returned f, w1) ->
  exists row,
    files (db w1) = files (db w) ++ [row] /\
    FileRow.id row = DbFile.id f /\
    FileRow.filename row = filename /\ FileRow.file_path row = filePath /\
    FileRow.original_name row = originalName /\
    FileRow.file_size row = fileSize /\ FileRow.mime_type row = mimeType /\
    FileRow.file_hash row = fileHash /\
    Forall (fun r => FileRow.id r < DbFile.id f) (files (db w)) /\
    (statement_ok w1 ->
     fst (getFileById (JsNumber (DbFile.id f)) w1) = Returned (Some row) /\
     (Forall (fun r => FileRow.filename r <> filename) (files (db w)) ->
      fst (getFileByFilename filename w1) = Returned (Some row))).
Proof.
  intros Hc. pose proof Hc as Hc'.
  apply createFile_returned in Hc
    as (row & Hrows & _ & _ & _ & Hid & _ & Hon & Hfn & Hfp & Hfs & Hmt & Hfh & _).
  exists row. split; [exact Hrows|]. split; [congruence|].
  do 6 (split; [assumption|]).
  assert (Hnext : FileRow.id row =
                  next_rowid (files_seq (db w)) (map FileRow.id (files (db w)))).
  { unfold createFile, bind in Hc'. rewrite sqlite_run in Hc'.
    destruct (fault (fst (next_step w))); [discriminate|].
    unfold INSERT_INTO_files in Hc'.
    destruct (sql_bind userId); try discriminate;
      inversion Hc'; subst; clear Hc'; simpl in Hrows;
      apply app_inv_head in Hrows; injection Hrows as <-; reflexivity. }
  assert (Hfresh : Forall (fun r => FileRow.id r < DbFile.id f) (files (db w))).
  { rewrite Hid, Hnext.
    destruct (next_rowid_fresh (files_seq (db w)) (map FileRow.id (files (db w))))
      as [_ Hall].
    apply Forall_fmap in Hall. exact Hall. }
  split; [exact Hfresh|].
  intros Hok. split.
  - unfold getFileById. rewrite sqlite_run, Hok. simpl. rewrite Hrows. f_equal.
    apply find_snoc_fresh.
    + eapply Forall_impl; [exact Hfresh|]. simpl. intros r Hr.
      apply Z.eqb_neq. lia.
    + simpl. rewrite Hid. apply Z.eqb_refl.
  - intros Hnew. rewrite getFileByFilename_ok by exact Hok. simpl.
    rewrite Hrows. f_equal. apply find_snoc_fresh.
    + eapply Forall_impl; [exact Hnew|]. simpl. intros r Hr.
      apply String.eqb_neq, Hr.
    + rewrite Hfn. apply String.eqb_refl.
Qed.

(** X6: [createFile] does not check the user id against the users table
    (the connection never turns foreign keys on): whenever the engine
    serves the statement and the id is not null, the row is inserted, also
    when no user has that id. *)
Theorem createFile_ignores_users
    (userId : JsVal) (originalName filename filePath : string) (fileSize : Z)
    (mimeType fileHash : string) (w : World) :
  statement_ok w -> sql_bind userId <> SqlNull ->
  exists f w1 row,
    createFile userId originalName filename filePath fileSize mimeType fileHash w
      = (Returned f, w1) /\
    files (db w1) = files (db w) ++ [row] /\
    users (db w1) = users (db w) /\
    FileRow.user_id row = sql_bind userId /\
    (find (fun u => SqlVal_eqb (SqlInt (UserRow.id u)) (sql_bind userId))
          (users (db w)) = None ->
     find (fun u => SqlVal_eqb (SqlInt (UserRow.id u)) (FileRow.user_id row))
          (users (db w1)) = None).
Proof.
  intros Hok Hnn. unfold createFile, bind. rewrite sqlite_run, Hok.
  unfold INSERT_INTO_files.
  destruct (sql_bind userId) eqn:Hb; [congruence| | |];
    do 3 eexists; (split; [reflexivity|]); simpl;
    repeat (split; [reflexivity|]); rewrite ?Hb; intros H; exact H.
Qed.

(** ** The account routes *)






(** X9: the login route answers 200 only when the request carries a
    username and a password that is a string, a user row exists whose
    username is the text the request's username is compared as (the
    username itself when it is a string), and the hash stored in that row
    is the hex SHA-256 digest of the password; the reply then carries that
    row's id, username and email. *)
Theorem login_accepts_only_matching_hash (b : LoginBody) (w : World) :
  status (fst (post_api_login b w)) = 200 ->
  exists uname pass user,
    login_username b = Some uname /\ login_password b = Some (JsonString pass) /\
    In user (users (db w)) /\
    username_text uname = Some (UserRow.username user) /\
    (forall name, uname = JsonString name -> UserRow.username user = name) /\
    UserRow.password_hash user = Hex.encode (sha256 (list_byte_of_string pass)) /\
    fst (post_api_login b w) =
      json_response 200
        (JObj [("id", JNum (UserRow.id user));
               ("username", JStr (UserRow.username user));
               ("email", JStr (UserRow.email user))]%string).
Proof.
  destruct (json_truthy (login_username b)) eqn:Hnt.
  2:{ unfold post_api_login, try_catch, login_try. rewrite Hnt. simpl.
      intros H; discriminate H. }
  destruct (json_truthy (login_password b)) eqn:Hpt.
  2:{ unfold post_api_login, try_catch, login_try. rewrite Hnt, Hpt. simpl.
      intros H; discriminate H. }
  destruct (login_username b) as [uname|] eqn:Hn; [|discriminate].
  destruct (login_password b) as [pass|] eqn:Hp; [|discriminate].
  destruct (fault (fst (next_step w))) as [m|] eqn:Hfault.
  { unfold post_api_login, try_catch, login_try. rewrite Hn, Hp, Hnt, Hpt.
    cbn [negb orb]. unfold bind at 1, getUserByUsername.
    rewrite sqlite_run, Hfault. simpl. intros H; discriminate H. }
  rewrite (login_run b w uname pass Hn Hp Hnt Hpt Hfault).
  destruct (user_named (username_text uname) (users (db w))) as [user|] eqn:Hfind;
    [|simpl; intros H; discriminate H].
  destruct pass as [|flag|z|pass|items|fields];
    try (simpl; intros H; discriminate H).
  destruct (negb (String.eqb (UserRow.password_hash user) (sha256_hex pass)))
    eqn:Hhash; [simpl; intros H; discriminate H|].
  intros _. exists uname, pass, user.
  unfold user_named in Hfind.
  destruct (username_text uname) as [name|] eqn:Htext; [|discriminate].
  apply find_some in Hfind as [Hin Hname].
  apply String.eqb_eq in Hname.
  apply negb_false_iff, String.eqb_eq in Hhash.
  split; [reflexivity|]. split; [reflexivity|]. split; [exact Hin|].
  split; [congruence|]. split.
  - intros s ->. simpl in Htext. congruence.
  - split; [exact Hhash | reflexivity].
Qed.

Lemma setHeaders_world headers w o w' :
  setHeaders headers w = (o, w') -> w' = w.
Proof.
  induction headers as [|[name value] headers IH]; simpl.
  - intros [= _ <-]. reflexivity.
  - destruct (valid_header_value value); [exact IH|].
    intros [= _ <-]. reflexivity.
Qed.

(** X10: the login, listing and download routes only read: whatever the
    request and whatever the engine does, the database and the disk are
    left as they were. *)
Theorem reading_routes_change_nothing
    (b : LoginBody) (id filename : string) (w : World) :
  (db (snd (post_api_login b w)) = db w /\
   disk (snd (post_api_login b w)) = disk w) /\
  (db (snd (get_api_users_files id w)) = db w /\
   disk (snd (get_api_users_files id w)) = disk w) /\
  (db (snd (get_api_download filename w)) = db w /\
   disk (snd (get_api_download filename w)) = disk w).
Proof.
  assert (Hsel : forall A (f : Database -> A) w0 o w1,
            sqlite (fun _ d => Returned (f d, d)) w0 = (o, w1) ->
            db w1 = db w0 /\ disk w1 = disk w0).
  { intros A f w0 o w1. rewrite sqlite_run.
    destruct (fault (fst (next_step w0))); simpl; intros [= <- <-]; split;
      try reflexivity; destruct w0 as [[] ? ? ? ? ?]; reflexivity. }
  split; [|split].
  - destruct (post_api_login b w) as [r w'] eqn:E. simpl.
    unfold post_api_login, try_catch, login_try in E.
    destruct (negb (json_truthy (login_username b))
              || negb (json_truthy (login_password b)));
      [injection E as _ <-; split; reflexivity|].
    unfold bind at 1 in E.
    destruct (getUserByUsername _ w) as [[[user|]|m] w1] eqn:Hget;
      apply getUserByUsername_db in Hget;
      try (injection E as _ <-; exact Hget).
    unfold bind, sha256_hex_of, ret, throw in E.
    destruct (default JsonNull (login_password b));
      try (injection E as _ <-; exact Hget).
    destruct (negb (String.eqb _ _)) in E; injection E as _ <-; exact Hget.
  - unfold get_api_users_files, try_catch, list_files_try, bind.
    destruct (getUserById _ w) as [[[user|]|m] w1] eqn:Hget;
      apply getUserById_db in Hget; simpl; try exact Hget.
    destruct (getFilesByUserId _ w1) as [[rows|m] w2] eqn:Hlist;
      apply (Hsel _ (fun d => ORDER_BY_uploaded_at_DESC (filter _ (files d))))
        in Hlist; simpl; destruct Hget, Hlist; split; congruence.
  - destruct (get_api_download filename w) as [r w'] eqn:E. simpl.
    unfold get_api_download, try_catch, download_try, bind in E.
    destruct (getFileByFilename filename w) as [[[file|]|m] w1] eqn:Hget;
      apply (Hsel _ (fun d => find _ (files d))) in Hget;
      try (injection E as _ <-; exact Hget).
    destruct (negb (existsSync (FileRow.file_path file) w1));
      [injection E as _ <-; exact Hget|].
    destruct (setHeaders (download_headers file) w1) as [[[]|m] w2] eqn:Hset;
      apply setHeaders_world in Hset; subst w2;
      [|injection E as _ <-; exact Hget].
    destruct (disk w1 !! FileRow.file_path file); injection E as _ <-; exact Hget.
Qed.

(** ** multer and the upload route *)

Lemma abortWithError_disk {A} message uploaded w :
  exists w', @abortWithError A message uploaded w = (Thrown message, w') /\
    db w' = db w /\
    (forall q, In q (map File.path uploaded) -> disk w' !! q = None) /\
    (forall q, ~ In q (map File.path uploaded) -> disk w' !! q = disk w !! q).
Proof.
  revert w. induction uploaded as [|f uploaded IH]; intros w; simpl.
  - exists w. repeat split. intros q [].
  - unfold bind, unlink.
    destruct (IH (set_disk (delete (File.path f) (disk w)) w))
      as (w' & -> & Hd & Hin & Hout).
    exists w'. split; [reflexivity|]. split; [exact Hd|]. split.
    + intros q [<-|Hq].
      * destruct (in_dec string_dec (File.path f) (map File.path uploaded)) as [H|H].
        -- apply Hin, H.
        -- rewrite (Hout _ H). simpl. apply lookup_delete_eq.
      * apply Hin, Hq.
    + intros q Hq. rewrite Hout by propositional. simpl.
      apply lookup_delete_ne. propositional.
Qed.

Lemma upload_array_thrown incoming uploaded w message w' :
  upload_array incoming uploaded w = (Thrown message, w') ->
  (forall q, In q (map File.path uploaded) -> disk w' !! q = None) /\
  (forall q, ~ In q (map File.path uploaded) ->
             disk w' !! q = None \/ disk w' !! q = disk w !! q).
Proof.
  revert uploaded w. induction incoming as [|p rest IH]; intros uploaded w; simpl.
  - discriminate.
  - assert (Habort : forall m w0,
              (forall q, ~ In q (map File.path uploaded) -> disk w0 !! q = disk w !! q) ->
              @abortWithError (list File.t) m uploaded w0 = (Thrown message, w') ->
              (forall q, In q (map File.path uploaded) -> disk w' !! q = None) /\
              (forall q, ~ In q (map File.path uploaded) ->
                         disk w' !! q = None \/ disk w' !! q = disk w !! q)).
    { intros m w0 Hsame.
      destruct (abortWithError_disk (A:=list File.t) m uploaded w0)
        as (w1 & -> & _ & Hin & Hout).
      intros [= _ <-]. split; [exact Hin|].
      intros q Hq. right. rewrite (Hout _ Hq). apply Hsame, Hq. }
    destruct (maxFiles config <=? length uploaded)%nat; [apply Habort; reflexivity|].
    destruct (negb (Part.fieldname p =? "files")%string); [apply Habort; reflexivity|].
    destruct (fileFilter p); [|apply Habort; reflexivity].
    destruct (within_fileSize p); [|apply Habort; reflexivity].
    destruct (handleFile p w) as [[f|m] w1] eqn:Hh.
    + apply handleFile_returned in Hh as (_ & _ & _ & _ & _ & Hdisk).
      intros Hrest. apply IH in Hrest as [Hin Hout].
      rewrite map_app in Hin, Hout. simpl in Hin, Hout. split.
      * intros q Hq. apply Hin, in_or_app. left. exact Hq.
      * intros q Hq.
        destruct (string_dec q (File.path f)) as [->|Hne].
        -- left. apply Hin, in_or_app. right. left. reflexivity.
        -- destruct (Hout q) as [H|H].
           ++ intros Hq'. apply in_app_or in Hq' as [Hq'|[Hq'|[]]]; [propositional | congruence].
           ++ left. exact H.
           ++ right. rewrite H, Hdisk. apply lookup_insert_ne. congruence.
    + apply Habort.
      unfold handleFile, storage_filename, bind, Date_now, Math_random_1E9,
        writeFile, ret in Hh.
      destruct (random w) as [|r rs]; simpl in Hh;
        destruct (bool_decide (uploadPath config ∈ dirs w)); try discriminate;
        injection Hh as _ <-; reflexivity.
Qed.

Lemma upload_array_refuses incoming uploaded w :
  (length uploaded <= maxFiles config)%nat ->
  (maxFiles config < length uploaded + length incoming)%nat \/
  Exists (refused_part config) incoming ->
  exists message w', upload_array incoming uploaded w = (Thrown message, w').
Proof.
  revert uploaded w. induction incoming as [|p rest IH]; intros uploaded w Hlen Hbad.
  - exfalso. destruct Hbad as [H|H]; [simpl in H; lia | inversion H].
  - simpl.
    assert (Habort : forall m w0, exists message w',
              @abortWithError (list File.t) m uploaded w0 = (Thrown message, w')).
    { intros m w0. destruct (abortWithError_thrown (A:=list File.t) m uploaded w0)
        as (w1 & E & _). eauto. }
    destruct (Nat.leb_spec (maxFiles config) (length uploaded)) as [Hfull|Hroom];
      [apply Habort|].
    destruct (String.eqb_spec (Part.fieldname p) "files") as [Hfield|Hfield];
      [|apply Habort]. simpl.
    destruct (fileFilter p) eqn:Hfilter; [|apply Habort].
    destruct (within_fileSize p) eqn:Hsize; [|apply Habort].
    unfold within_fileSize in Hsize.
    apply orb_true_iff in Hsize. rewrite Nat.ltb_lt, Nat.eqb_eq in Hsize.
    destruct (handleFile p w) as [[f|m] w1]; [|apply Habort].
    apply IH.
    + rewrite length_app. simpl. lia.
    + destruct Hbad as [H|H].
      * left. rewrite length_app. simpl in *. lia.
      * right. inversion H as [? ? Hp|? ? Hrest]; subst; [|exact Hrest].
        exfalso. destruct Hp as [Hp|[Hp|Hp]]; [congruence | congruence | lia].
Qed.

(** X11: a request that multer refuses (too many file parts, a part under
    another field name, a part rejected by [fileFilter], or a part above
    the size limit) is answered 500 'Internal server error' by the error
    middleware; the handler never runs, so the database is unchanged, and
    no file of the request is left on disk: every path holds what it held
    before, or nothing. *)
Theorem refused_request_stores_nothing (req : UploadRequest) (w : World) :
  refused_by_multer config (parts req) ->
  fst (post_api_upload req w) = error_response 500 "Internal server error" /\
  db (snd (post_api_upload req w)) = db w /\
  (forall q, disk (snd (post_api_upload req w)) !! q = None \/
             disk (snd (post_api_upload req w)) !! q = disk w !! q).
Proof.
  intros Hrefused.
  destruct (upload_array_refuses (parts req) [] w) as (message & w' & Hthrown).
  { simpl. lia. }
  { destruct Hrefused as [H|H]; [left; simpl; exact H | right; exact H]. }
  unfold post_api_upload. rewrite Hthrown. simpl.
  split; [reflexivity|]. split.
  - apply upload_array_db in Hthrown as (Hdb & _). exact Hdb.
  - apply upload_array_thrown in Hthrown as [_ Hout].
    intros q. apply Hout. simpl. propositional.
Qed.

(** X12: an upload without file parts by an existing user is answered 400
    'No files provided', and by anyone else 400 'User ID is required' or
    401 'Invalid user': the user is checked first.  Nothing is written. *)
Theorem upload_without_files (req : UploadRequest) (w : World) :
  parts req = [] -> statement_ok w ->
  fst (post_api_upload req w) =
    (if negb (Js.truthy (userId req))
     then error_response 400 "User ID is required"
     else match find (fun u => SqlVal_eqb (SqlInt (UserRow.id u))
                                 (numeric_affinity (default EmptyString (userId req))))
                     (users (db w)) with
          | None => error_response 401 "Invalid user"
          | Some _ => error_response 400 "No files provided"
          end) /\
  db (snd (post_api_upload req w)) = db w /\
  disk (snd (post_api_upload req w)) = disk w.
Proof.
  intros Hparts Hok. unfold post_api_upload. rewrite Hparts. simpl.
  unfold upload_handler, try_catch, upload_try.
  destruct (negb (Js.truthy (userId req))); [repeat split|].
  unfold bind. rewrite getUserById_ok by exact Hok. cbn [sql_bind].
  destruct (find _ (users (db w))); simpl; repeat split.
Qed.

(** ** An upload, then reading it back *)





Lemma Forall3_and_l {A B C} (P : A -> Prop) (R : A -> B -> C -> Prop) ps ds rows :
  Forall P ps -> Forall3 R ps ds rows ->
  Forall3 (fun p d r => P p /\ R p d r) ps ds rows.
Proof.
  intros HP HR. revert HP.
  induction HR as [|p d r ps ds rows Hr _ IH]; intros HP; [constructor|].
  apply Forall_cons in HP as [Hp HP]. constructor; [split; assumption | apply IH, HP].
Qed.

(** The parts that multer lets through passed the file filter. *)
Lemma upload_array_accepted incoming uploaded w fs w1 :
  upload_array incoming uploaded w = (Returned fs, w1) ->
  Forall (fun p => fileFilter p = Accept) incoming.
Proof.
  revert uploaded w. induction incoming as [|p rest IH]; intros uploaded w; simpl.
  - intros _. constructor.
  - assert (Habort : forall message,
              @abortWithError (list File.t) message uploaded w <> (Returned fs, w1)).
    { intros message. destruct (abortWithError_thrown (A:=list File.t) message uploaded w)
        as (w2 & -> & _). discriminate. }
    destruct (maxFiles config <=? length uploaded)%nat;
      [intros H; destruct (Habort _ H)|].
    destruct (negb (Part.fieldname p =? "files")%string);
      [intros H; destruct (Habort _ H)|].
    destruct (fileFilter p) eqn:Hfilter; [|intros H; destruct (Habort _ H)].
    destruct (within_fileSize p); [|intros H; destruct (Habort _ H)].
    destruct (handleFile p w) as [[f|m] w'] eqn:Hh.
    2:{ destruct (abortWithError_thrown (A:=list File.t) m uploaded w')
          as (w2 & -> & _). discriminate. }
    intros Hrest. constructor; [exact Hfilter | exact (IH _ _ Hrest)].
Qed.

(** What a 201 from the upload route means, part by part. *)
Lemma upload_created (req : UploadRequest) (w : World) :
  status (fst (post_api_upload req w)) = 201 ->
  exists uid user ds rows,
    userId req = Some uid /\
    In user (users (db w)) /\
    numeric_affinity uid = SqlInt (UserRow.id user) /\
    fst (post_api_upload req w) = files_uploaded ds /\
    files (db (snd (post_api_upload req w))) = files (db w) ++ rows /\
    users (db (snd (post_api_upload req w))) = users (db w) /\
    Forall3
      (fun p d r =>
         fileFilter p = Accept /\
         FileRow.filename r = Descriptor.filename d /\
         FileRow.id r = Descriptor.id d /\
         FileRow.user_id r = SqlInt (UserRow.id user) /\
         FileRow.original_name r = Part.originalname p /\
         Descriptor.originalName d = Part.originalname p /\
         FileRow.mime_type r = Part.mimetype p /\
         FileRow.file_size r = Z.of_nat (length (Part.content p)) /\
         Descriptor.size d = Z.of_nat (length (Part.content p)) /\
         FileRow.file_hash r = Descriptor.hash d /\
         (NoDup (map Descriptor.filename ds) ->
          disk (snd (post_api_upload req w)) !! FileRow.file_path r
            = Some (Part.content p)))
      (parts req) ds rows.
Proof.
  unfold post_api_upload.
  destruct (upload_array (parts req) [] w) as [[accepted|m] w1] eqn:Hmulter;
    [|simpl; lia].
  destruct (upload_handler (userId req) accepted w1) as [r w2] eqn:Hrun.
  simpl. intros H201.
  pose proof (upload_array_db _ _ _ _ _ Hmulter) as (Hdb & _ & _).
  pose proof (upload_array_segments _ _ _ _ _ Hmulter (List.Forall_nil _)) as Hseg.
  pose proof (upload_array_accepted _ _ _ _ _ Hmulter) as Haccepted.
  apply upload_array_returned in Hmulter as (fs' & Hfs & Hall & _ & _).
  simpl in Hfs. subst fs'.
  apply (upload_handler_created _ _ _ _ _ Hrun) in H201
    as (uid & user & ds & rows & Huid & -> & Hfind & _ & (Hf & Hu & Hdisk & _) & Hrec).
  apply find_some in Hfind as [Hin Heq].
  assert (Haff : numeric_affinity uid = SqlInt (UserRow.id user)).
  { destruct (numeric_affinity uid); simpl in Heq; try discriminate.
    apply Z.eqb_eq in Heq. congruence. }
  exists uid, user, ds, rows.
  split; [exact Huid|]. split; [rewrite <- Hdb; exact Hin|]. split; [exact Haff|].
  split; [reflexivity|]. split; [congruence|]. split; [congruence|].
  pose proof (recorded_filenames _ _ _ _ _ _ _ Hrec) as Hnames.
  pose proof (stored_paths _ _ Hall) as Hpaths.
  apply (Forall3_and_l _ _ _ _ _ Haccepted).
  eapply Forall2_Forall3; [exact Hall | exact Hrec |].
  intros p f d row [Hst Hnd] Hr.
  destruct Hst as (Hpath & Hsize & Hon & Hmt).
  destruct Hr as (_ & _ & Hid & Hfn & Hsz & Hdon & _ & Hruid
                  & Hrfn & Hrfp & Hrsz & Hron & Hrmt & Hrh).
  split; [congruence|]. split; [congruence|]. split; [congruence|].
  split; [congruence|]. split; [congruence|]. split; [congruence|].
  split; [congruence|]. split; [congruence|]. split; [exact Hrh|].
  intros Hdistinct. rewrite Hdisk, Hrfp. apply Hnd.
  rewrite Hnames in Hdistinct. rewrite Hpaths.
  apply joined_distinct; [|exact Hdistinct].
  apply Forall_fmap. exact Hseg.
Qed.

(** *** Header values *)







Lemma quiet_script w :
  script w = [] -> statement_ok w /\ script (step_done w) = [].
Proof.
  intros H. unfold statement_ok, step_done, next_step. rewrite H. split; reflexivity.
Qed.

(** X14: after an upload answered 201, the listing for the uploading user
    is answered 200 and holds every record of the upload, each with the
    id, storage name, original name, size and hash that the upload reply
    gave.  The listing is ordered by [uploaded_at], most recent first, in
    whole seconds; within one second it keeps the order of the table: the
    user's earlier files of that second, then the files of this upload
    stamped in that second, in the order of the upload. *)
Theorem upload_then_list (req : UploadRequest) (w : World) :
  status (fst (post_api_upload req w)) = 201 ->
  exists uid n ds rows,
    userId req = Some uid /\ numeric_affinity uid = SqlInt n /\
    fst (post_api_upload req w) = files_uploaded ds /\
    files (db (snd (post_api_upload req w))) = files (db w) ++ rows /\
    Forall2 (fun d r =>
               FileRow.id r = Descriptor.id d /\
               FileRow.filename r = Descriptor.filename d /\
               FileRow.original_name r = Descriptor.originalName d /\
               FileRow.file_size r = Descriptor.size d /\
               FileRow.file_hash r = Descriptor.hash d)
            ds rows /\
    forall id w2,
      JsNum.parseInt id = JsNumber n ->
      db w2 = db (snd (post_api_upload req w)) ->
      script w2 = [] ->
      exists listed,
        fst (get_api_users_files id w2) =
          json_response 200 (JObj [("files"%string, JArr (map file_entry listed))]) /\
        (forall r, In r rows -> In r listed) /\
        newest_first listed /\
        (forall k,
           filter (fun r => time_key (FileRow.uploaded_at r) = k) listed
           = filter (fun r => time_key (FileRow.uploaded_at r) = k)
               (filter (fun r => FileRow.user_id r = SqlInt n) (files (db w)))
             ++ filter (fun r => time_key (FileRow.uploaded_at r) = k) rows).
Proof.
  intros H201.
  destruct (upload_created req w H201)
    as (uid & user & ds & rows & Huid & Huser & Haff & Hresp & Hfiles & Husers & Hall).
  exists uid, (UserRow.id user), ds, rows.
  do 4 (split; [assumption|]).
  assert (Hown : Forall (fun r => FileRow.user_id r = SqlInt (UserRow.id user)) rows).
  { clear -Hall. induction Hall as [|p d r ps ds' rows' Hr _ IH]; constructor;
      [apply Hr | exact IH]. }
  split.
  { apply Forall3_drop_l in Hall. eapply Forall2_impl; [exact Hall|].
    intros d r (p & _ & Hfn & Hid & _ & Hon & Hdon & _ & Hsz & Hdsz & Hh & _).
    repeat split; congruence. }
  intros id w2 Hparse Hdb Hquiet.
  destruct (quiet_script w2 Hquiet) as [Hok Hquiet'].
  destruct (quiet_script _ Hquiet') as [Hok' _].
  destruct (find (fun u => SqlVal_eqb (SqlInt (UserRow.id u)) (SqlInt (UserRow.id user)))
                 (users (db w2))) as [found|] eqn:Hfind.
  2:{ exfalso.
      assert (Hu : In user (users (db w2))) by (rewrite Hdb, Husers; exact Huser).
      pose proof (find_none _ _ Hfind user Hu) as Hno. simpl in Hno.
      rewrite Z.eqb_refl in Hno. discriminate Hno. }
  assert (Hmine : filter (fun r => FileRow.user_id r = SqlInt (UserRow.id user)) rows
                  = rows).
  { clear -Hown. induction Hown as [|r rows' Hr _ IH]; [reflexivity|].
    rewrite filter_cons_True by exact Hr. rewrite IH. reflexivity. }
  eexists. split; [|split; [|split]].
  - unfold get_api_users_files, try_catch, list_files_try.
    rewrite Hparse. unfold bind.
    rewrite getUserById_ok by exact Hok. cbn [sql_bind].
    rewrite Hfind.
    rewrite getFilesByUserId_ok by exact Hok'. reflexivity.
  - intros r Hin.
    apply (Permutation_in _ (Permutation_sym (ORDER_BY_Permutation _))).
    cbn [sql_bind]. rewrite filter_owned.
    apply list_elem_of_In, list_elem_of_filter. split.
    + rewrite Forall_forall in Hown. apply Hown, list_elem_of_In, Hin.
    + rewrite db_step_done, Hdb, Hfiles.
      apply list_elem_of_In, in_or_app. right. exact Hin.
  - apply ORDER_BY_newest_first.
  - intros k. rewrite ORDER_BY_stable. cbn [sql_bind].
    rewrite filter_owned, db_step_done, Hdb, Hfiles, !filter_app, Hmine.
    reflexivity.
Qed.

(** X15: the listing route answers 404 'User not found', and lists
    nothing, when the id in the path does not start with a number (after
    blanks and a sign), or denotes a number beyond the doubles, or is, as
    a double, the id of no user. *)
Theorem list_for_unknown_user (id : string) (w : World) :
  statement_ok w ->
  JsNum.parseInt id = JsNaN \/
  (exists negative, JsNum.parseInt id = JsInfinity negative) \/
  (exists n, JsNum.parseInt id = JsNumber n /\
             Forall (fun u => UserRow.id u <> n) (users (db w))) ->
  fst (get_api_users_files id w) = error_response 404 "User not found".
Proof.
  intros Hok Hunknown.
  unfold get_api_users_files, try_catch, list_files_try, bind.
  rewrite getUserById_ok by exact Hok.
  assert (Hnone : find (fun u => SqlVal_eqb (SqlInt (UserRow.id u))
                     (sql_bind (JsNum.parseInt id))) (users (db w)) = None).
  { destruct Hunknown as [->|[[negative ->]|(n & -> & Hall)]]; simpl.
    - induction (users (db w)) as [|u l IH]; [reflexivity|]. simpl. exact IH.
    - induction (users (db w)) as [|u l IH]; [reflexivity|]. simpl. exact IH.
    - induction Hall as [|u l Hu _ IH]; [reflexivity|]. simpl.
      apply Z.eqb_neq in Hu. rewrite Hu. exact IH. }
  rewrite Hnone. reflexivity.
Qed.

(** ** The upload directory *)

(** X16: the start-up step that creates the upload directory is
    idempotent: after it the path exists, a second run changes nothing, a
    path that existed already is left alone, and in no case is a file or
    the database touched; unless a file sits at that path, the directory
    is there afterwards. *)
Theorem bootstrap_is_idempotent (w : World) :
  existsSync (uploadPath config) (snd (bootstrap_upload_directory config w)) = true /\
  bootstrap_upload_directory config (snd (bootstrap_upload_directory config w))
    = (Returned tt, snd (bootstrap_upload_directory config w)) /\
  (existsSync (uploadPath config) w = true ->
   bootstrap_upload_directory config w = (Returned tt, w)) /\
  disk (snd (bootstrap_upload_directory config w)) = disk w /\
  db (snd (bootstrap_upload_directory config w)) = db w /\
  (disk w !! uploadPath config = None ->
   uploadPath config ∈ dirs (snd (bootstrap_upload_directory config w))).
Proof.
  unfold bootstrap_upload_directory.
  destruct (existsSync (uploadPath config) w) eqn:Hex; simpl.
  - rewrite Hex. repeat split; try reflexivity.
    intros Hnofile. unfold existsSync in Hex. rewrite Hnofile in Hex.
    rewrite bool_decide_false in Hex by (intros [x Hx]; discriminate Hx).
    simpl in Hex. apply bool_decide_eq_true in Hex. exact Hex.
  - assert (Hnow : existsSync (uploadPath config)
                     (set_dirs ({[uploadPath config]} ∪ dirs w) w) = true).
    { unfold existsSync. simpl.
      rewrite (bool_decide_true (uploadPath config ∈ _)) by sets.
      apply orb_true_r. }
    rewrite Hnow. repeat split; try reflexivity; try discriminate.
    intros _. sets.
Qed.

(** X17: once the upload directory exists, multer lets through every
    request it has no reason to refuse: at most [config.maxFiles] file
    parts, all under the field name files, admitted by [fileFilter] and
    shorter than [config.maxFileSize].  It stores one file per part, in
    order, under the normalised path of the upload directory. *)
Theorem acceptable_request_is_stored (incoming : list Part.t) (w : World) :
  uploadPath config ∈ dirs w ->
  (length incoming <= maxFiles config)%nat ->
  Forall (fun p => Part.fieldname p = "files"%string /\ fileFilter p = Accept /\
                   (length (Part.content p) < maxFileSize config)%nat) incoming ->
  exists accepted w1,
    upload_array incoming [] w = (Returned accepted, w1) /\
    Forall2 stored_as incoming accepted /\
    Forall (fun f => is_Some (disk w1 !! File.path f)) accepted.
Proof.
  intros Hdir Hcount Hok.
  assert (Hgen : forall uploaded w0,
            uploadPath config ∈ dirs w0 ->
            (length uploaded + length incoming <= maxFiles config)%nat ->
            exists fs w1, upload_array incoming uploaded w0 = (Returned fs, w1)).
  { clear w Hdir Hcount. induction Hok as [|p rest (Hf & Hacc & Hsize) _ IH];
      intros uploaded w0 Hdir Hcount; simpl.
    - eauto.
    - simpl in Hcount.
      destruct (Nat.leb_spec (maxFiles config) (length uploaded)); [lia|].
      rewrite Hf, String.eqb_refl, Hacc. simpl.
      unfold within_fileSize. rewrite (proj2 (Nat.ltb_lt _ _) Hsize). cbn [orb].
      destruct (handleFile p w0) as [[f|m] w1] eqn:Hh.
      + apply handleFile_returned in Hh as (_ & _ & _ & _ & Hdirs & _).
        apply IH; [rewrite Hdirs; exact Hdir|].
        rewrite length_app. simpl. lia.
      + exfalso. unfold handleFile, storage_filename, bind, Date_now,
          Math_random_1E9, writeFile, ret in Hh.
        destruct (random w0); simpl in Hh;
          rewrite (bool_decide_true _ Hdir) in Hh; discriminate Hh. }
  destruct (Hgen [] w Hdir) as (fs & w1 & Hrun); [simpl; lia|].
  exists fs, w1. split; [exact Hrun|].
  apply upload_array_returned in Hrun as (fs' & Hfs & Hall & Hsome & _).
  simpl in Hfs. subst fs'. split; [|exact Hsome].
  eapply Forall2_impl; [exact Hall|]. intros p f [H _]. exact H.
Qed.

(** ** Storage names and record ids *)

Lemma string_length_app (a b : string) :
  String.length (a +:+ b) = (String.length a + String.length b)%nat.
Proof.
  induction a as [|c a IH]; [reflexivity|].
  rewrite append_cons. simpl. rewrite IH. reflexivity.
Qed.

Lemma string_app_inv_tail (a b e : string) : a +:+ e = b +:+ e -> a = b.
Proof.
  revert b. induction a as [|c a IH]; intros [|c' b] H.
  - reflexivity.
  - exfalso. apply (f_equal String.length) in H.
    rewrite append_empty_l, append_cons in H. simpl in H.
    rewrite string_length_app in H. lia.
  - exfalso. apply (f_equal String.length) in H.
    rewrite append_empty_l, append_cons in H. simpl in H.
    rewrite string_length_app in H. lia.
  - rewrite !append_cons in H. injection H as -> H. f_equal. apply IH, H.
Qed.

Lemma storage_filename_run (p : Part.t) (w : World) :
  fst (storage_filename p w) =
  Returned (Part.fieldname p +:+ "-" +:+
            (pretty (now w) +:+ "-" +:+ pretty (hd 0 (random w)))
            +:+ Path.extname (Part.originalname p)).
Proof.
  unfold storage_filename, bind, Date_now, Math_random_1E9, ret.
  destruct (random w); reflexivity.
Qed.

(** X18: two storage names generated in the same millisecond for parts
    with the same field name and the same extension differ as soon as the
    two random draws differ; nothing else of the parts enters the name. *)
Theorem storage_names_differ
    (p p' : Part.t) (w w' : World) (name name' : string) :
  fst (storage_filename p w) = Returned name ->
  fst (storage_filename p' w') = Returned name' ->
  Part.fieldname p = Part.fieldname p' ->
  Path.extname (Part.originalname p) = Path.extname (Part.originalname p') ->
  now w = now w' ->
  (name = name' <-> hd 0 (random w) = hd 0 (random w')).
Proof.
  rewrite !storage_filename_run. intros [= <-] [= <-] Hf He Hn.
  rewrite Hf, He, Hn. split.
  - intros H.
    apply (inj (String.append (Part.fieldname p'))) in H.
    apply (inj (String.append "-")) in H.
    apply string_app_inv_tail in H.
    apply (inj (String.append (pretty (now w')))) in H.
    apply (inj (String.append "-")) in H.
    apply (inj pretty) in H. exact H.
  - intros ->. reflexivity.
Qed.

Lemma createFile_fresh userId originalName filename filePath fileSize
    mimeType fileHash w f w1 :
  createFile userId originalName filename filePath fileSize mimeType fileHash w
    = (Returned f, w1) ->
  Forall (fun r => FileRow.id r < DbFile.id f) (files (db w)).
Proof.
  unfold createFile, bind. rewrite sqlite_run.
  destruct (fault (fst (next_step w))); [discriminate|].
  unfold INSERT_INTO_files.
  destruct (sql_bind userId); try discriminate;
    intros H; inversion H; subst; clear H; simpl;
    destruct (next_rowid_fresh (files_seq (db w)) (map FileRow.id (files (db w))))
      as [_ Hall]; apply Forall_fmap in Hall; exact Hall.
Qed.

Lemma upload_one_fresh userId file w d w1 :
  upload_one userId file w = (Returned d, w1) ->
  Forall (fun r => FileRow.id r < Descriptor.id d) (files (db w)) /\
  exists row, files (db w1) = files (db w) ++ [row] /\
              FileRow.id row = Descriptor.id d.
Proof.
  intros H. pose proof (upload_one_returned _ _ _ _ _ H)
    as (row & Hf & _ & _ & _ & Hrec).
  split; [|exists row; split; [exact Hf|]; symmetry; apply Hrec].
  unfold upload_one, bind, readFileSync in H.
  destruct (disk w !! File.path file) as [bytes|];
    [|destruct (bool_decide _); discriminate].
  destruct (createFile _ _ _ _ _ _ _ w) as [[f|m] w'] eqn:Hc; [|discriminate].
  unfold Date_now, ret in H. inversion H; subst; clear H. simpl.
  exact (createFile_fresh _ _ _ _ _ _ _ _ _ _ Hc).
Qed.

Lemma upload_each_ids userId batch acc w ds w1 :
  upload_each userId batch acc w = (Returned ds, w1) ->
  exists ds',
    ds = acc ++ ds' /\
    StronglySorted Z.lt (map Descriptor.id ds') /\
    Forall (fun d => Forall (fun r => FileRow.id r < Descriptor.id d) (files (db w)))
           ds'.
Proof.
  revert acc w. induction batch as [|f batch IH]; intros acc w; simpl.
  - intros [= <- <-]. exists []. rewrite app_nil_r.
    split; [reflexivity|]. split; constructor.
  - unfold bind at 1.
    destruct (upload_one userId f w) as [[d|m] w'] eqn:Hone; [|discriminate].
    intros Hrest.
    apply upload_one_fresh in Hone as (Hfresh & row & Hrows & Hid).
    apply IH in Hrest as (ds'' & -> & Hsorted & Hall).
    exists (d :: ds''). rewrite <- app_assoc. split; [reflexivity|].
    rewrite Hrows in Hall. split.
    + simpl. constructor; [exact Hsorted|].
      apply Forall_fmap. eapply Forall_impl; [exact Hall|]. simpl.
      intros d' Hd'. rewrite Forall_app in Hd'. destruct Hd' as [_ Hd'].
      rewrite Forall_singleton in Hd'. unfold compose. lia.
    + constructor; [exact Hfresh|].
      eapply Forall_impl; [exact Hall|]. simpl.
      intros d' Hd'. rewrite Forall_app in Hd'. destruct Hd' as [Hd' _]. exact Hd'.
Qed.

Lemma StronglySorted_lt_NoDup (l : list Z) : StronglySorted Z.lt l -> NoDup l.
Proof.
  induction 1 as [|x l _ IH Hall]; [constructor|].
  apply NoDup_cons. split; [|exact IH].
  intros Hin. rewrite Forall_forall in Hall. specialize (Hall _ Hin). lia.
Qed.

Lemma upload_handler_201_loop uid batch w r w' :
  upload_handler uid batch w = (r, w') -> status r = 201 ->
  exists userId w0 ds,
    r = files_uploaded ds /\ db w0 = db w /\
    upload_each userId batch [] w0 = (Returned ds, w').
Proof.
  unfold upload_handler, try_catch, upload_try.
  destruct (negb (Js.truthy uid)).
  { intros [= <- <-]. simpl. lia. }
  unfold bind at 1.
  destruct (getUserById _ w) as [[[user|]|m] w0] eqn:Hget;
    try (intros [= <- <-]; simpl; lia).
  apply getUserById_db in Hget as [Hdb _].
  destruct batch as [|f batch].
  { intros [= <- <-]. simpl. lia. }
  unfold bind, ret.
  destruct (upload_each _ (f :: batch) [] w0) as [[ds|m] w1] eqn:Heach.
  2:{ intros [= <- <-]. simpl. lia. }
  intros [= <- <-] _. eauto 6.
Qed.

(** X19: in an upload reply answered 201 the ids of the entries are
    strictly increasing in the order of the files, hence pairwise
    distinct, and each is larger than the id of every file record that
    existed before the request. *)
Theorem upload_ids_increase (req : UploadRequest) (w : World) :
  status (fst (post_api_upload req w)) = 201 ->
  exists ds,
    fst (post_api_upload req w) = files_uploaded ds /\
    StronglySorted Z.lt (map Descriptor.id ds) /\
    NoDup (map Descriptor.id ds) /\
    Forall (fun d => Forall (fun r => FileRow.id r < Descriptor.id d) (files (db w)))
           ds.
Proof.
  unfold post_api_upload.
  destruct (upload_array (parts req) [] w) as [[accepted|m] w1] eqn:Hmulter;
    [|simpl; lia].
  apply upload_array_db in Hmulter as (Hdb & _ & _).
  destruct (upload_handler (userId req) accepted w1) as [r w2] eqn:Hrun.
  simpl. intros H201.
  destruct (upload_handler_201_loop _ _ _ _ _ Hrun H201)
    as (uid & w0 & ds & -> & Hdb0 & Heach).
  apply upload_each_ids in Heach as (ds' & Hds & Hsorted & Hall).
  simpl in Hds. subst ds'.
  exists ds. split; [reflexivity|]. split; [exact Hsorted|].
  split; [apply StronglySorted_lt_NoDup, Hsorted|].
  rewrite Hdb0, Hdb in Hall. exact Hall.
Qed.

(** ** More on the file filter *)

Lemma toLowerCase_app (a b : string) :
  Js.toLowerCase (a +:+ b) = Js.toLowerCase a +:+ Js.toLowerCase b.
Proof.
  induction a as [|c a IH]; [reflexivity|].
  rewrite append_cons. simpl. rewrite IH. reflexivity.
Qed.


Lemma mimetypeList_lower m : In m mimetypeList -> Js.toLowerCase m = m.
Proof.
  unfold mimetypeList. simpl.
  intros H; repeat (destruct H as [<-|H]; [vm_compute; reflexivity|]); destruct H.
Qed.

(** X20: [fileFilter] looks only at the end of the file name and at the
    declared MIME type: a name that is admitted stays admitted with
    anything put in front of it, the case of the letters of the name does
    not matter, a MIME type that contains an upper-case letter is always
    rejected, and the bytes of the file play no part. *)
Theorem fileFilter_reads_suffix_and_type :
  (forall (front : string) (p : Part.t),
     fileFilter p = Accept ->
     fileFilter {| Part.fieldname := Part.fieldname p;
                   Part.originalname := front +:+ Part.originalname p;
                   Part.mimetype := Part.mimetype p;
                   Part.content := Part.content p |} = Accept) /\
  (forall p : Part.t,
     fileFilter {| Part.fieldname := Part.fieldname p;
                   Part.originalname := Js.toLowerCase (Part.originalname p);
                   Part.mimetype := Part.mimetype p;
                   Part.content := Part.content p |} = fileFilter p) /\
  (forall p : Part.t,
     Js.toLowerCase (Part.mimetype p) <> Part.mimetype p ->
     fileFilter p = RejectFile invalidFileType) /\
  (forall (p : Part.t) (bytes : list Byte.byte),
     fileFilter {| Part.fieldname := Part.fieldname p;
                   Part.originalname := Part.originalname p;
                   Part.mimetype := Part.mimetype p;
                   Part.content := bytes |} = fileFilter p).
Proof.
  split; [|split; [|split]].
  - intros front p. unfold fileFilter. cbn [Part.originalname Part.mimetype].
    destruct (allowedMimetypes_test (Part.mimetype p)); [|discriminate].
    destruct (allowedExtensions_test (Js.toLowerCase (Part.originalname p)))
      eqn:Hext; [|discriminate].
    intros _.
    apply allowedExtensions_test_spec in Hext as (stem & e & He & Hs).
    rewrite toLowerCase_idem in Hs.
    assert (Hext' : allowedExtensions_test
                      (Js.toLowerCase (front +:+ Part.originalname p)) = true).
    { apply allowedExtensions_test_spec.
      exists (Js.toLowerCase front +:+ stem), e. split; [exact He|].
      rewrite toLowerCase_idem, toLowerCase_app, Hs, string_app_assoc.
      reflexivity. }
    rewrite Hext'. reflexivity.
  - intros p. unfold fileFilter. cbn [Part.originalname Part.mimetype].
    rewrite toLowerCase_idem. reflexivity.
  - intros p Hcase. unfold fileFilter.
    destruct (allowedMimetypes_test (Part.mimetype p)) eqn:Hm; [|reflexivity].
    apply allowedMimetypes_test_spec, mimetypeList_lower in Hm. congruence.
  - intros p bytes. reflexivity.
Qed.

End ServerProperties.

(** * The model on concrete inputs *)

(** hello.txt is admitted, photo.png declared as application/pdf too. *)
Example fileFilter_samples :
  fileFilter hello_txt = Accept /\ fileFilter photo_png_as_pdf = Accept /\
  fileFilter {| Part.fieldname := "files"; Part.originalname := "run.exe";
                Part.mimetype := "text/plain"; Part.content := [] |}
    = RejectFile invalidFileType.
Proof. repeat split. Qed.

(** C4 fails as stated: a part named photo.png that declares the MIME type
    application/pdf is accepted, although (png, application/pdf) is not a
    pair of an extension with the MIME type of its format. *)
Lemma fileFilter_accepts_mismatched_pair :
  fileFilter photo_png_as_pdf = Accept /\
  spec_pair_ok photo_png_as_pdf = false /\
  ~ (forall file, fileFilter file = Accept -> spec_pair_ok file = true).
Proof.
  split; [reflexivity|]. split; [reflexivity|].
  intros H. specialize (H photo_png_as_pdf eq_refl). discriminate H.
Qed.

(** C1 fails as stated: hello.txt and logo.png are uploaded together by
    user 1, the insert for logo.png meets a full disk; the request is
    answered 500, and the record of hello.txt, created earlier in the same
    request, is in the files table afterwards. *)
Lemma failed_batch_leaves_a_record :
  files (db sample_world_disk_full) = [] /\
  fst (post_api_upload sample_literal sample_config sample_digest sample_upload
         sample_world_disk_full)
    = error_response 500 "File upload failed" /\
  files (db (snd (post_api_upload sample_literal sample_config sample_digest sample_upload
                    sample_world_disk_full)))
    = [hello_record].
Proof. repeat split; vm_compute; reflexivity. Qed.

Lemma failed_batch_keeps_earlier_records_witness :
  "1"%string <> EmptyString /\
  getUserById sample_literal (JsString "1") sample_world_with_file
    = (Returned (Some alice), after_lookup) /\
  upload_each sample_literal sample_digest "1" [sample_file] [] after_lookup
    = (Returned [hello_descriptor], after_first_file) /\
  upload_one sample_literal sample_digest "1" logo_file after_first_file
    = (Thrown ENOENT, after_failure) /\
  upload_handler sample_literal sample_digest (Some "1"%string) ([sample_file] ++ logo_file :: [])
      sample_world_with_file
    = (error_response 500 "File upload failed", after_failure) /\
  exists rows,
    files (db after_failure) = files (db sample_world_with_file) ++ rows /\
    users (db after_failure) = users (db sample_world_with_file) /\
    disk after_failure = disk sample_world_with_file /\
    Forall3 (recorded sample_literal sample_digest (disk sample_world_with_file) "1"
               (now sample_world_with_file) (now after_first_file))
            [sample_file] [hello_descriptor] rows.
Proof.
  assert (H1 : "1"%string <> EmptyString) by discriminate.
  assert (H2 : getUserById sample_literal (JsString "1") sample_world_with_file
               = (Returned (Some alice), after_lookup))
    by (vm_compute; reflexivity).
  assert (H3 : upload_each sample_literal sample_digest "1" [sample_file] [] after_lookup
               = (Returned [hello_descriptor], after_first_file))
    by (vm_compute; reflexivity).
  assert (H4 : upload_one sample_literal sample_digest "1" logo_file after_first_file
               = (Thrown ENOENT, after_failure))
    by (vm_compute; reflexivity).
  repeat (split; [assumption|]).
  exact (failed_batch_keeps_earlier_records sample_literal sample_digest "1" alice
           [sample_file] [] logo_file sample_world_with_file after_lookup
           after_first_file after_failure [hello_descriptor] ENOENT
           H1 H2 H3 H4).
Defined.


(** The same for a user id that resolves to no user: 401, bytes stored. *)
Example unknown_user_upload :
  fst (post_api_upload sample_literal sample_config sample_digest
         {| userId := Some "9"%string; parts := [hello_txt] |} sample_world)
    = error_response 401 "Invalid user" /\
  disk (snd (post_api_upload sample_literal sample_config sample_digest
               {| userId := Some "9"%string; parts := [hello_txt] |} sample_world))
    !! "uploads/files-1700000000900-42.txt"%string
    = Some (list_byte_of_string "hello") /\
  files (db (snd (post_api_upload sample_literal sample_config sample_digest
                    {| userId := Some "9"%string; parts := [hello_txt] |}
                    sample_world))) = [].
Proof. repeat split; vm_compute; reflexivity. Qed.


(** A user id that is no integer literal, and that the engine reads as
    the number 1, resolves to user 1: the upload is recorded for that
    user. *)
Example long_decimal_user_uploads :
  find (fun u => SqlVal_eqb (SqlInt (UserRow.id u))
                            (numeric_affinity sample_literal long_decimal))
       (users (db sample_world)) = Some alice /\
  status (fst (post_api_upload sample_literal sample_config sample_digest
                 long_decimal_upload sample_world)) = 201 /\
  map FileRow.user_id
      (files (db (snd (post_api_upload sample_literal sample_config sample_digest
                         long_decimal_upload sample_world))))
    = [SqlInt 1].
Proof. repeat split; vm_compute; reflexivity. Qed.


(** With the upload directory written [./uploads], the path recorded for
    a file is the normalised one, and the bytes are found there. *)
Example dot_slash_paths_are_normalised :
  map FileRow.file_path
      (files (db (snd (post_api_upload sample_literal dot_config sample_digest
                         sample_upload sample_world_dot))))
    = ["uploads/files-1700000000900-42.txt";
       "uploads/files-1700000000900-43.png"]%string /\
  disk (snd (post_api_upload sample_literal dot_config sample_digest
               sample_upload sample_world_dot))
    !! "uploads/files-1700000000900-42.txt"%string
    = Some (list_byte_of_string "hello").
Proof. split; vm_compute; reflexivity. Qed.



(** Bob registers, then someone registers the name bob again. *)
Example register_twice :
  bob_created
    = json_response 201 (JObj [("id", JNum 2); ("username", JStr "bob");
                               ("email", JStr "bob@x.com")]%string) /\
  fst (post_api_register sample_digest bob_again world_with_bob)
    = error_response 400 "Username or email already exists" /\
  map UserRow.username
      (users (db (snd (post_api_register sample_digest bob_again world_with_bob))))
    = ["alice"; "bob"]%string.
Proof. repeat split; vm_compute; reflexivity. Qed.

(** C6 fails on a password that is no string: with the JSON number 12345
    as password, the login of alice, who exists and whose password it is
    not, is answered 500 'Login failed', and the login of mallory, who does
    not exist, is answered 401 'Invalid credentials', so the reply tells
    whether the username exists.  Both failures of the route carry the
    same 401 reply; the throw of [hash.update] between them does not. *)
Lemma numeric_password_reveals_username :
  user_named (username_text sample_text (JsonString "alice"))
             (users (db sample_world)) = Some alice /\
  user_named (username_text sample_text (JsonString "mallory"))
             (users (db sample_world)) = None /\
  fst (post_api_login sample_text sample_digest alice_numeric_login sample_world)
    = error_response 500 "Login failed" /\
  fst (post_api_login sample_text sample_digest mallory_numeric_login sample_world)
    = error_response 401 "Invalid credentials" /\
  fst (post_api_login sample_text sample_digest alice_numeric_login sample_world)
    <> fst (post_api_login sample_text sample_digest mallory_numeric_login
              sample_world).
Proof. repeat split; vm_compute; try reflexivity; discriminate. Qed.

Lemma login_failures_indistinguishable_witness :
  login_username bob_login = Some (JsonString "bob") /\
  login_password bob_login = Some (JsonString "pw2") /\
  login_username alice_wrong_login = Some (JsonString "alice") /\
  login_password alice_wrong_login = Some (JsonString "wrong") /\
  json_truthy (Some (JsonString "bob")) = true /\
  json_truthy (Some (JsonString "pw2")) = true /\
  json_truthy (Some (JsonString "alice")) = true /\
  json_truthy (Some (JsonString "wrong")) = true /\
  statement_ok sample_world /\ statement_ok sample_world /\
  user_named (username_text sample_text (JsonString "bob"))
             (users (db sample_world)) = None /\
  user_named (username_text sample_text (JsonString "alice"))
             (users (db sample_world)) = Some alice /\
  fst (post_api_login sample_text sample_digest bob_login sample_world)
    = error_response 401 "Invalid credentials" /\
  (forall s, JsonString "wrong" = JsonString s ->
     UserRow.password_hash alice <> sha256_hex sample_digest s ->
     fst (post_api_login sample_text sample_digest alice_wrong_login sample_world)
       = fst (post_api_login sample_text sample_digest bob_login sample_world)) /\
  ((forall s, JsonString "wrong" <> JsonString s) ->
     fst (post_api_login sample_text sample_digest alice_wrong_login sample_world)
       = error_response 500 "Login failed" /\
     fst (post_api_login sample_text sample_digest alice_wrong_login sample_world)
       <> fst (post_api_login sample_text sample_digest bob_login sample_world)) /\
  db (snd (post_api_login sample_text sample_digest bob_login sample_world))
    = db sample_world /\
  db (snd (post_api_login sample_text sample_digest alice_wrong_login sample_world))
    = db sample_world.
Proof.
  do 12 (split; [reflexivity|]).
  exact (login_failures_indistinguishable sample_text sample_digest
           sample_world sample_world bob_login alice_wrong_login
           (JsonString "bob") (JsonString "alice")
           (JsonString "pw2") (JsonString "wrong") alice
           eq_refl eq_refl eq_refl eq_refl eq_refl eq_refl eq_refl eq_refl
           eq_refl eq_refl eq_refl eq_refl).
Defined.

(** With string passwords the two failures look alike. *)
Example string_password_failures :
  fst (post_api_login sample_text sample_digest bob_login sample_world)
    = error_response 401 "Invalid credentials" /\
  fst (post_api_login sample_text sample_digest alice_wrong_login sample_world)
    = error_response 401 "Invalid credentials".
Proof. split; vm_compute; reflexivity. Qed.

Lemma download_not_found_cases_witness :
  statement_ok sample_world_orphan /\
  (find (fun r => String.eqb (FileRow.filename r) "files-1700000000900-42.txt")
        (files (db sample_world_orphan)) = None ->
   fst (get_api_download "files-1700000000900-42.txt" sample_world_orphan)
     = error_response 404 "File not found") /\
  (forall file,
     find (fun r => String.eqb (FileRow.filename r) "files-1700000000900-42.txt")
          (files (db sample_world_orphan)) = Some file ->
     existsSync (FileRow.file_path file) sample_world_orphan = false ->
     fst (get_api_download "files-1700000000900-42.txt" sample_world_orphan) =
     error_response 404 "Physical file not found on server") /\
  error_response 404 "File not found" <>
  error_response 404 "Physical file not found on server".
Proof.
  assert (H : statement_ok sample_world_orphan) by reflexivity.
  split; [exact H|].
  exact (download_not_found_cases sample_world_orphan
           "files-1700000000900-42.txt" H).
Defined.

(** The two not-found answers on concrete requests: a name nobody stored,
    and the name of a record whose bytes are gone. *)
Example download_samples :
  fst (get_api_download "files-1-1.txt" sample_world_orphan)
    = error_response 404 "File not found" /\
  fst (get_api_download "files-1700000000900-42.txt" sample_world_orphan)
    = error_response 404 "Physical file not found on server".
Proof. split; vm_compute; reflexivity. Qed.



(** Two uploads of user 1, two seconds apart, then the listing: logo.png,
    uploaded last, comes first. *)
Example listing_after_two_uploads :
  map FileRow.filename
      (match fst (getFilesByUserId sample_literal (JsNumber 1) after_upload_2) with
       | Returned rows => rows
       | Thrown _ => []
       end)
  = ["files-1700000002900-43.png"; "files-1700000000900-42.txt"]%string.
Proof. vm_compute. reflexivity. Qed.

Lemma databasePath_is_undefined_witness :
  require_config sample_dirname None sample_world_with_properties
    = (Returned sample_exports, sample_world_with_properties) /\
  dom sample_exports
    = ({["uploadPath"; "maxFileSize"; "maxFiles"; "env"]} : gset string) /\
  sample_exports !! "databasePath"%string = None /\
  js_get sample_exports "databasePath" = JsUndefined /\
  forall w0, Database_init sample_exports w0 = (Thrown Path.invalid_path_argument, w0).
Proof.
  assert (H : require_config sample_dirname None sample_world_with_properties
              = (Returned sample_exports, sample_world_with_properties))
    by (vm_compute; reflexivity).
  split; [exact H|].
  exact (databasePath_is_undefined sample_dirname None
           sample_world_with_properties sample_world_with_properties
           sample_exports H).
Defined.

(** What the sample properties file yields for the keys the server reads. *)
Example sample_exports_values :
  js_get sample_exports "uploadPath" = JsString "./uploads" /\
  js_get sample_exports "maxFileSize" = JsNumber 10485760 /\
  js_get sample_exports "maxFiles" = JsNumber 5 /\
  js_get sample_exports "env" = JsString "local" /\
  js_get sample_exports "databasePath" = JsUndefined.
Proof. repeat split; vm_compute; reflexivity. Qed.

Lemma upload_timestamp_is_fresh_witness :
  status (fst (post_api_upload sample_literal sample_config sample_digest
                 sample_upload sample_world_disk_slow)) = 201 /\
  exists ds rows,
    fst (post_api_upload sample_literal sample_config sample_digest sample_upload
           sample_world_disk_slow) = files_uploaded ds /\
    files (db (snd (post_api_upload sample_literal sample_config sample_digest
                      sample_upload sample_world_disk_slow)))
      = files (db sample_world_disk_slow) ++ rows /\
    length ds = length (parts sample_upload) /\
    length rows = length (parts sample_upload) /\
    forall i d row,
      ds !! i = Some d -> rows !! i = Some row ->
      Descriptor.id d = FileRow.id row /\
      FileRow.uploaded_at row
        = SqlSeconds (clock_after (S i) sample_world_disk_slow / 1000) /\
      Descriptor.uploadedAt d
        = IsoMillis (clock_after (S (S i)) sample_world_disk_slow) /\
      clock_after (S i) sample_world_disk_slow
        <= clock_after (S (S i)) sample_world_disk_slow /\
      instant_ms (FileRow.uploaded_at row)
        <= instant_ms (Descriptor.uploadedAt d) /\
      (instant_ms (FileRow.uploaded_at row)
         = instant_ms (Descriptor.uploadedAt d) <->
       clock_after (S (S i)) sample_world_disk_slow
         = clock_after (S i) sample_world_disk_slow /\
       clock_after (S i) sample_world_disk_slow mod 1000 = 0).
Proof.
  assert (H : status (fst (post_api_upload sample_literal sample_config
                             sample_digest sample_upload sample_world_disk_slow))
              = 201)
    by (vm_compute; reflexivity).
  split; [exact H|].
  exact (proj1 (upload_timestamp_is_fresh sample_literal sample_config
                  sample_digest sample_upload sample_world_disk_slow) H).
Defined.

(** The same upload, entry by entry: the lookup takes 10 ms, the insert of
    hello.txt 250 ms, the insert of logo.png 400 ms. *)
Example upload_timestamps_on_a_slow_disk :
  match fst (post_api_upload sample_literal sample_config sample_digest
               sample_upload sample_world_disk_slow) with
  | {| body := JsonBody (JObj [_; (_, JArr [JObj d1; JObj d2])]) |} =>
      (d1 !! 6%nat, d2 !! 6%nat)
  | _ => (None, None)
  end
  = (Some ("uploadedAt"%string, JTime (IsoMillis 1700000001160)),
     Some ("uploadedAt"%string, JTime (IsoMillis 1700000001560))) /\
  map FileRow.uploaded_at
      (files (db (snd (post_api_upload sample_literal sample_config sample_digest
                         sample_upload sample_world_disk_slow))))
  = [SqlSeconds 1700000000; SqlSeconds 1700000001].
Proof. split; vm_compute; reflexivity. Qed.

(** * The further properties on concrete inputs *)

Lemma config_without_properties_file_witness :
  existsSync (propertiesFile sample_dirname
                (if Js.truthy (Some "prod"%string)
                 then default EmptyString (Some "prod"%string)
                 else "local")) sample_world_with_properties
    = false /\
  require_config sample_dirname (Some "prod"%string)
      sample_world_with_properties =
    (Thrown ("Properties file not found: " +:+
             propertiesFile sample_dirname
               (if Js.truthy (Some "prod"%string)
                then default EmptyString (Some "prod"%string)
                else "local")), sample_world_with_properties) /\
  (Some "prod"%string = None \/ Some "prod"%string = Some EmptyString ->
   require_config sample_dirname (Some "prod"%string)
       sample_world_with_properties =
     (Thrown ("Properties file not found: " +:+
              Path.join_all [sample_dirname; "properties";
                             "application-local.properties"]%string),
      sample_world_with_properties)).
Proof.
  assert (H : existsSync (propertiesFile sample_dirname
                            (if Js.truthy (Some "prod"%string)
                             then default EmptyString (Some "prod"%string)
                             else "local")) sample_world_with_properties
              = false) by (vm_compute; reflexivity).
  split; [exact H|].
  exact (config_without_properties_file sample_dirname (Some "prod"%string)
           sample_world_with_properties H).
Defined.

(** The message names the absolute path of the file that is missing. *)
Example missing_properties_message :
  fst (require_config sample_dirname (Some "prod"%string)
         sample_world_with_properties)
    = Thrown ("Properties file not found: "
              +:+ "/srv/nik-server/properties/application-prod.properties").
Proof. vm_compute. reflexivity. Qed.


(** The odd properties file, loaded: the later line wins, blanks are
    trimmed, and the value stops at its equals sign. *)
Example odd_properties_loaded :
  match fst (require_config sample_dirname (Some "dev"%string) sample_world_odd_properties) with
  | Returned exports => js_get exports "uploadPath"
  | Thrown _ => JsUndefined
  end = JsString "./data".
Proof. vm_compute. reflexivity. Qed.

(** A byte order mark at the start of the file is trimmed away with the
    blanks of the first line. *)
Example bom_properties_loaded :
  match fst (require_config sample_dirname None sample_world_bom_properties) with
  | Returned exports => js_get exports "uploadPath"
  | Thrown _ => JsUndefined
  end = JsString "./uploads".
Proof. vm_compute. reflexivity. Qed.

Lemma blank_properties_file_exports_witness :
  disk sample_world_blank_properties
    !! propertiesFile sample_dirname
         (if Js.truthy None then default EmptyString None else "local")
    = Some (list_byte_of_string
              ("# nothing here" +:+ String newline "   " +:+ String newline "")) /\
  Forall skipped_line
    (JsNum.split newline
       (string_of_list_byte
          (list_byte_of_string
             ("# nothing here" +:+ String newline "   " +:+ String newline "")))) /\
  exists exports,
    require_config sample_dirname None sample_world_blank_properties
      = (Returned exports, sample_world_blank_properties) /\
    js_get exports "uploadPath" = JsUndefined /\
    js_get exports "maxFileSize" = JsNaN /\
    js_get exports "maxFiles" = JsNaN /\
    js_get exports "env" =
      JsString (if Js.truthy None then default EmptyString None else "local").
Proof.
  assert (H1 : disk sample_world_blank_properties
    !! propertiesFile sample_dirname
         (if Js.truthy None then default EmptyString None else "local")
    = Some (list_byte_of_string
              ("# nothing here" +:+ String newline "   " +:+ String newline "")))
    by (vm_compute; reflexivity).
  assert (H2 : Forall skipped_line
    (JsNum.split newline
       (string_of_list_byte
          (list_byte_of_string
             ("# nothing here" +:+ String newline "   " +:+ String newline ""))))).
  { assert (E : JsNum.split newline
       (string_of_list_byte
          (list_byte_of_string
             ("# nothing here" +:+ String newline "   " +:+ String newline "")))
       = ["# nothing here"; "   "; ""]%string) by (vm_compute; reflexivity).
    rewrite E.
    constructor; [right; vm_compute; reflexivity|].
    constructor; [left; vm_compute; reflexivity|].
    constructor; [left; vm_compute; reflexivity|].
    constructor. }
  split; [exact H1|]. split; [exact H2|].
  exact (blank_properties_file_exports sample_dirname None
           sample_world_blank_properties _ H1 H2).
Defined.

Lemma createUser_then_lookup_witness :
  createUser "bob" "bob@x.com" "707732" sample_world
    = (Returned bob_user, world_with_bob_row) /\
  exists row,
    users (db world_with_bob_row) = users (db sample_world) ++ [row] /\
    UserRow.id row = NewUser.id bob_user /\
    UserRow.username row = "bob"%string /\ UserRow.email row = "bob@x.com"%string /\
    UserRow.password_hash row = "707732"%string /\
    Forall (fun u => UserRow.id u < NewUser.id bob_user) (users (db sample_world)) /\
    (statement_ok world_with_bob_row ->
     fst (getUserByUsername sample_text (JsonString "bob") world_with_bob_row)
       = Returned (Some row) /\
     fst (getUserById sample_literal (JsNumber (NewUser.id bob_user)) world_with_bob_row)
       = Returned (Some row)) /\
    (forall name2 mail2 hash2 w2 user2 w3,
       In row (users (db w2)) ->
       createUser name2 mail2 hash2 w2 = (Returned user2, w3) ->
       NewUser.id bob_user < NewUser.id user2).
Proof.
  assert (H : createUser "bob" "bob@x.com" "707732" sample_world
              = (Returned bob_user, world_with_bob_row))
    by (vm_compute; reflexivity).
  split; [exact H|].
  exact (createUser_then_lookup sample_literal sample_text "bob" "bob@x.com"
           "707732" sample_world
           world_with_bob_row bob_user H).
Defined.

Lemma createFile_then_lookup_witness :
  createFile sample_literal (JsString "1") "hello.txt" "files-1700000000900-42.txt"
    "uploads/files-1700000000900-42.txt" 5 "text/plain" "68656c6c6f" sample_world
    = (Returned hello_dbfile, after_upload_1) /\
  exists row,
    files (db after_upload_1) = files (db sample_world) ++ [row] /\
    FileRow.id row = DbFile.id hello_dbfile /\
    FileRow.filename row = "files-1700000000900-42.txt"%string /\
    FileRow.file_path row = "uploads/files-1700000000900-42.txt"%string /\
    FileRow.original_name row = "hello.txt"%string /\
    FileRow.file_size row = 5 /\ FileRow.mime_type row = "text/plain"%string /\
    FileRow.file_hash row = "68656c6c6f"%string /\
    Forall (fun r => FileRow.id r < DbFile.id hello_dbfile) (files (db sample_world)) /\
    (statement_ok after_upload_1 ->
     fst (getFileById sample_literal (JsNumber (DbFile.id hello_dbfile))
            after_upload_1)
       = Returned (Some row) /\
     (Forall (fun r => FileRow.filename r <> "files-1700000000900-42.txt"%string)
             (files (db sample_world)) ->
      fst (getFileByFilename "files-1700000000900-42.txt" after_upload_1)
        = Returned (Some row))).
Proof.
  assert (H : createFile sample_literal (JsString "1") "hello.txt" "files-1700000000900-42.txt"
    "uploads/files-1700000000900-42.txt" 5 "text/plain" "68656c6c6f" sample_world
    = (Returned hello_dbfile, after_upload_1)) by (vm_compute; reflexivity).
  split; [exact H|].
  exact (createFile_then_lookup sample_literal _ _ _ _ _ _ _ _ _ _ H).
Defined.

Lemma createFile_ignores_users_witness :
  statement_ok sample_world /\ sql_bind sample_literal (JsNumber 77) <> SqlNull /\
  exists f w1 row,
    createFile sample_literal (JsNumber 77) "hello.txt" "files-1-1.txt" "uploads/files-1-1.txt" 5
      "text/plain" "68656c6c6f" sample_world = (Returned f, w1) /\
    files (db w1) = files (db sample_world) ++ [row] /\
    users (db w1) = users (db sample_world) /\
    FileRow.user_id row = sql_bind sample_literal (JsNumber 77) /\
    (find (fun u => SqlVal_eqb (SqlInt (UserRow.id u)) (sql_bind sample_literal (JsNumber 77)))
          (users (db sample_world)) = None ->
     find (fun u => SqlVal_eqb (SqlInt (UserRow.id u)) (FileRow.user_id row))
          (users (db w1)) = None).
Proof.
  assert (H1 : statement_ok sample_world) by reflexivity.
  assert (H2 : sql_bind sample_literal (JsNumber 77) <> SqlNull) by discriminate.
  split; [exact H1|]. split; [exact H2|].
  exact (createFile_ignores_users sample_literal (JsNumber 77) "hello.txt"
           "files-1-1.txt"
           "uploads/files-1-1.txt" 5 "text/plain" "68656c6c6f" sample_world
           H1 H2).
Defined.

(** User 77 does not exist in [sample_world], and the record is made. *)
Example record_for_nobody :
  find (fun u => SqlVal_eqb (SqlInt (UserRow.id u)) (SqlInt 77))
       (users (db sample_world)) = None /\
  map FileRow.user_id
      (files (db (snd (createFile sample_literal (JsNumber 77) "hello.txt" "files-1-1.txt"
                         "uploads/files-1-1.txt" 5 "text/plain" "68656c6c6f"
                         sample_world))))
    = [SqlInt 77].
Proof. split; vm_compute; reflexivity. Qed.


Lemma login_accepts_only_matching_hash_witness :
  status (fst (post_api_login sample_text sample_digest bob_right_login world_with_bob)) = 200 /\
  exists uname pass user,
    login_username bob_right_login = Some uname /\
    login_password bob_right_login = Some (JsonString pass) /\
    In user (users (db world_with_bob)) /\
    username_text sample_text uname = Some (UserRow.username user) /\
    (forall name, uname = JsonString name -> UserRow.username user = name) /\
    UserRow.password_hash user
      = Hex.encode (sample_digest (list_byte_of_string pass)) /\
    fst (post_api_login sample_text sample_digest bob_right_login world_with_bob) =
      json_response 200
        (JObj [("id", JNum (UserRow.id user));
               ("username", JStr (UserRow.username user));
               ("email", JStr (UserRow.email user))]%string).
Proof.
  assert (H : status (fst (post_api_login sample_text sample_digest bob_right_login
                             world_with_bob)) = 200) by (vm_compute; reflexivity).
  split; [exact H|].
  exact (login_accepts_only_matching_hash sample_text sample_digest
           bob_right_login
           world_with_bob H).
Defined.

Lemma refused_request_stores_nothing_witness :
  refused_by_multer sample_config (parts mixed_upload) /\
  fst (post_api_upload sample_literal sample_config sample_digest mixed_upload sample_world)
    = error_response 500 "Internal server error" /\
  db (snd (post_api_upload sample_literal sample_config sample_digest mixed_upload sample_world))
    = db sample_world /\
  (forall q,
     disk (snd (post_api_upload sample_literal sample_config sample_digest mixed_upload sample_world))
       !! q = None \/
     disk (snd (post_api_upload sample_literal sample_config sample_digest mixed_upload sample_world))
       !! q = disk sample_world !! q).
Proof.
  assert (H : refused_by_multer sample_config (parts mixed_upload)).
  { right. apply Exists_cons_tl, Exists_cons_hd. right. left.
    vm_compute. discriminate. }
  split; [exact H|].
  exact (refused_request_stores_nothing sample_literal sample_config
           sample_digest mixed_upload sample_world H).
Defined.

(** hello.txt was stored before run.exe was met, and is removed again. *)
Example mixed_upload_leaves_empty_disk :
  disk (snd (post_api_upload sample_literal sample_config sample_digest mixed_upload sample_world))
    !! "uploads/files-1700000000900-42.txt"%string = None /\
  files (db (snd (post_api_upload sample_literal sample_config sample_digest mixed_upload
                    sample_world))) = [].
Proof. split; vm_compute; reflexivity. Qed.

Lemma upload_without_files_witness :
  parts empty_upload = [] /\ statement_ok sample_world /\
  fst (post_api_upload sample_literal sample_config sample_digest empty_upload sample_world) =
    (if negb (Js.truthy (userId empty_upload))
     then error_response 400 "User ID is required"
     else match find (fun u => SqlVal_eqb (SqlInt (UserRow.id u))
                                 (numeric_affinity sample_literal
                                    (default EmptyString (userId empty_upload))))
                     (users (db sample_world)) with
          | None => error_response 401 "Invalid user"
          | Some _ => error_response 400 "No files provided"
          end) /\
  db (snd (post_api_upload sample_literal sample_config sample_digest empty_upload sample_world))
    = db sample_world /\
  disk (snd (post_api_upload sample_literal sample_config sample_digest empty_upload sample_world))
    = disk sample_world.
Proof.
  assert (H1 : parts empty_upload = []) by reflexivity.
  assert (H2 : statement_ok sample_world) by reflexivity.
  split; [exact H1|]. split; [exact H2|].
  exact (upload_without_files sample_literal sample_config sample_digest
           empty_upload sample_world H1 H2).
Defined.

(** User 1 exists, so the empty upload is told that files are missing. *)
Example empty_upload_answer :
  fst (post_api_upload sample_literal sample_config sample_digest empty_upload sample_world)
    = error_response 400 "No files provided".
Proof. vm_compute. reflexivity. Qed.

(** The engine reads [long_decimal] as the number 1, user 1 exists, and
    the empty upload under that id is told that files are missing. *)
Example long_decimal_user_is_found :
  fst (post_api_upload sample_literal sample_config sample_digest
         long_decimal_empty_upload sample_world)
    = error_response 400 "No files provided".
Proof. vm_compute. reflexivity. Qed.


(** Downloading hello.txt after the sample upload. *)
Example download_after_upload :
  fst (get_api_download "files-1700000000900-42.txt" after_sample_upload)
    = {| status := 200; headers := part_headers hello_txt;
         body := StreamBody (list_byte_of_string "hello") |}.
Proof. vm_compute. reflexivity. Qed.

(** A file uploaded under a name that holds U+20AC is stored and
    recorded, and its download fails when the headers are set. *)
Example download_of_unprintable_name :
  status (fst (post_api_upload sample_literal sample_config sample_digest
                 euro_upload sample_world)) = 201 /\
  valid_header_value (Part.originalname euro_txt) = false /\
  fst (get_api_download "files-1700000000900-42.txt" after_euro_upload)
    = error_response 500 "Download failed".
Proof. repeat split; vm_compute; reflexivity. Qed.

Lemma upload_then_list_witness :
  status (fst (post_api_upload sample_literal sample_config sample_digest
                 sample_upload sample_world))
    = 201 /\
  exists uid n ds rows,
    userId sample_upload = Some uid /\
    numeric_affinity sample_literal uid = SqlInt n /\
    fst (post_api_upload sample_literal sample_config sample_digest sample_upload
           sample_world)
      = files_uploaded ds /\
    files (db (snd (post_api_upload sample_literal sample_config sample_digest
                      sample_upload sample_world)))
      = files (db sample_world) ++ rows /\
    Forall2 (fun d r =>
               FileRow.id r = Descriptor.id d /\
               FileRow.filename r = Descriptor.filename d /\
               FileRow.original_name r = Descriptor.originalName d /\
               FileRow.file_size r = Descriptor.size d /\
               FileRow.file_hash r = Descriptor.hash d)
            ds rows /\
    forall id w2,
      JsNum.parseInt id = JsNumber n ->
      db w2 = db (snd (post_api_upload sample_literal sample_config sample_digest
                         sample_upload sample_world)) ->
      script w2 = [] ->
      exists listed,
        fst (get_api_users_files sample_literal id w2) =
          json_response 200 (JObj [("files"%string, JArr (map file_entry listed))]) /\
        (forall r, In r rows -> In r listed) /\
        newest_first listed /\
        (forall k,
           filter (fun r => time_key (FileRow.uploaded_at r) = k) listed
           = filter (fun r => time_key (FileRow.uploaded_at r) = k)
               (filter (fun r => FileRow.user_id r = SqlInt n)
                       (files (db sample_world)))
             ++ filter (fun r => time_key (FileRow.uploaded_at r) = k) rows).
Proof.
  assert (H : status (fst (post_api_upload sample_literal sample_config sample_digest
                             sample_upload sample_world)) = 201)
    by (vm_compute; reflexivity).
  split; [exact H|].
  exact (upload_then_list sample_literal sample_config sample_digest
           sample_upload sample_world H).
Defined.

(** The two files of the sample upload are recorded in the same second,
    and the listing gives them in the order of the upload. *)
Example listing_after_sample_upload :
  match fst (get_api_users_files sample_literal "1" after_sample_upload) with
  | {| body := JsonBody (JObj [(_, JArr [JObj e1; JObj e2])]) |} =>
      (e1 !! 1%nat, e2 !! 1%nat)
  | _ => (None, None)
  end
  = (Some ("originalName"%string, JStr "hello.txt"),
     Some ("originalName"%string, JStr "logo.png")).
Proof. vm_compute. reflexivity. Qed.

Lemma list_for_unknown_user_witness :
  statement_ok sample_world /\
  (JsNum.parseInt "abc" = JsNaN \/
   (exists negative, JsNum.parseInt "abc" = JsInfinity negative) \/
   (exists n, JsNum.parseInt "abc" = JsNumber n /\
              Forall (fun u => UserRow.id u <> n) (users (db sample_world)))) /\
  fst (get_api_users_files sample_literal "abc" sample_world)
    = error_response 404 "User not found".
Proof.
  assert (H1 : statement_ok sample_world) by reflexivity.
  assert (H2 : JsNum.parseInt "abc" = JsNaN \/
               (exists negative, JsNum.parseInt "abc" = JsInfinity negative) \/
               (exists n, JsNum.parseInt "abc" = JsNumber n /\
                          Forall (fun u => UserRow.id u <> n)
                                 (users (db sample_world))))
    by (left; reflexivity).
  split; [exact H1|]. split; [exact H2|].
  exact (list_for_unknown_user sample_literal "abc" sample_world H1 H2).
Defined.

(** Blanks before the digits are skipped, U+00A0 among them, and digits
    beyond the precision of a double are rounded away. *)
Example list_with_blank_before_id :
  JsNum.parseInt (nbsp +:+ "1") = JsNumber 1 /\
  JsNum.parseInt "9007199254740993" = JsNumber 9007199254740992 /\
  status (fst (get_api_users_files sample_literal (nbsp +:+ "1") after_upload_1))
    = 200.
Proof. repeat split; vm_compute; reflexivity. Qed.

Lemma acceptable_request_is_stored_witness :
  uploadPath sample_config ∈ dirs sample_world /\
  (length [hello_txt; logo_png] <= maxFiles sample_config)%nat /\
  Forall (fun p => Part.fieldname p = "files"%string /\ fileFilter p = Accept /\
                   (length (Part.content p) < maxFileSize sample_config)%nat)
         [hello_txt; logo_png] /\
  exists accepted w1,
    upload_array sample_config [hello_txt; logo_png] [] sample_world
      = (Returned accepted, w1) /\
    Forall2 (stored_as sample_config) [hello_txt; logo_png] accepted /\
    Forall (fun f => is_Some (disk w1 !! File.path f)) accepted.
Proof.
  assert (H1 : uploadPath sample_config ∈ dirs sample_world)
    by (vm_compute; reflexivity).
  assert (H2 : (length [hello_txt; logo_png] <= maxFiles sample_config)%nat)
    by (vm_compute; lia).
  assert (H3 : Forall (fun p => Part.fieldname p = "files"%string /\
                                fileFilter p = Accept /\
                                (length (Part.content p) < maxFileSize sample_config)%nat)
                      [hello_txt; logo_png]).
  { repeat constructor; vm_compute; lia. }
  split; [exact H1|]. split; [exact H2|]. split; [exact H3|].
  exact (acceptable_request_is_stored sample_config [hello_txt; logo_png]
           sample_world H1 H2 H3).
Defined.

(** A part of exactly [maxFileSize] bytes is refused, and nothing of the
    request is stored. *)
Example part_of_limit_size_refused :
  length (Part.content full_txt) = maxFileSize sample_config /\
  fst (post_api_upload sample_literal sample_config sample_digest full_upload
         sample_world)
    = error_response 500 "Internal server error" /\
  disk (snd (post_api_upload sample_literal sample_config sample_digest
               full_upload sample_world)) = disk sample_world.
Proof. repeat split; vm_compute; reflexivity. Qed.

Lemma storage_names_differ_witness :
  fst (storage_filename hello_txt sample_world)
    = Returned "files-1700000000900-42.txt"%string /\
  fst (storage_filename hello_txt sample_world_other_draw)
    = Returned "files-1700000000900-43.txt"%string /\
  Part.fieldname hello_txt = Part.fieldname hello_txt /\
  Path.extname (Part.originalname hello_txt) = Path.extname (Part.originalname hello_txt) /\
  now sample_world = now sample_world_other_draw /\
  ("files-1700000000900-42.txt"%string = "files-1700000000900-43.txt"%string <->
   hd 0 (random sample_world) = hd 0 (random sample_world_other_draw)).
Proof.
  assert (H1 : fst (storage_filename hello_txt sample_world)
               = Returned "files-1700000000900-42.txt"%string)
    by (vm_compute; reflexivity).
  assert (H2 : fst (storage_filename hello_txt sample_world_other_draw)
               = Returned "files-1700000000900-43.txt"%string)
    by (vm_compute; reflexivity).
  split; [exact H1|]. split; [exact H2|]. do 3 (split; [reflexivity|]).
  exact (storage_names_differ hello_txt hello_txt sample_world
           sample_world_other_draw _ _ H1 H2 eq_refl eq_refl eq_refl).
Defined.

Lemma upload_ids_increase_witness :
  status (fst (post_api_upload sample_literal sample_config sample_digest sample_upload sample_world))
    = 201 /\
  exists ds,
    fst (post_api_upload sample_literal sample_config sample_digest sample_upload sample_world)
      = files_uploaded ds /\
    StronglySorted Z.lt (map Descriptor.id ds) /\
    NoDup (map Descriptor.id ds) /\
    Forall (fun d => Forall (fun r => FileRow.id r < Descriptor.id d)
                            (files (db sample_world)))
           ds.
Proof.
  assert (H : status (fst (post_api_upload sample_literal sample_config sample_digest
                             sample_upload sample_world)) = 201)
    by (vm_compute; reflexivity).
  split; [exact H|].
  exact (upload_ids_increase sample_literal sample_config sample_digest
           sample_upload sample_world H).
Defined.
